(** * Compliance evaluation and failure classification of [nonlinearity]

    A shallow embedding of the numeric core of the package
    ([core/compliance.py], [core/linearisation.py], [core/metrics.py],
    [analysis/recovery.py], [analysis/nonstationarity.py], with the parts of
    [config.py] and [data/validators.py] they use), of the summary tables
    built from processed frames ([analysis/statistics.py], [data/loaders.py],
    [core/processors.py]) and of the retry decorator
    ([utils/decorators.py]), followed by the properties of the
    classification, the recovery-time scan, the non-stationarity score, the
    pipeline as a whole, the validators, the summaries and the decorator.

    Numbers are IEEE binary64 values ([PrimFloat.float], the [float64] of
    numpy and the [float] of Python); a DataFrame is a row count with a finite
    map from column names to typed columns; a Python exception is the error
    branch of [res]. *)

From Stdlib Require Import ZArith Floats.
From stdpp Require Import gmap strings list.

Set Warnings "-inexact-float".

Open Scope float_scope.

(** ** Exceptions *)

Inductive exn :=
  | KeyError (key : string)
  | TypeError
  | ValueError (msg : string)
  | DataValidationError (msg : string) (cols : list string).

Inductive res (A : Type) :=
  | Ok (a : A)
  | Raise (e : exn).
Arguments Ok {A} a.
Arguments Raise {A} e.

#[global] Instance res_ret : MRet res := fun A a => Ok a.
#[global] Instance res_bind : MBind res := fun A B f m =>
  match m with Ok a => f a | Raise e => Raise e end.

(** ** numpy and pandas primitives used by the package

    These follow the documented behaviour of the library calls that appear in
    the sources: reductions skip NaN ([skipna=True]) and give NaN on an empty
    selection, the sample variance uses [ddof=1], comparisons with NaN are
    false, and a float division never raises. *)

Definition dropna (xs : list float) : list float :=
  filter (fun x => is_nan x = false) xs.

(** [np.minimum] / [np.maximum] on operands that are not NaN. *)
Definition minimum (a b : float) : float := if a <=? b then a else b.
Definition maximum (a b : float) : float := if b <=? a then a else b.

(** [Series.min()], [Series.max()], and one row of [DataFrame.min(axis=1)],
    [DataFrame.max(axis=1)]. *)
Definition nanmin (xs : list float) : float :=
  match dropna xs with
  | [] => nan
  | x :: r => fold_left minimum r x
  end.

Definition nanmax (xs : list float) : float :=
  match dropna xs with
  | [] => nan
  | x :: r => fold_left maximum r x
  end.

(** What a float division by a zero range leaves behind [abs]. *)
Definition inf_or_nan (x : float) : Prop := x = infinity \/ x = nan.

(** Conversion of a Python [int] to a float (round to nearest even). *)
Definition Z_to_float (n : Z) : float :=
  SF2Prim (binary_normalize prec emax n 0 false).

Definition fsum (xs : list float) : float := fold_left add xs 0.

(** [Series.mean()]: NaN skipped, NaN when nothing is left. *)
Definition series_mean (xs : list float) : float :=
  match dropna xs with
  | [] => nan
  | ys => fsum ys / Z_to_float (Z.of_nat (length ys))
  end.

(** [Series.var()]: two passes, [ddof = 1]; NaN unless there are at least two
    observations. *)
Definition series_var (xs : list float) : float :=
  let ys := dropna xs in
  let count := length ys in
  if (count <=? 1)%nat then nan
  else
    let avg := fsum ys / Z_to_float (Z.of_nat count) in
    fsum (map (fun y => (avg - y) * (avg - y)) ys)
      / Z_to_float (Z.of_nat (count - 1)).

(** [Series.rolling(window).var()]: position [i] holds the variance of the
    [window] values ending at [i], NaN while fewer than [window] values are
    available.  A negative window is refused when the rolling object is
    built. *)
Definition rolling_var (xs : list float) (window : Z) : res (list float) :=
  if (window <? 0)%Z then Raise (ValueError "window must be an integer 0 or greater")
  else
    let w := Z.to_nat window in
    Ok (map (fun i =>
               if (S i <? w)%nat || (w =? 0)%nat then nan
               else series_var (take w (drop (S i - w) xs)))
            (seq 0 (length xs))).

(** [np.mean] of a non-empty Python list of floats (summed left to right). *)
Definition np_mean (xs : list float) : float :=
  fsum xs / Z_to_float (Z.of_nat (length xs)).

(** [np.where(c, x, y)] on aligned one-dimensional arrays. *)
Fixpoint np_where {A} (c : list bool) (x y : list A) : list A :=
  match c, x, y with
  | b :: c', u :: x', v :: y' => (if b then u else v) :: np_where c' x' y'
  | _, _, _ => []
  end.

(** [np.select(condlist, choicelist, default)]: per position the choice of
    the first condition that holds, else the default. *)
Fixpoint np_select {A} (condlist : list (list bool)) (choicelist : list (list A))
    (default : list A) : list A :=
  match condlist, choicelist with
  | c :: conds, v :: choices => np_where c v (np_select conds choices default)
  | _, _ => default
  end.

(** Python's [round(x, 2)] on a float: the decimal with two places nearest to
    the exact value of [x] (ties to even), read back as a float. Values that
    are not finite, zero, or of magnitude at least 2^46 (whose spacing
    already exceeds 0.01) are returned unchanged. *)
Definition round_half_even_scaled (m : positive) (e : Z) : Z :=
  let M := (Z.pos m * 100)%Z in
  if (0 <=? e)%Z then Z.shiftl M e
  else
    let d := Z.shiftl 1 (- e) in
    let q := (M / d)%Z in
    let r := (M mod d)%Z in
    match (2 * r ?= d)%Z with
    | Lt => q
    | Gt => (q + 1)%Z
    | Eq => if Z.even q then q else (q + 1)%Z
    end.

Definition py_round2 (x : float) : float :=
  match Prim2SF x with
  | S754_finite s m e =>
      if 0x1p46 <=? abs x then x
      else
        let n := round_half_even_scaled m e in
        let r := Z_to_float n / 100 in
        if s then - r else r
  | _ => x
  end.

(** ** DataFrames

    A frame is its number of rows and its columns by name.  A numeric column
    holds binary64 values (an integer column of the input is read as the
    floats numpy converts it to as soon as it is divided). *)

Inductive column :=
  | FloatCol (xs : list float)
  | BoolCol (bs : list bool)
  | StrCol (ss : list string).

Record DataFrame := mkDataFrame {
  index : nat;
  columns : gmap string column
}.

Definition col_length (s : column) : nat :=
  match s with
  | FloatCol xs => length xs
  | BoolCol bs => length bs
  | StrCol ss => length ss
  end.

(** Every column of a frame has one entry per row. *)
Definition wf_frame (df : DataFrame) : Prop :=
  forall c s, columns df !! c = Some s -> col_length s = index df.

(** [df[c]] *)
Definition getitem (df : DataFrame) (c : string) : res column :=
  match columns df !! c with
  | Some s => Ok s
  | None => Raise (KeyError c)
  end.

Definition float_col (df : DataFrame) (c : string) : res (list float) :=
  s ← getitem df c;
  match s with FloatCol xs => Ok xs | _ => Raise TypeError end.

Definition bool_col (df : DataFrame) (c : string) : res (list bool) :=
  s ← getitem df c;
  match s with BoolCol bs => Ok bs | _ => Raise TypeError end.

(** The frame holds column [c] as numbers (as booleans, as strings), one
    entry per row. *)
Definition has_float (df : DataFrame) (c : string) : Prop :=
  exists xs, float_col df c = Ok xs /\ length xs = index df.
Definition has_bool (df : DataFrame) (c : string) : Prop :=
  exists bs, bool_col df c = Ok bs /\ length bs = index df.
Definition has_str (df : DataFrame) (c : string) : Prop :=
  exists ss, columns df !! c = Some (StrCol ss) /\ length ss = index df.

(** [df[c] = s] *)
Definition setitem (df : DataFrame) (c : string) (s : column) : DataFrame :=
  mkDataFrame (index df) (<[c := s]> (columns df)).

(** [df[c] = x] for a scalar [x], broadcast to every row. *)
Definition setitem_scalar (df : DataFrame) (c : string) (x : float) : DataFrame :=
  setitem df c (FloatCol (replicate (index df) x)).

(** [df.empty]: no rows or no columns. *)
Definition df_empty (df : DataFrame) : bool :=
  (index df =? 0)%nat || bool_decide (columns df = ∅).

(** Row-wise reductions [df[[c1; ...]].min(axis=1)] and [.max(axis=1)]. *)
Fixpoint zip_rows {A} (cols : list (list A)) : list (list A) :=
  match cols with
  | [] => []
  | [c] => map (fun x => [x]) c
  | c :: cs => zip_with cons c (zip_rows cs)
  end.

Definition select_floats (df : DataFrame) (cs : list string) : res (list (list float)) :=
  mapM (float_col df) cs.

Definition min_axis1 (df : DataFrame) (cs : list string) : res (list float) :=
  cols ← select_floats df cs; Ok (map nanmin (zip_rows cols)).

Definition max_axis1 (df : DataFrame) (cs : list string) : res (list float) :=
  cols ← select_floats df cs; Ok (map nanmax (zip_rows cols)).

(** Element-wise operations on columns. *)
Definition map_float (f : float -> float) (xs : list float) : list float := map f xs.
Definition sub_cols (xs ys : list float) : list float := zip_with sub xs ys.
Definition ge_scalar (xs : list float) (k : float) : list bool := map (fun x => k <=? x) xs.
Definition lt_scalar (xs : list float) (k : float) : list bool := map (fun x => x <? k) xs.
Definition lt_cols (xs ys : list float) : list bool := zip_with ltb xs ys.
Definition eq_bool (bs : list bool) (k : bool) : list bool := map (fun b => Bool.eqb b k) bs.
Definition and_cols (a b : list bool) : list bool := zip_with andb a b.
Definition or_cols (a b : list bool) : list bool := zip_with orb a b.
Definition not_col (a : list bool) : list bool := map negb a.

Infix "&&&" := and_cols (at level 40, left associativity).
Infix "|||" := or_cols (at level 50, left associativity).

(** ** config.py *)

Record ComplianceLimits := mkComplianceLimits {
  bod_upper : float;
  bod_lower : float;
  cod_upper : float;
  cod_lower : float;
  bod_pc : float;
  cod_pc : float
}.

Definition default_limits : ComplianceLimits :=
  mkComplianceLimits 50 25 250 125 0.7 0.75.

Definition TIME_STEP : float := 0.08.
Definition HOURS_PER_DAY : Z := 24.
Definition MINUTES_PER_HOUR : Z := 60.

Definition REQUIRED_COLUMNS : list string :=
  ["bod1"; "cod1"; "bod31"; "cod31"; "snh1"; "snh31"].

(** ** data/validators.py *)

Definition check_required_columns (df : DataFrame) (required_columns : option (list string))
    (raise_error : bool) : res (list string) :=
  let required_columns := default REQUIRED_COLUMNS required_columns in
  let missing := filter (fun c => columns df !! c = None) required_columns in
  if negb (bool_decide (missing = [])) && raise_error
  then Raise (DataValidationError "Missing required columns" missing)
  else Ok missing.

Definition validate_dataframe (df : DataFrame) (required_columns : option (list string))
    (allow_empty : bool) : res bool :=
  if negb allow_empty && df_empty df
  then Raise (DataValidationError "DataFrame is empty" [])
  else
    missing ← check_required_columns df required_columns false;
    if negb (bool_decide (missing = []))
    then Raise (DataValidationError "Missing required columns" missing)
    else Ok true.

(** ** core/compliance.py *)

Definition calculate_bod_limits (df : DataFrame) (limits : ComplianceLimits) : res DataFrame :=
  let result := df in
  bod31 ← float_col df "bod31";
  bod1 ← float_col df "bod1";
  let result := setitem_scalar result "BODut"
    (abs ((bod_upper limits - nanmin bod31) / (nanmax bod1 - nanmin bod31))) in
  let result := setitem_scalar result "BODlt"
    (abs ((bod_lower limits - nanmin bod31) / (nanmax bod1 - nanmin bod31))) in
  Ok result.

Definition calculate_cod_limits (df : DataFrame) (limits : ComplianceLimits) : res DataFrame :=
  let result := df in
  cod31 ← float_col df "cod31";
  cod1 ← float_col df "cod1";
  let result := setitem_scalar result "CODut"
    (abs ((cod_upper limits - nanmin cod31) / (nanmax cod1 - nanmin cod31))) in
  let result := setitem_scalar result "CODlt"
    (abs ((cod_lower limits - nanmin cod31) / (nanmax cod1 - nanmin cod31))) in
  Ok result.

Definition calculate_all_limits (df : DataFrame) (limits : option ComplianceLimits)
    : res DataFrame :=
  let limits := default default_limits limits in
  result ← calculate_bod_limits df limits;
  calculate_cod_limits result limits.

Definition calculate_flag_conditions (df : DataFrame) : res DataFrame :=
  let result := df in
  x ← float_col result "BODlt-BODeffl";
  let result := setitem result "flag_BODlt" (BoolCol (ge_scalar x 0)) in
  x ← float_col result "BODut-BODeffl";
  let result := setitem result "flag_BODut" (BoolCol (ge_scalar x 0)) in
  x ← float_col result "CODlt-CODeffl";
  let result := setitem result "flag_CODlt" (BoolCol (ge_scalar x 0)) in
  x ← float_col result "bodp";
  let result := setitem result "flag_reduction_bod" (BoolCol (ge_scalar x 0)) in
  x ← float_col result "codp";
  let result := setitem result "flag_reduction_cod" (BoolCol (ge_scalar x 0)) in
  x ← float_col result "CODut-CODeffl";
  let result := setitem result "flag_CODut" (BoolCol (ge_scalar x 0)) in
  Ok result.

(** The four per-pollutant failure predicates, as both
    [calculate_failure_conditions] and [determine_failure_type] write them. *)
Record FailureConditions := mkFailureConditions {
  fc_bod_lut_exc : list bool;
  fc_bod_max_lim : list bool;
  fc_cod_lut_exc : list bool;
  fc_cod_max_lim : list bool
}.

Definition calculate_failure_conditions (df : DataFrame) : res FailureConditions :=
  bod_psi_2 ← float_col df "bod_psi_2";
  flag_BODlt ← bool_col df "flag_BODlt";
  flag_reduction_bod ← bool_col df "flag_reduction_bod";
  flag_BODut ← bool_col df "flag_BODut";
  let bod_lut_exc :=
    lt_scalar bod_psi_2 0 &&& eq_bool flag_BODlt false
      &&& eq_bool flag_reduction_bod false &&& eq_bool flag_BODut true in
  bod_psi_3 ← float_col df "bod_psi_3";
  let bod_max_lim :=
    lt_scalar bod_psi_3 0 &&& eq_bool flag_BODlt false
      &&& eq_bool flag_BODut false &&& eq_bool flag_reduction_bod false in
  cod_psi_2 ← float_col df "cod_psi_2";
  flag_CODlt ← bool_col df "flag_CODlt";
  flag_reduction_cod ← bool_col df "flag_reduction_cod";
  flag_CODut ← bool_col df "flag_CODut";
  let cod_lut_exc :=
    lt_scalar cod_psi_2 0 &&& eq_bool flag_CODlt false
      &&& eq_bool flag_reduction_cod false &&& eq_bool flag_CODut true in
  cod_psi_3 ← float_col df "cod_psi_3";
  let cod_max_lim :=
    lt_scalar cod_psi_3 0 &&& eq_bool flag_CODlt false
      &&& eq_bool flag_CODut false &&& eq_bool flag_reduction_cod false in
  Ok (mkFailureConditions bod_lut_exc bod_max_lim cod_lut_exc cod_max_lim).

(** ** core/linearisation.py *)

Definition linearise_bod (df : DataFrame) : res DataFrame :=
  let result := df in
  bod31 ← float_col df "bod31";
  bod1 ← float_col df "bod1";
  let result := setitem result "LIN_BODe" (FloatCol
    (map_float (fun x => abs ((x - nanmin bod31) / (nanmax bod1 - nanmin bod31))) bod31)) in
  let result := setitem result "LIN_BODi" (FloatCol
    (map_float (fun x => abs ((x - nanmin bod31) / (nanmax bod1 - nanmin bod31))) bod1)) in
  Ok result.

Definition linearise_cod (df : DataFrame) : res DataFrame :=
  let result := df in
  cod31 ← float_col df "cod31";
  cod1 ← float_col df "cod1";
  let result := setitem result "LIN_CODe" (FloatCol
    (map_float (fun x => abs ((x - nanmin cod31) / (nanmax cod1 - nanmin cod31))) cod31)) in
  let result := setitem result "LIN_CODi" (FloatCol
    (map_float (fun x => abs ((x - nanmin cod31) / (nanmax cod1 - nanmin cod31))) cod1)) in
  Ok result.

Definition apply_linearisation (df : DataFrame) : res DataFrame :=
  result ← linearise_bod df;
  linearise_cod result.

Definition calculate_deviation_columns (df : DataFrame) : res DataFrame :=
  let result := df in
  BODut ← float_col result "BODut";
  LIN_BODe ← float_col result "LIN_BODe";
  let result := setitem result "BODut-BODeffl" (FloatCol (sub_cols BODut LIN_BODe)) in
  CODut ← float_col result "CODut";
  LIN_CODe ← float_col result "LIN_CODe";
  let result := setitem result "CODut-CODeffl" (FloatCol (sub_cols CODut LIN_CODe)) in
  BODlt ← float_col result "BODlt";
  LIN_BODe ← float_col result "LIN_BODe";
  let result := setitem result "BODlt-BODeffl" (FloatCol (sub_cols BODlt LIN_BODe)) in
  CODlt ← float_col result "CODlt";
  LIN_CODe ← float_col result "LIN_CODe";
  let result := setitem result "CODlt-CODeffl" (FloatCol (sub_cols CODlt LIN_CODe)) in
  Ok result.

(** [-(pc * LIN_i) + LIN_i - LIN_e], row by row. *)
Definition reduction (pc : float) (LIN_i LIN_e : list float) : list float :=
  zip_with (fun i e => - (pc * i) + i - e) LIN_i LIN_e.

Definition calculate_reduction_columns (df : DataFrame) (bod_pc cod_pc : float) : res DataFrame :=
  let result := df in
  LIN_BODi ← float_col result "LIN_BODi";
  LIN_BODe ← float_col result "LIN_BODe";
  let result := setitem result "bodp" (FloatCol (reduction bod_pc LIN_BODi LIN_BODe)) in
  LIN_CODi ← float_col result "LIN_CODi";
  LIN_CODe ← float_col result "LIN_CODe";
  let result := setitem result "codp" (FloatCol (reduction cod_pc LIN_CODi LIN_CODe)) in
  Ok result.

(** ** core/metrics.py *)

Definition calculate_psi_values (df : DataFrame) : res DataFrame :=
  let result := df in
  x ← min_axis1 result ["BODlt-BODeffl"; "bodp"];
  let result := setitem result "bod_psi_1_min" (FloatCol x) in
  x ← max_axis1 result ["BODlt-BODeffl"; "bod_psi_1_min"];
  let result := setitem result "bod_psi_1" (FloatCol x) in
  x ← min_axis1 result ["BODlt-BODeffl"; "bodp"; "BODut-BODeffl"];
  let result := setitem result "bod_psi_2" (FloatCol x) in
  x ← min_axis1 result ["BODut-BODeffl"; "bodp"];
  let result := setitem result "bod_psi_3" (FloatCol x) in
  x ← min_axis1 result ["CODlt-CODeffl"; "codp"];
  let result := setitem result "cod_psi_1_min" (FloatCol x) in
  x ← max_axis1 result ["CODlt-CODeffl"; "cod_psi_1_min"];
  let result := setitem result "cod_psi_1" (FloatCol x) in
  x ← min_axis1 result ["CODlt-CODeffl"; "codp"; "CODut-CODeffl"];
  let result := setitem result "cod_psi_2" (FloatCol x) in
  x ← min_axis1 result ["CODut-CODeffl"; "codp"];
  let result := setitem result "cod_psi_3" (FloatCol x) in
  Ok result.

Definition calculate_metric_values (df : DataFrame) : res DataFrame :=
  let result := df in
  x ← min_axis1 result ["bod_psi_2"; "cod_psi_2"];
  let result := setitem result "metric_lut" (FloatCol x) in
  x ← min_axis1 result ["bod_psi_3"; "cod_psi_3"];
  let result := setitem result "metric_max" (FloatCol x) in
  Ok result.

Definition Compliant : string := "Compliant".
Definition LUT_exceedance : string := "LUT exceedance".
Definition Max_Limit_Failure : string := "Max Limit Failure".

(** The [fail_type] assignment of [determine_failure_type]: [np.select] over
    the four conditions in their listed order, on a frame of [n] rows. *)
Definition fail_type_values : list string :=
  [LUT_exceedance; Max_Limit_Failure; LUT_exceedance; Max_Limit_Failure].

Definition assign_fail_type (n : nat) (fail_type_conditions : list (list bool))
    : list string :=
  np_select fail_type_conditions (replicate n <$> fail_type_values)
    (replicate n Compliant).

Definition determine_failure_type (df : DataFrame) : res DataFrame :=
  let result := df in
  let n := index result in
  (* failure conditions *)
  bod_psi_2 ← float_col result "bod_psi_2";
  flag_BODlt ← bool_col result "flag_BODlt";
  flag_reduction_bod ← bool_col result "flag_reduction_bod";
  flag_BODut ← bool_col result "flag_BODut";
  let bod_lut_exc :=
    lt_scalar bod_psi_2 0 &&& eq_bool flag_BODlt false
      &&& eq_bool flag_reduction_bod false &&& eq_bool flag_BODut true in
  bod_psi_3 ← float_col result "bod_psi_3";
  let bod_max_lim :=
    lt_scalar bod_psi_3 0 &&& eq_bool flag_BODlt false
      &&& eq_bool flag_BODut false &&& eq_bool flag_reduction_bod false in
  cod_psi_2 ← float_col result "cod_psi_2";
  flag_CODlt ← bool_col result "flag_CODlt";
  flag_reduction_cod ← bool_col result "flag_reduction_cod";
  flag_CODut ← bool_col result "flag_CODut";
  let cod_lut_exc :=
    lt_scalar cod_psi_2 0 &&& eq_bool flag_CODlt false
      &&& eq_bool flag_reduction_cod false &&& eq_bool flag_CODut true in
  cod_psi_3 ← float_col result "cod_psi_3";
  let cod_max_lim :=
    lt_scalar cod_psi_3 0 &&& eq_bool flag_CODlt false
      &&& eq_bool flag_CODut false &&& eq_bool flag_reduction_cod false in
  (* combined conditions *)
  let condition_2 := bod_lut_exc ||| cod_lut_exc in
  let condition_3 := bod_max_lim ||| cod_max_lim in
  (* metric selection *)
  let cond_lut := condition_2 &&& not_col condition_3 in
  let cond_max := condition_2 &&& condition_3 in
  metric_lut ← float_col result "metric_lut";
  metric_max ← float_col result "metric_max";
  let choices := [metric_lut; metric_max] in
  default_val ← max_axis1 result ["bod_psi_1"; "cod_psi_1"];
  let result := setitem result "metric"
    (FloatCol (np_select [cond_lut; cond_max] choices default_val)) in
  (* fail_type *)
  let fail_type_conditions := [bod_lut_exc; bod_max_lim; cod_lut_exc; cod_max_lim] in
  let result := setitem result "fail_type"
    (StrCol (assign_fail_type n fail_type_conditions)) in
  (* fail_source *)
  let result := setitem result "fail_source"
    (StrCol (np_select [bod_lut_exc ||| bod_max_lim; cod_lut_exc ||| cod_max_lim]
               (replicate n <$> ["BOD"; "COD"]) (replicate n "None"))) in
  (* intermediate flags *)
  let result := setitem result "bod_lut_exc" (BoolCol bod_lut_exc) in
  let result := setitem result "bod_max_lim" (BoolCol bod_max_lim) in
  let result := setitem result "cod_lut_exc" (BoolCol cod_lut_exc) in
  let result := setitem result "cod_max_lim" (BoolCol cod_max_lim) in
  (* comparison flags *)
  bod_psi_2' ← float_col result "bod_psi_2";
  cod_psi_2' ← float_col result "cod_psi_2";
  let result := setitem result "c_BOD_2" (BoolCol (lt_cols bod_psi_2' cod_psi_2')) in
  bod_psi_3' ← float_col result "bod_psi_3";
  cod_psi_3' ← float_col result "cod_psi_3";
  let result := setitem result "c_BOD_3" (BoolCol (lt_cols bod_psi_3' cod_psi_3')) in
  Ok result.

Definition process_dataframe (df : DataFrame) (limits : option ComplianceLimits)
    : res DataFrame :=
  let limits := default default_limits limits in
  _ ← validate_dataframe df (Some REQUIRED_COLUMNS) false;
  result ← calculate_all_limits df (Some limits);
  result ← apply_linearisation result;
  result ← calculate_deviation_columns result;
  result ← calculate_reduction_columns result (bod_pc limits) (cod_pc limits);
  result ← calculate_flag_conditions result;
  result ← calculate_psi_values result;
  result ← calculate_metric_values result;
  determine_failure_type result.

(** ** Reading one row of a processed frame *)

Definition float_at (df : DataFrame) (c : string) (i : nat) : option float :=
  match columns df !! c with Some (FloatCol xs) => xs !! i | _ => None end.
Definition bool_at (df : DataFrame) (c : string) (i : nat) : option bool :=
  match columns df !! c with Some (BoolCol bs) => bs !! i | _ => None end.
Definition str_at (df : DataFrame) (c : string) (i : nat) : option string :=
  match columns df !! c with Some (StrCol ss) => ss !! i | _ => None end.

(** ** A sample frame (the fixture of [tests/conftest.py]) *)
Definition raw_frame (bod1 bod31 cod1 cod31 snh1 snh31 : list float) : DataFrame :=
  mkDataFrame (length bod1)
    (<["bod1" := FloatCol bod1]> (<["bod31" := FloatCol bod31]>
    (<["cod1" := FloatCol cod1]> (<["cod31" := FloatCol cod31]>
    (<["snh1" := FloatCol snh1]> (<["snh31" := FloatCol snh31]> ∅)))))).

Definition sample_data : DataFrame :=
  raw_frame [100; 150; 200; 250; 300] [20; 25; 30; 35; 40]
            [200; 300; 400; 500; 600] [40; 50; 60; 70; 80]
            [10; 15; 20; 25; 30] [5; 7; 9; 11; 13].

(** One row of a processed frame, read column by column. *)
Record Row := mkRow {
  BODlt_BODeffl : float;
  BODut_BODeffl : float;
  CODlt_CODeffl : float;
  CODut_CODeffl : float;
  bodp : float;
  codp : float;
  flag_BODlt : bool;
  flag_BODut : bool;
  flag_reduction_bod : bool;
  flag_CODlt : bool;
  flag_CODut : bool;
  flag_reduction_cod : bool;
  bod_psi_1 : float;
  bod_psi_2 : float;
  bod_psi_3 : float;
  cod_psi_1 : float;
  cod_psi_2 : float;
  cod_psi_3 : float;
  metric : float;
  fail_type : string;
  fail_source : string;
  bod_lut_exc : bool;
  bod_max_lim : bool;
  cod_lut_exc : bool;
  cod_max_lim : bool
}.

Definition row_at (df : DataFrame) (i : nat) : option Row :=
  lb ← float_at df "BODlt-BODeffl" i;
  ub ← float_at df "BODut-BODeffl" i;
  lc ← float_at df "CODlt-CODeffl" i;
  uc ← float_at df "CODut-CODeffl" i;
  pb ← float_at df "bodp" i;
  pc ← float_at df "codp" i;
  f1 ← bool_at df "flag_BODlt" i;
  f2 ← bool_at df "flag_BODut" i;
  f3 ← bool_at df "flag_reduction_bod" i;
  f4 ← bool_at df "flag_CODlt" i;
  f5 ← bool_at df "flag_CODut" i;
  f6 ← bool_at df "flag_reduction_cod" i;
  b1 ← float_at df "bod_psi_1" i;
  b2 ← float_at df "bod_psi_2" i;
  b3 ← float_at df "bod_psi_3" i;
  c1 ← float_at df "cod_psi_1" i;
  c2 ← float_at df "cod_psi_2" i;
  c3 ← float_at df "cod_psi_3" i;
  m ← float_at df "metric" i;
  ft ← str_at df "fail_type" i;
  fs ← str_at df "fail_source" i;
  bl ← bool_at df "bod_lut_exc" i;
  bm ← bool_at df "bod_max_lim" i;
  cl ← bool_at df "cod_lut_exc" i;
  cm ← bool_at df "cod_max_lim" i;
  Some (mkRow lb ub lc uc pb pc f1 f2 f3 f4 f5 f6 b1 b2 b3 c1 c2 c3 m ft fs bl bm cl cm).

(** The columns of a processed frame that [row_at] reads. *)
Definition deviation_columns : list string :=
  ["BODlt-BODeffl"; "BODut-BODeffl"; "CODlt-CODeffl"; "CODut-CODeffl"; "bodp"; "codp"].
Definition flag_columns : list string :=
  ["flag_BODlt"; "flag_BODut"; "flag_reduction_bod";
   "flag_CODlt"; "flag_CODut"; "flag_reduction_cod"].
Definition psi_columns : list string :=
  ["bod_psi_1"; "bod_psi_2"; "bod_psi_3"; "cod_psi_1"; "cod_psi_2"; "cod_psi_3"].
Definition predicate_columns : list string :=
  ["bod_lut_exc"; "bod_max_lim"; "cod_lut_exc"; "cod_max_lim"].

(** The relations between the cells of one processed row that
    [calculate_flag_conditions], [calculate_psi_values],
    [calculate_metric_values] and [determine_failure_type] establish
    (lemma [stages_row_ok] below). *)
Record row_ok (r : Row) : Prop := mk_row_ok {
  ok_flag_BODlt : flag_BODlt r = (0 <=? BODlt_BODeffl r);
  ok_flag_BODut : flag_BODut r = (0 <=? BODut_BODeffl r);
  ok_flag_CODlt : flag_CODlt r = (0 <=? CODlt_CODeffl r);
  ok_flag_reduction_bod : flag_reduction_bod r = (0 <=? bodp r);
  ok_flag_reduction_cod : flag_reduction_cod r = (0 <=? codp r);
  ok_flag_CODut : flag_CODut r = (0 <=? CODut_CODeffl r);
  ok_bod_psi_1 :
    bod_psi_1 r = nanmax [BODlt_BODeffl r; nanmin [BODlt_BODeffl r; bodp r]];
  ok_bod_psi_2 : bod_psi_2 r = nanmin [BODlt_BODeffl r; bodp r; BODut_BODeffl r];
  ok_bod_psi_3 : bod_psi_3 r = nanmin [BODut_BODeffl r; bodp r];
  ok_cod_psi_1 :
    cod_psi_1 r = nanmax [CODlt_CODeffl r; nanmin [CODlt_CODeffl r; codp r]];
  ok_cod_psi_2 : cod_psi_2 r = nanmin [CODlt_CODeffl r; codp r; CODut_CODeffl r];
  ok_cod_psi_3 : cod_psi_3 r = nanmin [CODut_CODeffl r; codp r];
  ok_bod_lut_exc :
    bod_lut_exc r =
      (bod_psi_2 r <? 0) && Bool.eqb (flag_BODlt r) false
        && Bool.eqb (flag_reduction_bod r) false && Bool.eqb (flag_BODut r) true;
  ok_bod_max_lim :
    bod_max_lim r =
      (bod_psi_3 r <? 0) && Bool.eqb (flag_BODlt r) false
        && Bool.eqb (flag_BODut r) false && Bool.eqb (flag_reduction_bod r) false;
  ok_cod_lut_exc :
    cod_lut_exc r =
      (cod_psi_2 r <? 0) && Bool.eqb (flag_CODlt r) false
        && Bool.eqb (flag_reduction_cod r) false && Bool.eqb (flag_CODut r) true;
  ok_cod_max_lim :
    cod_max_lim r =
      (cod_psi_3 r <? 0) && Bool.eqb (flag_CODlt r) false
        && Bool.eqb (flag_CODut r) false && Bool.eqb (flag_reduction_cod r) false;
  ok_metric :
    metric r =
      let condition_2 := bod_lut_exc r || cod_lut_exc r in
      let condition_3 := bod_max_lim r || cod_max_lim r in
      if condition_2 && negb condition_3 then nanmin [bod_psi_2 r; cod_psi_2 r]
      else if condition_2 && condition_3 then nanmin [bod_psi_3 r; cod_psi_3 r]
      else nanmax [bod_psi_1 r; cod_psi_1 r];
  ok_fail_type :
    fail_type r =
      if bod_lut_exc r then LUT_exceedance
      else if bod_max_lim r then Max_Limit_Failure
      else if cod_lut_exc r then LUT_exceedance
      else if cod_max_lim r then Max_Limit_Failure
      else Compliant;
  ok_fail_source :
    fail_source r =
      if bod_lut_exc r || bod_max_lim r then "BOD"
      else if cod_lut_exc r || cod_max_lim r then "COD"
      else "None"
}.

(** Frames used in the examples: the result of a run, or the empty frame
    when the run raised. *)
Definition run (r : res DataFrame) : DataFrame :=
  match r with Ok d => d | Raise _ => mkDataFrame 0 ∅ end.

(** Two samples; in the second one BOD is between its two thresholds while
    COD is above its upper threshold. *)
Definition mixed : DataFrame :=
  raw_frame [100; 100] [10; 40] [400; 400] [50; 300] [1; 1] [1; 1].
Definition mixed_out : DataFrame := run (process_dataframe mixed None).


(** Two samples whose BOD influent maximum equals the BOD effluent minimum. *)
Definition degenerate : DataFrame :=
  raw_frame [20; 20] [20; 30] [400; 400] [50; 300] [1; 1] [1; 1].
Definition degenerate_out : DataFrame := run (process_dataframe degenerate None).

Definition sample_out : DataFrame := run (process_dataframe sample_data None).

(** ** analysis/recovery.py *)

Definition default_failure_types : list string := [Max_Limit_Failure; LUT_exceedance].

(** The loop variables of [compute_recovery_time]. *)
Record scan := mkScan {
  recovery_times : list float;
  non_compliance_duration : Z;
  in_non_compliance : bool
}.

Definition recovery_time (st : scan) (time_step : float) : float :=
  py_round2 (Z_to_float (non_compliance_duration st) * time_step).

(** One iteration of the loop body. *)
Definition scan_step (time_step : float) (failure_types : list string)
    (st : scan) (failure_type : string) : scan :=
  if bool_decide (failure_type ∈ failure_types) then
    mkScan (recovery_times st) (non_compliance_duration st + 1) true
  else if in_non_compliance st then
    mkScan (recovery_times st ++ [recovery_time st time_step]) 0 false
  else st.

Definition compute_recovery_time (series : list string) (time_step : option float)
    (failure_types : list string) : list float :=
  let time_step := default TIME_STEP time_step in
  let st := fold_left (scan_step time_step failure_types) series (mkScan [] 0 false) in
  if in_non_compliance st
  then recovery_times st ++ [recovery_time st time_step]
  else recovery_times st.

Definition compute_recovery_time_minutes (series : list string) (time_step : option float)
    : list float :=
  let time_step := default TIME_STEP time_step in
  let recovery_times := compute_recovery_time series (Some time_step) default_failure_types in
  map (fun time => time * Z_to_float HOURS_PER_DAY * Z_to_float MINUTES_PER_HOUR)
      recovery_times.

Definition compute_mean_recovery_time (series : list string) (time_step : option float)
    (convert_to_minutes : bool) : float :=
  let times :=
    if convert_to_minutes then compute_recovery_time_minutes series time_step
    else compute_recovery_time series time_step default_failure_types in
  match times with
  | [] => 0
  | _ => np_mean times
  end.

(** The lengths of the maximal runs of [true] in a list of flags, in order;
    [cur] is the length of the run in progress, if there is one.  This is
    what the scan of [compute_recovery_time] counts (lemma
    [compute_recovery_time_runs]). *)
Fixpoint runs (flags : list bool) (cur : option Z) : list Z :=
  match flags with
  | [] => match cur with Some n => [n] | None => [] end
  | true :: flags' => runs flags' (Some (default 0%Z cur + 1)%Z)
  | false :: flags' =>
      match cur with
      | Some n => n :: runs flags' None
      | None => runs flags' None
      end
  end.

(** ** analysis/nonstationarity.py *)

Definition non_stationarity_score (series : list float) (window : Z) : res float :=
  if (Z.of_nat (length series) <? window)%Z then Ok nan
  else
    let clean_series := dropna series in
    if (Z.of_nat (length clean_series) <? window)%Z then Ok nan
    else
      rolling ← rolling_var clean_series window;
      let overall_var := series_var clean_series in
      if overall_var =? 0 then Ok 0
      else
        let score :=
          series_mean (map (fun v => abs (v - overall_var)) rolling) / overall_var in
        Ok score.

(** ** The columns each stage of [process_dataframe] writes *)

Definition limit_columns : list string := ["BODut"; "BODlt"; "CODut"; "CODlt"].
Definition linearised_columns : list string :=
  ["LIN_BODe"; "LIN_BODi"; "LIN_CODe"; "LIN_CODi"].
Definition difference_columns : list string :=
  ["BODut-BODeffl"; "CODut-CODeffl"; "BODlt-BODeffl"; "CODlt-CODeffl"].
Definition reduction_columns : list string := ["bodp"; "codp"].
Definition psi_value_columns : list string :=
  ["bod_psi_1_min"; "bod_psi_1"; "bod_psi_2"; "bod_psi_3";
   "cod_psi_1_min"; "cod_psi_1"; "cod_psi_2"; "cod_psi_3"].
Definition metric_value_columns : list string := ["metric_lut"; "metric_max"].
Definition failure_type_columns : list string :=
  ["metric"; "fail_type"; "fail_source";
   "bod_lut_exc"; "bod_max_lim"; "cod_lut_exc"; "cod_max_lim"; "c_BOD_2"; "c_BOD_3"].

Definition computed_columns : list string :=
  limit_columns ++ linearised_columns ++ difference_columns ++ reduction_columns
    ++ flag_columns ++ psi_value_columns ++ metric_value_columns ++ failure_type_columns.

(** [d'] is [d] with the columns [ws] written: same rows, every other column
    untouched. *)
Definition writes_only (ws : list string) (d d' : DataFrame) : Prop :=
  index d' = index d /\
  (forall c, c ∉ ws -> columns d' !! c = columns d !! c) /\
  (forall c, c ∈ ws -> is_Some (columns d' !! c)).

(** ** data/validators.py, continued *)

(** [pd.api.types.is_numeric_dtype(df[col])]: floats, integers and booleans
    are numeric, strings are not. *)
Definition is_numeric_dtype (s : column) : bool :=
  match s with
  | FloatCol _ | BoolCol _ => true
  | StrCol _ => false
  end.

(** [df[col].isna().any()] *)
Definition isna_any (s : column) : bool :=
  match s with
  | FloatCol xs => existsb is_nan xs
  | BoolCol _ | StrCol _ => false
  end.

Definition validate_numeric_columns (df : DataFrame) (cols : list string) (allow_na : bool)
    : list string :=
  fold_left
    (fun invalid col =>
       match columns df !! col with
       | None => invalid
       | Some s =>
           if negb (is_numeric_dtype s) then invalid ++ [col]
           else if negb allow_na && isna_any s then invalid
           else invalid
       end)
    cols [].

(** ** Summary tables

    A table built from a list of row dicts ([pd.DataFrame(rows)]) is
    represented by that list; a row dict is the list of its items in
    insertion order; the dict of scenario frames is the list of its items in
    iteration order. *)

Inductive value :=
  | VStr (s : string)
  | VInt (n : Z)
  | VFloat (x : float).

Definition record := list (string * value).

(** [c in df.columns] *)
Definition in_columns (df : DataFrame) (c : string) : bool :=
  bool_decide (is_Some (columns df !! c)).

(** [s == v] for a string [v]: no number equals a string. *)
Definition eq_str (s : column) (v : string) : list bool :=
  match s with
  | StrCol ss => map (fun x => bool_decide (x = v)) ss
  | FloatCol xs => map (fun _ => false) xs
  | BoolCol bs => map (fun _ => false) bs
  end.

(** [s == True]: a number equals True when it is 1. *)
Definition eq_True (s : column) : list bool :=
  match s with
  | BoolCol bs => bs
  | FloatCol xs => map (fun x => x =? 1) xs
  | StrCol ss => map (fun _ => false) ss
  end.

(** [.sum()] of a boolean Series. *)
Definition bool_sum (bs : list bool) : Z :=
  Z.of_nat (length (filter (fun b => b = true) bs)).

(** [(df[c] == v).sum()] *)
Definition count_str (df : DataFrame) (c v : string) : res value :=
  s ← getitem df c; Ok (VInt (bool_sum (eq_str s v))).

(** [(df[c] == True).sum()] *)
Definition count_True (df : DataFrame) (c : string) : res value :=
  s ← getitem df c; Ok (VInt (bool_sum (eq_True s))).

(** analysis/statistics.py *)
Fixpoint get_compliance_summary (results : list (string * DataFrame)) : res (list record) :=
  match results with
  | [] => Ok []
  | (scenario_name, df) :: results =>
      if df_empty df || negb (in_columns df "fail_type")
      then get_compliance_summary results
      else
        compliant ← count_str df "fail_type" "Compliant";
        lut ← count_str df "fail_type" "LUT exceedance";
        max_limit ← count_str df "fail_type" "Max Limit Failure";
        let row :=
          [("Scenario", VStr scenario_name);
           ("Total Records", VInt (Z.of_nat (index df)));
           ("Compliant", compliant);
           ("LUT Exceedance", lut);
           ("Max Limit Failure", max_limit)] in
        row ← (if in_columns df "fail_source" then
                 bod ← count_str df "fail_source" "BOD";
                 cod ← count_str df "fail_source" "COD";
                 Ok (row ++ [("BOD Source", bod); ("COD Source", cod)])
               else Ok row);
        summary_data ← get_compliance_summary results;
        Ok (row :: summary_data)
  end.

(** data/loaders.py *)
Fixpoint get_data_summary (results : list (string * DataFrame)) : res (list record) :=
  match results with
  | [] => Ok []
  | (scenario_name, df) :: results =>
      if df_empty df || negb (in_columns df "fail_type")
      then get_data_summary results
      else
        compliant ← count_str df "fail_type" "Compliant";
        lut ← count_str df "fail_type" "LUT exceedance";
        max_limit ← count_str df "fail_type" "Max Limit Failure";
        let row :=
          [("Scenario", VStr scenario_name);
           ("Total Records", VInt (Z.of_nat (index df)));
           ("Compliant", compliant);
           ("LUT Exceedance", lut);
           ("Max Limit Failure", max_limit)] in
        row ← (if in_columns df "fail_source" then
                 bod ← count_str df "fail_source" "BOD";
                 cod ← count_str df "fail_source" "COD";
                 pass ← count_str df "fail_source" "None";
                 Ok (row ++ [("BOD Source", bod); ("COD Source", cod); ("Pass Source", pass)])
               else Ok row);
        summary_data ← get_data_summary results;
        Ok (row :: summary_data)
  end.

(** core/processors.py *)
Fixpoint get_scenario_summary (results : list (string * DataFrame)) : res (list record) :=
  match results with
  | [] => Ok []
  | (scenario_name, df) :: results =>
      if df_empty df || negb (in_columns df "fail_type")
      then get_scenario_summary results
      else
        compliant ← count_str df "fail_type" "Compliant";
        lut ← count_str df "fail_type" "LUT exceedance";
        max_limit ← count_str df "fail_type" "Max Limit Failure";
        let row :=
          [("Category", VStr scenario_name);
           ("Compliant Count", compliant);
           ("LUT Exceedance Count", lut);
           ("Max Limit Failure Count", max_limit)] in
        row ← (if in_columns df "fail_source" then
                 bod ← count_str df "fail_source" "BOD";
                 cod ← count_str df "fail_source" "COD";
                 pass ← count_str df "fail_source" "None";
                 Ok (row ++ [("BOD Source Count", bod); ("COD Source Count", cod);
                             ("Pass Source Count", pass)])
               else Ok row);
        row ← (if in_columns df "c_BOD_2" then
                 bod_2 ← count_True df "c_BOD_2";
                 bod_3 ← count_True df "c_BOD_3";
                 Ok (row ++ [("BOD 2 Limit", bod_2); ("BOD 3 Limit", bod_3)])
               else Ok row);
        summary_data ← get_scenario_summary results;
        Ok (row :: summary_data)
  end.

(** ** utils/decorators.py

    The decorated function acts on a world and returns or raises;
    [time.sleep] acts on the world too, and may raise (it refuses a negative
    length).  The wrapper of [retry] adds the messages it prints. *)

(** [f"{func.__name__} failed (attempt {attempt + 1}/{max_attempts}): {e}"] *)
Inductive message :=
  | Failed (name : string) (attempt max_attempts : Z) (e : exn).

(** [range(n)] *)
Definition range (n : Z) : list Z := Z.of_nat <$> seq 0 (Z.to_nat n).

Section Decorators.

Context {World A : Type}.
Variable func : World -> res A * World.
Variable name : string.
Variable sleep : float -> World -> res unit * World.

Fixpoint retry_attempts (max_attempts : Z) (delay : float) (attempts : list Z) (w : World)
    : res (option A) * World * list message :=
  match attempts with
  | [] => (Ok None, w, [])
  | attempt :: attempts =>
      match func w with
      | (Ok a, w) => (Ok (Some a), w, [])
      | (Raise e, w) =>
          if (attempt =? max_attempts - 1)%Z then (Raise e, w, [])
          else
            let printed := Failed name (attempt + 1) max_attempts e in
            match sleep delay w with
            | (Ok _, w) =>
                let '(r, w, out) := retry_attempts max_attempts delay attempts w in
                (r, w, printed :: out)
            | (Raise e', w) => (Raise e', w, [printed])
            end
      end
  end.

(** The wrapper that [retry(max_attempts, delay)(func)] returns. *)
Definition retry (max_attempts : Z) (delay : float) (w : World)
    : res (option A) * World * list message :=
  retry_attempts max_attempts delay (range max_attempts) w.

(** From world [w] the calls [calls] of [func] all raise, and the sleep
    after each of them returns: an entry holds the exception raised, the
    world the call left and the world the sleep left. *)
Fixpoint failed_attempts (delay : float) (w : World) (calls : list (exn * World * World))
    : Prop :=
  match calls with
  | [] => True
  | (e, w1, w2) :: calls =>
      func w = (Raise e, w1) /\ sleep delay w1 = (Ok (), w2) /\ failed_attempts delay w2 calls
  end.

Definition world_after (w : World) (calls : list (exn * World * World)) : World :=
  default w (last (snd <$> calls)).

(** The messages printed for the failed calls [calls], the first of them
    being attempt number [first] (counted from 0). *)
Fixpoint retry_messages (max_attempts : Z) (first : Z) (calls : list (exn * World * World))
    : list message :=
  match calls with
  | [] => []
  | (e, _, _) :: calls =>
      Failed name (first + 1) max_attempts e :: retry_messages max_attempts (first + 1) calls
  end.

End Decorators.

(** A frame that [process_dataframe] returned for a well-formed input. *)
Definition processed_frame (d : DataFrame) : Prop :=
  exists df limits, wf_frame df /\ process_dataframe df limits = Ok d.

(** The scenarios a summary lists: the frame is not empty and has a
    [fail_type] column. *)
Definition listed (p : string * DataFrame) : bool :=
  negb (df_empty p.2) && in_columns p.2 "fail_type".

(** ** analysis/recovery.py, continued *)

(** [np.std], [np.min] and [np.max] of a non-empty list of floats: the
    population standard deviation; a NaN among the values is propagated by
    the minimum and the maximum. *)
Definition np_std (xs : list float) : float :=
  let arrmean := np_mean xs in
  sqrt (np_mean (map (fun x => (x - arrmean) * (x - arrmean)) xs)).

Definition np_min (xs : list float) : float :=
  if existsb is_nan xs then nan else nanmin xs.

Definition np_max (xs : list float) : float :=
  if existsb is_nan xs then nan else nanmax xs.

Fixpoint get_recovery_analysis (results : list (string * DataFrame))
    (time_step : option float) : res (list record) :=
  match results with
  | [] => Ok []
  | (scenario_name, df) :: results =>
      if df_empty df || negb (in_columns df "fail_type")
      then get_recovery_analysis results time_step
      else
        fail_type ← getitem df "fail_type";
        (* a numeric column holds no failure label *)
        let recovery_times_minutes :=
          match fail_type with
          | StrCol ss => compute_recovery_time_minutes ss time_step
          | FloatCol _ | BoolCol _ => []
          end in
        match recovery_times_minutes with
        | [] => get_recovery_analysis results time_step
        | _ :: _ =>
            let row :=
              [("Scenario", VStr scenario_name);
               ("Mean Recovery (min)", VFloat (np_mean recovery_times_minutes));
               ("Std Recovery (min)", VFloat (np_std recovery_times_minutes));
               ("Min Recovery (min)", VFloat (np_min recovery_times_minutes));
               ("Max Recovery (min)", VFloat (np_max recovery_times_minutes));
               ("Num Events", VInt (Z.of_nat (length recovery_times_minutes)))] in
            rows ← get_recovery_analysis results time_step;
            Ok (row :: rows)
        end
  end.

(** The number of maximal runs of non-compliant rows in the [fail_type]
    column of a listed frame (0 for any other frame). *)
Definition recovery_events (d : DataFrame) : nat :=
  if df_empty d then 0%nat
  else
    match columns d !! "fail_type" with
    | Some (StrCol ss) =>
        length (runs ((fun v => bool_decide (v ∈ default_failure_types)) <$> ss) None)
    | _ => 0%nat
    end.

(** * Properties *)

(** ** The error monad *)

Lemma bind_Ok_inv {A B} (m : res A) (f : A -> res B) (b : B) :
  m ≫= f = Ok b -> exists a, m = Ok a /\ f a = Ok b.
Proof. destruct m as [a|e]; [exists a; auto | discriminate]. Qed.

Lemma Ok_inj {A} (a b : A) : Ok a = Ok b -> a = b.
Proof. congruence. Qed.

(** ** Reading and writing columns *)

Lemma float_col_Ok df c xs :
  float_col df c = Ok xs <-> columns df !! c = Some (FloatCol xs).
Proof.
  unfold float_col, getitem. destruct (columns df !! c) as [[]|]; simpl; split; congruence.
Qed.

Lemma bool_col_Ok df c bs :
  bool_col df c = Ok bs <-> columns df !! c = Some (BoolCol bs).
Proof.
  unfold bool_col, getitem. destruct (columns df !! c) as [[]|]; simpl; split; congruence.
Qed.

Lemma columns_setitem_eq df c s : columns (setitem df c s) !! c = Some s.
Proof. apply lookup_insert_eq. Qed.

Lemma columns_setitem_ne df c s c' :
  c <> c' -> columns (setitem df c s) !! c' = columns df !! c'.
Proof. intros. by apply lookup_insert_ne. Qed.

Lemma float_col_setitem_eq df c xs : float_col (setitem df c (FloatCol xs)) c = Ok xs.
Proof. unfold float_col, getitem. by rewrite columns_setitem_eq. Qed.

Lemma float_col_setitem_ne df c s c' :
  c <> c' -> float_col (setitem df c s) c' = float_col df c'.
Proof. intros. unfold float_col, getitem. by rewrite columns_setitem_ne. Qed.

Lemma bool_col_setitem_eq df c bs : bool_col (setitem df c (BoolCol bs)) c = Ok bs.
Proof. unfold bool_col, getitem. by rewrite columns_setitem_eq. Qed.

Lemma bool_col_setitem_ne df c s c' :
  c <> c' -> bool_col (setitem df c s) c' = bool_col df c'.
Proof. intros. unfold bool_col, getitem. by rewrite columns_setitem_ne. Qed.

Lemma float_at_setitem_eq df c xs i : float_at (setitem df c (FloatCol xs)) c i = xs !! i.
Proof. unfold float_at. by rewrite columns_setitem_eq. Qed.

Lemma float_at_setitem_ne df c s c' i :
  c <> c' -> float_at (setitem df c s) c' i = float_at df c' i.
Proof. intros. unfold float_at. by rewrite columns_setitem_ne. Qed.

Lemma bool_at_setitem_eq df c bs i : bool_at (setitem df c (BoolCol bs)) c i = bs !! i.
Proof. unfold bool_at. by rewrite columns_setitem_eq. Qed.

Lemma bool_at_setitem_ne df c s c' i :
  c <> c' -> bool_at (setitem df c s) c' i = bool_at df c' i.
Proof. intros. unfold bool_at. by rewrite columns_setitem_ne. Qed.

Lemma str_at_setitem_eq df c ss i : str_at (setitem df c (StrCol ss)) c i = ss !! i.
Proof. unfold str_at. by rewrite columns_setitem_eq. Qed.

Lemma str_at_setitem_ne df c s c' i :
  c <> c' -> str_at (setitem df c s) c' i = str_at df c' i.
Proof. intros. unfold str_at. by rewrite columns_setitem_ne. Qed.

Lemma float_at_col df c xs i : float_col df c = Ok xs -> float_at df c i = xs !! i.
Proof. intros H%float_col_Ok. unfold float_at. by rewrite H. Qed.

Lemma bool_at_col df c bs i : bool_col df c = Ok bs -> bool_at df c i = bs !! i.
Proof. intros H%bool_col_Ok. unfold bool_at. by rewrite H. Qed.

Lemma min_axis1_2 df a b :
  min_axis1 df [a; b] =
    xa ← float_col df a; xb ← float_col df b; Ok (map nanmin (zip_rows [xa; xb])).
Proof.
  unfold min_axis1, select_floats. simpl.
  by destruct (float_col df a), (float_col df b).
Qed.

Lemma max_axis1_2 df a b :
  max_axis1 df [a; b] =
    xa ← float_col df a; xb ← float_col df b; Ok (map nanmax (zip_rows [xa; xb])).
Proof.
  unfold max_axis1, select_floats. simpl.
  by destruct (float_col df a), (float_col df b).
Qed.

Lemma min_axis1_3 df a b c :
  min_axis1 df [a; b; c] =
    xa ← float_col df a; xb ← float_col df b; xc ← float_col df c;
    Ok (map nanmin (zip_rows [xa; xb; xc])).
Proof.
  unfold min_axis1, select_floats. simpl.
  by destruct (float_col df a), (float_col df b), (float_col df c).
Qed.

(** ** Position [i] of the element-wise operations *)

Lemma lookup_map {A B} (f : A -> B) (l : list A) i : map f l !! i = f <$> (l !! i).
Proof. apply (list_lookup_fmap f). Qed.

Lemma lookup_zip_with_bind {A B C} (f : A -> B -> C) l k i :
  zip_with f l k !! i = x ← l !! i; y ← k !! i; Some (f x y).
Proof. apply lookup_zip_with. Qed.

Lemma lookup_rows2 {A B} (f : list A -> B) xa xb i :
  map f (zip_rows [xa; xb]) !! i = u ← xa !! i; v ← xb !! i; Some (f [u; v]).
Proof.
  rewrite lookup_map. simpl. rewrite lookup_zip_with, lookup_map.
  destruct (xa !! i); simpl; [|done]. by destruct (xb !! i).
Qed.

Lemma lookup_rows3 {A B} (f : list A -> B) xa xb xc i :
  map f (zip_rows [xa; xb; xc]) !! i =
    u ← xa !! i; v ← xb !! i; w ← xc !! i; Some (f [u; v; w]).
Proof.
  rewrite lookup_map. simpl. rewrite !lookup_zip_with, lookup_map.
  destruct (xa !! i); simpl; [|done]. destruct (xb !! i); simpl; [|done].
  by destruct (xc !! i).
Qed.

Lemma lookup_np_where {A} (c : list bool) (x y : list A) i :
  np_where c x y !! i =
    b ← c !! i; u ← x !! i; v ← y !! i; Some (if b : bool then u else v).
Proof.
  revert x y i. induction c as [|b c IH]; intros x y i.
  - by destruct x, y.
  - destruct x as [|u x], y as [|v y], i as [|i]; simpl; auto;
      destruct (c !! i); simpl; auto; destruct (x !! i); auto.
Qed.

Lemma lookup_replicate_dec {A} n (x : A) i :
  replicate n x !! i = if decide (i < n)%nat then Some x else None.
Proof.
  case_decide.
  - by apply lookup_replicate_2.
  - apply lookup_replicate_None. lia.
Qed.

(** ** Inversion of the pipeline stages *)

Ltac col_simpl_in H :=
  repeat first
    [ rewrite float_col_setitem_eq in H
    | rewrite bool_col_setitem_eq in H
    | rewrite float_col_setitem_ne in H by discriminate
    | rewrite bool_col_setitem_ne in H by discriminate
    | rewrite min_axis1_2 in H
    | rewrite min_axis1_3 in H
    | rewrite max_axis1_2 in H ].

(** A successful run of monadic code: every bind yields the value it bound
    and the equation that produced it. *)
Ltac inv_res H :=
  lazy beta zeta in H; col_simpl_in H;
  lazymatch type of H with
  | mbind _ _ = Ok _ =>
      let E := fresh "E" in
      apply bind_Ok_inv in H as (? & E & H); inv_res E; inv_res H
  | Ok _ = Ok _ => apply Ok_inj in H
  | _ => idtac
  end.

Ltac cell_simpl_in H :=
  repeat first
    [ rewrite float_at_setitem_eq in H
    | rewrite bool_at_setitem_eq in H
    | rewrite str_at_setitem_eq in H
    | rewrite float_at_setitem_ne in H by discriminate
    | rewrite bool_at_setitem_ne in H by discriminate
    | rewrite str_at_setitem_ne in H by discriminate ].

Ltac cols_simpl :=
  repeat match goal with
  | H : float_col (setitem _ _ _) _ = _ |- _ => progress col_simpl_in H; inv_res H
  | H : bool_col (setitem _ _ _) _ = _ |- _ => progress col_simpl_in H; inv_res H
  | H : float_at (setitem _ _ _) _ _ = _ |- _ => progress cell_simpl_in H
  | H : bool_at (setitem _ _ _) _ _ = _ |- _ => progress cell_simpl_in H
  | H : str_at (setitem _ _ _) _ _ = _ |- _ => progress cell_simpl_in H
  end.

Ltac cols_merge :=
  repeat match goal with
  | H1 : float_col ?d ?c = Ok ?a, H2 : float_col ?d ?c = Ok ?b |- _ =>
      rewrite H1 in H2; apply Ok_inj in H2
  | H1 : bool_col ?d ?c = Ok ?a, H2 : bool_col ?d ?c = Ok ?b |- _ =>
      rewrite H1 in H2; apply Ok_inj in H2
  end.

Ltac lookup_eval H :=
  unfold assign_fail_type, fail_type_values, ge_scalar, lt_scalar, eq_bool,
    and_cols, or_cols, not_col, lt_cols in H;
  cbn [np_select fmap list_fmap] in H;
  repeat first
    [ rewrite lookup_rows2 in H
    | rewrite lookup_rows3 in H
    | rewrite lookup_np_where in H
    | rewrite lookup_zip_with_bind in H
    | rewrite lookup_map in H
    | rewrite lookup_replicate_dec in H ].

Ltac cells_eval i :=
  repeat match goal with
  | H : _ !! i = Some _ |- _ => progress lookup_eval H
  end;
  repeat match goal with
  | Hb : ?l !! i = Some _ |- _ => is_var l; rewrite !Hb in *; clear Hb
  end;
  cbn [mbind option_bind fmap option_fmap option_map] in *.

(** The four last stages of the pipeline relate the cells of every row as
    [row_ok] says. *)
Lemma stages_row_ok df4 df5 df6 df7 out i r :
  calculate_flag_conditions df4 = Ok df5 ->
  calculate_psi_values df5 = Ok df6 ->
  calculate_metric_values df6 = Ok df7 ->
  determine_failure_type df7 = Ok out ->
  row_at out i = Some r -> row_ok r.
Proof.
  intros H5 H6 H7 H8 Hr.
  unfold row_at in Hr.
  repeat (apply bind_Some in Hr as (? & ? & Hr)).
  injection Hr as <-.
  unfold calculate_flag_conditions in H5. inv_res H5.
  unfold calculate_psi_values in H6. inv_res H6.
  unfold calculate_metric_values in H7. inv_res H7.
  unfold determine_failure_type in H8. inv_res H8.
  subst out; cols_simpl.
  subst df7; cols_simpl.
  subst df6; cols_simpl.
  subst df5; cols_simpl.
  cols_merge. subst.
  repeat match goal with
  | E : float_col ?d ?c = Ok ?xs, H : float_at ?d ?c ?i = Some _ |- _ =>
      rewrite (float_at_col _ _ _ _ E) in H
  end.
  cbn [index setitem] in *.
  cells_eval i.
  destruct (decide (i < index df4)%nat); cbn [mbind option_bind] in *; [|discriminate].
  simplify_eq. by constructor.
Qed.

Lemma process_dataframe_stages df limits out :
  process_dataframe df limits = Ok out ->
  exists df4 df5 df6 df7,
    calculate_flag_conditions df4 = Ok df5 /\
    calculate_psi_values df5 = Ok df6 /\
    calculate_metric_values df6 = Ok df7 /\
    determine_failure_type df7 = Ok out.
Proof.
  unfold process_dataframe. intros H.
  do 8 (apply bind_Ok_inv in H as (? & ? & H)).
  eauto 10.
Qed.

(** Every row of a processed frame satisfies [row_ok]. *)
Lemma process_dataframe_row_ok df limits out i r :
  process_dataframe df limits = Ok out -> row_at out i = Some r -> row_ok r.
Proof.
  intros (df4 & df5 & df6 & df7 & H5 & H6 & H7 & H8)%process_dataframe_stages.
  by apply (stages_row_ok df4 df5 df6 df7 out).
Qed.

(** The same predicates, as [calculate_failure_conditions] returns them. *)
Lemma failure_conditions_exclusive df fc i bl bm cl cm :
  calculate_failure_conditions df = Ok fc ->
  fc_bod_lut_exc fc !! i = Some bl -> fc_bod_max_lim fc !! i = Some bm ->
  fc_cod_lut_exc fc !! i = Some cl -> fc_cod_max_lim fc !! i = Some cm ->
  bl && bm = false /\ cl && cm = false.
Proof.
  intros H Hbl Hbm Hcl Hcm. unfold calculate_failure_conditions in H.
  inv_res H. subst fc.
  cbn [fc_bod_lut_exc fc_bod_max_lim fc_cod_lut_exc fc_cod_max_lim] in *.
  lookup_eval Hbl; lookup_eval Hbm; lookup_eval Hcl; lookup_eval Hcm.
  repeat match goal with
  | l : list _ |- _ =>
      match goal with
      | H : context [l !! i] |- _ =>
          destruct (l !! i); cbn [mbind option_bind fmap option_fmap option_map] in *;
          try discriminate
      end
  end.
  simplify_eq.
  split;
    repeat match goal with |- context [eqb ?b _] => is_var b; destruct b end;
    simpl; by rewrite ?andb_false_r.
Qed.

(** ** Comparison and division of binary64 values *)
Lemma SFcompare_swap x y : SFcompare y x = CompOpp <$> SFcompare x y.
Proof.
  destruct x as [sx|sx| |sx mx ex], y as [sy|sy| |sy my ey]; simpl;
    try by repeat case_match.
  destruct sx, sy; simpl; try done.
  - rewrite (Z.compare_antisym ex ey). destruct (ex ?= ey)%Z; simpl; try done.
    f_equal. f_equal. symmetry. apply (Pos.compare_cont_antisym mx my Eq).
  - rewrite (Z.compare_antisym ex ey). destruct (ex ?= ey)%Z; simpl; try done.
    f_equal. symmetry. apply (Pos.compare_cont_antisym mx my Eq).
Qed.

Lemma is_nan_false x : is_nan x = false <-> Prim2SF x <> S754_nan.
Proof.
  unfold is_nan. rewrite FloatAxioms.eqb_spec. unfold SFeqb.
  destruct (Prim2SF x) as [| | |s m e]; simpl; try (split; [done|congruence]).
  - split; [done|]. by destruct s.
  - destruct s; rewrite Z.compare_refl, Pos.compare_cont_refl; split; done.
Qed.

Lemma SFcompare_Some x y :
  x <> S754_nan -> y <> S754_nan -> is_Some (SFcompare x y).
Proof. destruct x, y; simpl; try done; eauto. Qed.

Lemma leb_refl x : is_nan x = false -> (x <=? x) = true.
Proof.
  unfold is_nan. rewrite FloatAxioms.eqb_spec, FloatAxioms.leb_spec. unfold SFeqb, SFleb.
  by destruct (SFcompare _ _) as [[]|].
Qed.

Lemma leb_total x y :
  is_nan x = false -> is_nan y = false -> (x <=? y) = false -> (y <=? x) = true.
Proof.
  intros Hx%is_nan_false Hy%is_nan_false. rewrite !FloatAxioms.leb_spec. unfold SFleb.
  rewrite (SFcompare_swap (Prim2SF x) (Prim2SF y)).
  destruct (SFcompare_Some _ _ Hx Hy) as [c ->]. by destruct c.
Qed.

Lemma minimum_not_nan a b :
  is_nan a = false -> is_nan b = false -> is_nan (minimum a b) = false.
Proof. intros. unfold minimum. by case_match. Qed.

Lemma nanmin_pair a b :
  is_nan a = false -> is_nan b = false -> nanmin [a; b] = minimum a b.
Proof.
  intros Ha Hb. unfold nanmin, dropna.
  rewrite filter_cons_True by done. rewrite filter_cons_True by done. done.
Qed.

Lemma nanmax_pair a b :
  is_nan a = false -> is_nan b = false -> nanmax [a; b] = maximum a b.
Proof.
  intros Ha Hb. unfold nanmax, dropna.
  rewrite filter_cons_True by done. rewrite filter_cons_True by done. done.
Qed.

(** The absorption law behind [psi_1]. *)
Lemma psi_1_absorption a b :
  is_nan a = false -> is_nan b = false -> nanmax [a; nanmin [a; b]] = a.
Proof.
  intros Ha Hb. rewrite (nanmin_pair a b Ha Hb).
  rewrite nanmax_pair by auto using minimum_not_nan.
  unfold maximum, minimum. destruct (a <=? b) eqn:Hab.
  - by rewrite leb_refl.
  - by rewrite (leb_total a b).
Qed.

(** A difference of two equal values is a zero (or NaN for infinities), and
    dividing by it leaves +inf or NaN behind [abs]. *)
Lemma sub_eq_zero_or_nan x y :
  (x =? y) = true ->
  Prim2SF (x - y) = S754_zero false \/ Prim2SF (x - y) = S754_zero true \/ Prim2SF (x - y) = S754_nan.
Proof.
  rewrite FloatAxioms.eqb_spec, FloatAxioms.sub_spec. unfold SFeqb, SF64sub.
  destruct (Prim2SF x) as [sx|sx| |sx mx ex], (Prim2SF y) as [sy|sy| |sy my ey]; simpl.
  all: try done.
  all: try (destruct sx, sy; simpl; by auto).
  all: try (destruct sx; simpl; by auto).
  all: try (destruct sy; simpl; by auto).
  assert (Heq : forall c, match c with Eq => true | _ => false end = true -> c = Eq)
    by (by intros []).
  intros H.
  assert (ex = ey /\ mx = my /\ sx = sy) as (-> & -> & ->).
  { destruct sx, sy; try done; destruct (ex ?= ey)%Z eqn:He; try done;
      apply Z.compare_eq in He as ->; apply Heq in H.
    - destruct (PosDef.Pos.compare_cont Eq mx my) eqn:Hm; try done.
      by apply Pos.compare_eq in Hm as ->.
    - by apply Pos.compare_eq in H as ->. }
  rewrite Z.sub_diag. simpl. auto.
Qed.
Lemma abs_div_zero_range x d :
  Prim2SF d = S754_zero false \/ Prim2SF d = S754_zero true \/ Prim2SF d = S754_nan ->
  abs (x / d) = infinity \/ abs (x / d) = nan.
Proof.
  intros Hd.
  assert (Prim2SF (abs (x / d)) = S754_infinity false \/ Prim2SF (abs (x / d)) = S754_nan) as [H|H].
  { rewrite FloatAxioms.abs_spec, FloatAxioms.div_spec. unfold SF64div.
    destruct Hd as [-> | [-> | ->]]; destruct (Prim2SF x) as [| | |]; simpl; auto. }
  - left. apply Prim2SF_inj. by rewrite H.
  - right. apply Prim2SF_inj. by rewrite H.
Qed.

(** ** Classification of the rows of a processed frame *)

Lemma row_ok_exclusive r :
  row_ok r ->
  bod_lut_exc r && bod_max_lim r = false /\ cod_lut_exc r && cod_max_lim r = false.
Proof.
  intros Hr. rewrite (ok_bod_lut_exc r Hr), (ok_bod_max_lim r Hr),
    (ok_cod_lut_exc r Hr), (ok_cod_max_lim r Hr).
  split.
  - destruct (flag_BODut r); simpl; by rewrite ?andb_false_r.
  - destruct (flag_CODut r); simpl; by rewrite ?andb_false_r.
Qed.

Lemma mixed_run : process_dataframe mixed None = Ok mixed_out.
Proof. vm_compute. reflexivity. Qed.


Lemma sample_run : process_dataframe sample_data None = Ok sample_out.
Proof. vm_compute. reflexivity. Qed.

Section ProcessedRow.

Variables (df : DataFrame) (limits : option ComplianceLimits) (out : DataFrame).
Hypothesis Hrun : process_dataframe df limits = Ok out.
Variables (i : nat) (r : Row).
Hypothesis Hrow : row_at out i = Some r.

(** C1, as amended: [fail_type] is the first match in the order
    bod_lut_exc, bod_max_lim, cod_lut_exc, cod_max_lim.  So a row is
    'Max Limit Failure' when bod_max_lim holds, or when cod_max_lim holds and
    bod_lut_exc does not; otherwise it is 'LUT exceedance' when a LUT
    predicate holds; otherwise it is 'Compliant'. *)
Theorem fail_type_first_match :
  fail_type r =
    (if bod_lut_exc r then LUT_exceedance
     else if bod_max_lim r then Max_Limit_Failure
     else if cod_lut_exc r then LUT_exceedance
     else if cod_max_lim r then Max_Limit_Failure
     else Compliant) /\
  fail_type r =
    (if bod_max_lim r || cod_max_lim r && negb (bod_lut_exc r) then Max_Limit_Failure
     else if bod_lut_exc r || cod_lut_exc r then LUT_exceedance
     else Compliant).
Proof.
  pose proof (process_dataframe_row_ok _ _ _ _ _ Hrun Hrow) as Hok.
  destruct (row_ok_exclusive r Hok) as [Hb Hc].
  split; rewrite (ok_fail_type r Hok); [done|].
  destruct (bod_lut_exc r), (bod_max_lim r), (cod_lut_exc r), (cod_max_lim r);
    simpl in *; congruence.
Qed.

(** C3: the selected [metric] is min(bod_psi_2, cod_psi_2) when a LUT
    predicate holds and no max-limit predicate does, min(bod_psi_3, cod_psi_3)
    when a LUT predicate and a max-limit predicate both hold, and the fallback
    max(bod_psi_1, cod_psi_1) in every other case (also when only a max-limit
    predicate holds). *)
Theorem metric_selection :
  (bod_lut_exc r || cod_lut_exc r = true ->
   bod_max_lim r || cod_max_lim r = false ->
   metric r = nanmin [bod_psi_2 r; cod_psi_2 r]) /\
  (bod_lut_exc r || cod_lut_exc r = true ->
   bod_max_lim r || cod_max_lim r = true ->
   metric r = nanmin [bod_psi_3 r; cod_psi_3 r]) /\
  (bod_lut_exc r || cod_lut_exc r = false ->
   metric r = nanmax [bod_psi_1 r; cod_psi_1 r]).
Proof.
  pose proof (process_dataframe_row_ok _ _ _ _ _ Hrun Hrow) as Hok.
  rewrite (ok_metric r Hok). cbv zeta.
  repeat split; intros; repeat match goal with H : _ = _ |- _ => rewrite H end; done.
Qed.

(** C5: [fail_type] is one of Compliant, LUT exceedance, Max Limit Failure;
    [fail_source] is one of BOD, COD, None; and the source is None exactly
    when the type is Compliant. *)
Theorem classification_exhaustive :
  (fail_type r = Compliant \/ fail_type r = LUT_exceedance
     \/ fail_type r = Max_Limit_Failure) /\
  (fail_source r = "BOD" \/ fail_source r = "COD" \/ fail_source r = "None") /\
  (fail_source r = "None" <-> fail_type r = Compliant).
Proof.
  pose proof (process_dataframe_row_ok _ _ _ _ _ Hrun Hrow) as Hok.
  rewrite (ok_fail_type r Hok), (ok_fail_source r Hok).
  destruct (bod_lut_exc r), (bod_max_lim r), (cod_lut_exc r), (cod_max_lim r);
    simpl; (split; [auto | split; [auto | split; intros; done]]).
Qed.

(** C10: on a row whose lower deviations and reductions are not NaN,
    bod_psi_1 is the lower deviation 'BODlt-BODeffl' and cod_psi_1 is
    'CODlt-CODeffl' (absorption: max(a, min(a, b)) = a), so the fallback
    metric max(bod_psi_1, cod_psi_1) is the maximum of the two lower
    deviations. *)
Theorem psi_1_is_lower_deviation :
  is_nan (BODlt_BODeffl r) = false -> is_nan (bodp r) = false ->
  is_nan (CODlt_CODeffl r) = false -> is_nan (codp r) = false ->
  bod_psi_1 r = BODlt_BODeffl r /\
  cod_psi_1 r = CODlt_CODeffl r /\
  nanmax [bod_psi_1 r; cod_psi_1 r] = nanmax [BODlt_BODeffl r; CODlt_CODeffl r] /\
  (bod_lut_exc r || cod_lut_exc r = false ->
   metric r = nanmax [BODlt_BODeffl r; CODlt_CODeffl r]).
Proof.
  intros Hb Hbp Hc Hcp.
  pose proof (process_dataframe_row_ok _ _ _ _ _ Hrun Hrow) as Hok.
  assert (bod_psi_1 r = BODlt_BODeffl r) as E1
    by (rewrite (ok_bod_psi_1 r Hok); by apply psi_1_absorption).
  assert (cod_psi_1 r = CODlt_CODeffl r) as E2
    by (rewrite (ok_cod_psi_1 r Hok); by apply psi_1_absorption).
  repeat split; try done.
  - by rewrite E1, E2.
  - intros Hlut. rewrite (ok_metric r Hok). cbv zeta. by rewrite Hlut, E1, E2.
Qed.

End ProcessedRow.



(** C9: the two failure predicates of one pollutant are never both true on
    a row (one needs its upper flag True, the other needs it False), on the
    columns [determine_failure_type] stores and on the Series
    [calculate_failure_conditions] returns. *)
Theorem failure_predicates_exclusive :
  (forall df limits out i r,
      process_dataframe df limits = Ok out -> row_at out i = Some r ->
      bod_lut_exc r && bod_max_lim r = false /\
      cod_lut_exc r && cod_max_lim r = false /\
      (bod_lut_exc r = true -> flag_BODut r = true) /\
      (bod_max_lim r = true -> flag_BODut r = false) /\
      (cod_lut_exc r = true -> flag_CODut r = true) /\
      (cod_max_lim r = true -> flag_CODut r = false)) /\
  (forall df fc i bl bm cl cm,
      calculate_failure_conditions df = Ok fc ->
      fc_bod_lut_exc fc !! i = Some bl -> fc_bod_max_lim fc !! i = Some bm ->
      fc_cod_lut_exc fc !! i = Some cl -> fc_cod_max_lim fc !! i = Some cm ->
      bl && bm = false /\ cl && cm = false).
Proof.
  split.
  - intros df limits out i r Hrun Hrow.
    pose proof (process_dataframe_row_ok _ _ _ _ _ Hrun Hrow) as Hok.
    destruct (row_ok_exclusive r Hok) as [Hb Hc]. do 2 (split; [done|]).
    rewrite (ok_bod_lut_exc r Hok), (ok_bod_max_lim r Hok),
      (ok_cod_lut_exc r Hok), (ok_cod_max_lim r Hok).
    destruct (flag_BODut r), (flag_CODut r); simpl; rewrite ?andb_false_r;
      repeat split; done.
  - apply failure_conditions_exclusive.
Qed.

(** *** The claims at a concrete frame *)

(** C1 as first stated fails on the second row of [mixed]: cod_max_lim
    holds there, and the row is 'LUT exceedance' because bod_lut_exc is
    checked first. *)
Lemma fail_type_any_max_counterexample :
  exists r,
    process_dataframe mixed None = Ok mixed_out /\
    row_at mixed_out 1 = Some r /\
    bod_lut_exc r = true /\ cod_max_lim r = true /\
    fail_type r = LUT_exceedance.
Proof. eexists. split; [apply mixed_run|]. by vm_compute. Qed.

Lemma fail_type_first_match_witness :
  exists r,
    row_at mixed_out 1 = Some r /\
    fail_type r =
      (if bod_max_lim r || cod_max_lim r && negb (bod_lut_exc r) then Max_Limit_Failure
       else if bod_lut_exc r || cod_lut_exc r then LUT_exceedance
       else Compliant).
Proof.
  eexists. split; [by vm_compute|].
  eapply (fail_type_first_match mixed None mixed_out mixed_run 1).
  by vm_compute.
Defined.

Lemma metric_selection_witness :
  exists r,
    row_at mixed_out 1 = Some r /\
    metric r = nanmin [bod_psi_3 r; cod_psi_3 r].
Proof.
  eexists. split; [by vm_compute|].
  eapply (metric_selection mixed None mixed_out mixed_run 1); by vm_compute.
Defined.


Lemma classification_exhaustive_witness :
  exists r,
    row_at mixed_out 0 = Some r /\
    (fail_source r = "None" <-> fail_type r = Compliant).
Proof.
  eexists. split; [by vm_compute|].
  eapply (classification_exhaustive mixed None mixed_out mixed_run 0). by vm_compute.
Defined.

Lemma psi_1_is_lower_deviation_witness :
  exists r,
    row_at sample_out 2 = Some r /\
    bod_psi_1 r = BODlt_BODeffl r /\
    metric r = nanmax [BODlt_BODeffl r; CODlt_CODeffl r].
Proof.
  eexists. split; [by vm_compute|].
  edestruct (psi_1_is_lower_deviation sample_data None sample_out sample_run 2)
    as (H1 & _ & _ & H2); [by vm_compute ..|].
  split; [exact H1 | apply H2; by vm_compute].
Defined.

Lemma failure_predicates_exclusive_witness :
  (exists r,
      row_at mixed_out 1 = Some r /\
      bod_lut_exc r && bod_max_lim r = false /\
      cod_lut_exc r && cod_max_lim r = false) /\
  (exists fc,
      calculate_failure_conditions mixed_out = Ok fc /\
      (true && false = false /\ false && true = false)).
Proof.
  destruct failure_predicates_exclusive as [Hrow Hfc]. split.
  - eexists. split; [by vm_compute|].
    edestruct (Hrow mixed None mixed_out 1%nat) as (Hb & Hc & _);
      [apply mixed_run | by vm_compute |]. by split.
  - eexists. split; [by vm_compute|].
    eapply (Hfc mixed_out _ 1%nat true false false true); by vm_compute.
Defined.

(** ** A validated frame is processed to the end, and every row is classified *)

Lemma length_rows2 {A B} (f : list A -> B) (xa xb : list A) n :
  length xa = n -> length xb = n -> length (map f (zip_rows [xa; xb])) = n.
Proof.
  intros Ha Hb. rewrite length_map. simpl. rewrite length_zip_with, length_map. lia.
Qed.

Lemma length_rows3 {A B} (f : list A -> B) (xa xb xc : list A) n :
  length xa = n -> length xb = n -> length xc = n ->
  length (map f (zip_rows [xa; xb; xc])) = n.
Proof.
  intros Ha Hb Hc. rewrite length_map. simpl.
  rewrite !length_zip_with, length_map. lia.
Qed.

Lemma length_np_where {A} (c : list bool) (x y : list A) n :
  length c = n -> length x = n -> length y = n -> length (np_where c x y) = n.
Proof.
  revert x y n. induction c as [|b c IH]; intros [|u x] [|v y] n; simpl; try lia.
  intros Hc Hx Hy. rewrite (IH x y (length c)); lia.
Qed.

Lemma length_zip_with_same {A B C} (f : A -> B -> C) l k n :
  length l = n -> length k = n -> length (zip_with f l k) = n.
Proof. intros. rewrite length_zip_with. lia. Qed.

Lemma length_map_same {A B} (f : A -> B) l n : length l = n -> length (map f l) = n.
Proof. intros. by rewrite length_map. Qed.

(** The length of a computed column, from the lengths of the columns read. *)
Ltac col_len :=
  cbn [index setitem setitem_scalar] in *;
  unfold assign_fail_type, fail_type_values, map_float, sub_cols, reduction,
    ge_scalar, lt_scalar, lt_cols, eq_bool, and_cols, or_cols, not_col;
  cbn [np_select fmap list_fmap];
  repeat first
    [ assumption
    | apply length_replicate
    | apply length_rows2
    | apply length_rows3
    | apply length_np_where
    | apply length_zip_with_same
    | apply length_map_same ].

Lemma has_float_setitem_eq df c xs :
  length xs = index df -> has_float (setitem df c (FloatCol xs)) c.
Proof. intros. exists xs. by rewrite float_col_setitem_eq. Qed.

Lemma has_float_setitem_ne df c s c' :
  c <> c' -> has_float df c' -> has_float (setitem df c s) c'.
Proof. intros Hne (xs & H & Hl). exists xs. by rewrite float_col_setitem_ne. Qed.

Lemma has_bool_setitem_eq df c bs :
  length bs = index df -> has_bool (setitem df c (BoolCol bs)) c.
Proof. intros. exists bs. by rewrite bool_col_setitem_eq. Qed.

Lemma has_bool_setitem_ne df c s c' :
  c <> c' -> has_bool df c' -> has_bool (setitem df c s) c'.
Proof. intros Hne (bs & H & Hl). exists bs. by rewrite bool_col_setitem_ne. Qed.

Lemma has_str_setitem_eq df c ss :
  length ss = index df -> has_str (setitem df c (StrCol ss)) c.
Proof. intros. exists ss. by rewrite columns_setitem_eq. Qed.

Lemma has_str_setitem_ne df c s c' :
  c <> c' -> has_str df c' -> has_str (setitem df c s) c'.
Proof. intros Hne (ss & H & Hl). exists ss. by rewrite columns_setitem_ne. Qed.

Ltac has_col :=
  unfold setitem_scalar;
  repeat first
    [ assumption
    | apply has_float_setitem_eq; [col_len]
    | apply has_bool_setitem_eq; [col_len]
    | apply has_str_setitem_eq; [col_len]
    | apply has_float_setitem_ne; [discriminate|]
    | apply has_bool_setitem_ne; [discriminate|]
    | apply has_str_setitem_ne; [discriminate|] ].

Lemma bind_Ok_intro {A B} (m : res A) (f : A -> res B) a :
  m = Ok a -> m ≫= f = f a.
Proof. by intros ->. Qed.

Lemma bind_Ok {A B} (f : A -> res B) a : Ok a ≫= f = f a.
Proof. reflexivity. Qed.

(** Runs the next read of a stage whose columns are known to be there. *)
Ltac head_of t :=
  lazymatch t with
  | mbind _ ?m => head_of m
  | _ => t
  end.

Ltac run_read :=
  lazy beta zeta;
  rewrite ?min_axis1_2, ?min_axis1_3, ?max_axis1_2;
  lazymatch goal with
  | |- context [@eq (res _) ?t _] =>
      let h := head_of t in
      lazymatch h with
      | float_col ?d ?c =>
          let H := fresh in
          let Hl := fresh "Hlen" in
          assert (has_float d c) as (? & H & Hl) by has_col;
          rewrite (bind_Ok_intro (float_col d c) _ _ H); clear H;
          cbn [index setitem setitem_scalar] in Hl
      | bool_col ?d ?c =>
          let H := fresh in
          let Hl := fresh "Hlen" in
          assert (has_bool d c) as (? & H & Hl) by has_col;
          rewrite (bind_Ok_intro (bool_col d c) _ _ H); clear H;
          cbn [index setitem setitem_scalar] in Hl
      end
  end.

Ltac run_stage := repeat first [ rewrite bind_Ok | run_read ].

Ltac split_cols :=
  repeat match goal with
  | H : Forall _ (_ :: _) |- _ => apply Forall_cons in H as [? H]
  | H : Forall _ [] |- _ => clear H
  end.

Ltac stage_total :=
  intros; split_cols; run_stage; eexists; split; [reflexivity|];
  split; [reflexivity|]; repeat split; repeat constructor; has_col.

Lemma calculate_all_limits_total df limits :
  Forall (has_float df) ["bod1"; "bod31"; "cod1"; "cod31"] ->
  exists out, calculate_all_limits df limits = Ok out /\ index out = index df /\
    Forall (has_float out)
      ["bod1"; "bod31"; "cod1"; "cod31"; "BODut"; "BODlt"; "CODut"; "CODlt"].
Proof.
  unfold calculate_all_limits, calculate_bod_limits, calculate_cod_limits. stage_total.
Qed.

Lemma apply_linearisation_total df :
  Forall (has_float df)
    ["bod1"; "bod31"; "cod1"; "cod31"; "BODut"; "BODlt"; "CODut"; "CODlt"] ->
  exists out, apply_linearisation df = Ok out /\ index out = index df /\
    Forall (has_float out)
      ["BODut"; "BODlt"; "CODut"; "CODlt";
       "LIN_BODe"; "LIN_BODi"; "LIN_CODe"; "LIN_CODi"].
Proof. unfold apply_linearisation, linearise_bod, linearise_cod. stage_total. Qed.

Lemma calculate_deviation_columns_total df :
  Forall (has_float df)
    ["BODut"; "BODlt"; "CODut"; "CODlt";
     "LIN_BODe"; "LIN_BODi"; "LIN_CODe"; "LIN_CODi"] ->
  exists out, calculate_deviation_columns df = Ok out /\ index out = index df /\
    Forall (has_float out)
      ["BODlt-BODeffl"; "BODut-BODeffl"; "CODlt-CODeffl"; "CODut-CODeffl";
       "LIN_BODe"; "LIN_BODi"; "LIN_CODe"; "LIN_CODi"].
Proof. unfold calculate_deviation_columns. stage_total. Qed.

Lemma calculate_reduction_columns_total df bod_pc cod_pc :
  Forall (has_float df)
    ["BODlt-BODeffl"; "BODut-BODeffl"; "CODlt-CODeffl"; "CODut-CODeffl";
     "LIN_BODe"; "LIN_BODi"; "LIN_CODe"; "LIN_CODi"] ->
  exists out, calculate_reduction_columns df bod_pc cod_pc = Ok out /\
    index out = index df /\
    Forall (has_float out) deviation_columns.
Proof. unfold calculate_reduction_columns, deviation_columns. stage_total. Qed.

Lemma calculate_flag_conditions_total df :
  Forall (has_float df) deviation_columns ->
  exists out, calculate_flag_conditions df = Ok out /\ index out = index df /\
    Forall (has_float out) deviation_columns /\
    Forall (has_bool out) flag_columns.
Proof.
  unfold calculate_flag_conditions, deviation_columns, flag_columns. stage_total.
Qed.

Lemma calculate_psi_values_total df :
  Forall (has_float df) deviation_columns ->
  Forall (has_bool df) flag_columns ->
  exists out, calculate_psi_values df = Ok out /\ index out = index df /\
    Forall (has_float out) (deviation_columns ++ psi_columns) /\
    Forall (has_bool out) flag_columns.
Proof.
  unfold calculate_psi_values, deviation_columns, flag_columns, psi_columns.
  cbn [app]. stage_total.
Qed.

Lemma calculate_metric_values_total df :
  Forall (has_float df) (deviation_columns ++ psi_columns) ->
  Forall (has_bool df) flag_columns ->
  exists out, calculate_metric_values df = Ok out /\ index out = index df /\
    Forall (has_float out)
      (deviation_columns ++ psi_columns ++ ["metric_lut"; "metric_max"]) /\
    Forall (has_bool out) flag_columns.
Proof.
  unfold calculate_metric_values, deviation_columns, flag_columns, psi_columns.
  cbn [app]. stage_total.
Qed.

Lemma determine_failure_type_total df :
  Forall (has_float df)
    (deviation_columns ++ psi_columns ++ ["metric_lut"; "metric_max"]) ->
  Forall (has_bool df) flag_columns ->
  exists out, determine_failure_type df = Ok out /\ index out = index df /\
    Forall (has_float out) (deviation_columns ++ psi_columns ++ ["metric"]) /\
    Forall (has_bool out) (flag_columns ++ predicate_columns) /\
    Forall (has_str out) ["fail_type"; "fail_source"].
Proof.
  unfold determine_failure_type, deviation_columns, flag_columns, psi_columns,
    predicate_columns.
  cbn [app]. stage_total.
Qed.

(** A frame that passes validation and holds the four concentration columns
    as numbers is processed without any exception, whatever its values, and
    the result has every column that [row_at] reads. *)
Lemma process_dataframe_total df limits :
  validate_dataframe df (Some REQUIRED_COLUMNS) false = Ok true ->
  Forall (has_float df) ["bod1"; "bod31"; "cod1"; "cod31"] ->
  exists out, process_dataframe df limits = Ok out /\ index out = index df /\
    Forall (has_float out) (deviation_columns ++ psi_columns ++ ["metric"]) /\
    Forall (has_bool out) (flag_columns ++ predicate_columns) /\
    Forall (has_str out) ["fail_type"; "fail_source"].
Proof.
  intros Hv H0. unfold process_dataframe. rewrite (bind_Ok_intro _ _ _ Hv).
  destruct (calculate_all_limits_total df (Some (default default_limits limits)) H0)
    as (d1 & -> & <- & H1). rewrite bind_Ok.
  destruct (apply_linearisation_total d1 H1) as (d2 & -> & <- & H2). rewrite bind_Ok.
  destruct (calculate_deviation_columns_total d2 H2) as (d3 & -> & <- & H3).
  rewrite bind_Ok.
  destruct (calculate_reduction_columns_total d3 (bod_pc (default default_limits limits))
              (cod_pc (default default_limits limits)) H3) as (d4 & -> & <- & H4).
  rewrite bind_Ok.
  destruct (calculate_flag_conditions_total d4 H4) as (d5 & -> & <- & H5 & B5).
  rewrite bind_Ok.
  destruct (calculate_psi_values_total d5 H5 B5) as (d6 & -> & <- & H6 & B6).
  rewrite bind_Ok.
  destruct (calculate_metric_values_total d6 H6 B6) as (d7 & -> & <- & H7 & B7).
  rewrite bind_Ok.
  apply (determine_failure_type_total d7 H7 B7).
Qed.

Lemma float_at_defined df c i :
  has_float df c -> (i < index df)%nat -> exists v, float_at df c i = Some v.
Proof.
  intros (xs & H & Hl) Hi. rewrite (float_at_col _ _ _ _ H).
  apply lookup_lt_is_Some_2. lia.
Qed.

Lemma bool_at_defined df c i :
  has_bool df c -> (i < index df)%nat -> exists v, bool_at df c i = Some v.
Proof.
  intros (bs & H & Hl) Hi. rewrite (bool_at_col _ _ _ _ H).
  apply lookup_lt_is_Some_2. lia.
Qed.

Lemma str_at_defined df c i :
  has_str df c -> (i < index df)%nat -> exists v, str_at df c i = Some v.
Proof.
  intros (ss & H & Hl) Hi. unfold str_at. rewrite H.
  apply lookup_lt_is_Some_2. lia.
Qed.

Lemma row_at_defined out i :
  Forall (has_float out) (deviation_columns ++ psi_columns ++ ["metric"]) ->
  Forall (has_bool out) (flag_columns ++ predicate_columns) ->
  Forall (has_str out) ["fail_type"; "fail_source"] ->
  (i < index out)%nat ->
  exists r, row_at out i = Some r.
Proof.
  unfold deviation_columns, psi_columns, flag_columns, predicate_columns. cbn [app].
  intros Hf Hb Hs Hi. split_cols. unfold row_at.
  repeat match goal with
  | |- context [float_at out ?c i] =>
      destruct (float_at_defined out c i) as [? ->]; [assumption | assumption |];
      cbn [mbind option_bind]
  | |- context [bool_at out ?c i] =>
      destruct (bool_at_defined out c i) as [? ->]; [assumption | assumption |];
      cbn [mbind option_bind]
  | |- context [str_at out ?c i] =>
      destruct (str_at_defined out c i) as [? ->]; [assumption | assumption |];
      cbn [mbind option_bind]
  end.
  eauto.
Qed.

(** Every row below the row count of a validated frame is classified. *)
Lemma processed_rows_defined df limits i :
  validate_dataframe df (Some REQUIRED_COLUMNS) false = Ok true ->
  Forall (has_float df) ["bod1"; "bod31"; "cod1"; "cod31"] ->
  (i < index df)%nat ->
  exists out r, process_dataframe df limits = Ok out /\ row_at out i = Some r.
Proof.
  intros Hv H0 Hi.
  destruct (process_dataframe_total df limits Hv H0) as (out & Hrun & Hn & Hf & Hb & Hs).
  destruct (row_at_defined out i Hf Hb Hs) as [r Hr]; [lia|]. eauto.
Qed.

(** In a well-formed frame a numeric column has one entry per row. *)
Lemma wf_frame_has_float df c xs :
  wf_frame df -> float_col df c = Ok xs -> has_float df c.
Proof.
  intros Hwf H. exists xs. split; [done|].
  apply float_col_Ok in H. apply (Hwf c _ H).
Qed.

(** ** A zero range in the limit and linearisation stages *)

Lemma zero_range_abs_div x mx mn :
  (mx =? mn) = true -> inf_or_nan (abs ((x - mn) / (mx - mn))).
Proof. intros H. by apply abs_div_zero_range, sub_eq_zero_or_nan. Qed.

Lemma Forall_map_zero_range xs mx mn :
  (mx =? mn) = true ->
  Forall inf_or_nan (map_float (fun x => abs ((x - mn) / (mx - mn))) xs).
Proof.
  intros H. unfold map_float. induction xs; constructor; auto using zero_range_abs_div.
Qed.

Lemma degenerate_run : process_dataframe degenerate None = Ok degenerate_out.
Proof. vm_compute. reflexivity. Qed.

(** C2, as amended: when max(influent) == min(effluent) for a pollutant, the
    limit calculation and the linearisation of that pollutant return normally
    and every value they write is +inf or NaN; and a frame that passes
    validation is processed to the end without an exception, every row being
    classified. *)
Theorem zero_range_raises_nothing df limits :
  (forall bod1 bod31,
      float_col df "bod1" = Ok bod1 -> float_col df "bod31" = Ok bod31 ->
      (nanmax bod1 =? nanmin bod31) = true ->
      exists ut lt e i,
        calculate_bod_limits df limits =
          Ok (setitem_scalar (setitem_scalar df "BODut" ut) "BODlt" lt) /\
        linearise_bod df =
          Ok (setitem (setitem df "LIN_BODe" (FloatCol e)) "LIN_BODi" (FloatCol i)) /\
        inf_or_nan ut /\ inf_or_nan lt /\
        Forall inf_or_nan e /\ Forall inf_or_nan i /\
        length e = length bod31 /\ length i = length bod1) /\
  (forall cod1 cod31,
      float_col df "cod1" = Ok cod1 -> float_col df "cod31" = Ok cod31 ->
      (nanmax cod1 =? nanmin cod31) = true ->
      exists ut lt e i,
        calculate_cod_limits df limits =
          Ok (setitem_scalar (setitem_scalar df "CODut" ut) "CODlt" lt) /\
        linearise_cod df =
          Ok (setitem (setitem df "LIN_CODe" (FloatCol e)) "LIN_CODi" (FloatCol i)) /\
        inf_or_nan ut /\ inf_or_nan lt /\
        Forall inf_or_nan e /\ Forall inf_or_nan i /\
        length e = length cod31 /\ length i = length cod1) /\
  (validate_dataframe df (Some REQUIRED_COLUMNS) false = Ok true ->
   Forall (has_float df) ["bod1"; "bod31"; "cod1"; "cod31"] ->
   exists out, process_dataframe df (Some limits) = Ok out /\
     forall i, (i < index df)%nat -> exists r, row_at out i = Some r).
Proof.
  split; [|split].
  - intros bod1 bod31 H1 H31 Hz. do 4 eexists.
    unfold calculate_bod_limits, linearise_bod. rewrite H1, H31.
    split; [reflexivity|]. split; [reflexivity|].
    repeat split; auto using zero_range_abs_div, Forall_map_zero_range;
      unfold map_float; by rewrite length_map.
  - intros cod1 cod31 H1 H31 Hz. do 4 eexists.
    unfold calculate_cod_limits, linearise_cod. rewrite H1, H31.
    split; [reflexivity|]. split; [reflexivity|].
    repeat split; auto using zero_range_abs_div, Forall_map_zero_range;
      unfold map_float; by rewrite length_map.
  - intros Hv H0.
    destruct (process_dataframe_total df (Some limits) Hv H0)
      as (out & Hrun & Hn & Hf & Hb & Hs).
    exists out. split; [done|]. intros i Hi.
    apply (row_at_defined out i Hf Hb Hs). lia.
Qed.

(** C2 as first stated fails on [degenerate], where max(bod1) = 20 =
    min(bod31): no stage raises, the BOD limits are +inf, the linearised BOD
    columns hold NaN and +inf, and the flags and the classification are
    computed from them. *)
Lemma zero_range_counterexample :
  (nanmax [20; 20] =? nanmin [20; 30]) = true /\
  float_col (run (calculate_bod_limits degenerate default_limits)) "BODut"
    = Ok [infinity; infinity] /\
  float_col (run (calculate_bod_limits degenerate default_limits)) "BODlt"
    = Ok [infinity; infinity] /\
  float_col (run (linearise_bod degenerate)) "LIN_BODe" = Ok [nan; infinity] /\
  float_col (run (linearise_bod degenerate)) "LIN_BODi" = Ok [nan; nan] /\
  process_dataframe degenerate None = Ok degenerate_out /\
  float_col degenerate_out "BODut" = Ok [infinity; infinity] /\
  float_col degenerate_out "LIN_BODe" = Ok [nan; infinity] /\
  bool_col degenerate_out "flag_BODut" = Ok [false; false] /\
  columns degenerate_out !! "fail_type" = Some (StrCol [Compliant; Max_Limit_Failure]).
Proof.
  split; [by vm_compute|]. split; [by vm_compute|]. split; [by vm_compute|].
  split; [by vm_compute|]. split; [by vm_compute|]. split; [apply degenerate_run|].
  split; [by vm_compute|]. split; [by vm_compute|]. split; by vm_compute.
Qed.

Lemma zero_range_raises_nothing_witness :
  (exists ut lt e i,
      calculate_bod_limits degenerate default_limits =
        Ok (setitem_scalar (setitem_scalar degenerate "BODut" ut) "BODlt" lt) /\
      linearise_bod degenerate =
        Ok (setitem (setitem degenerate "LIN_BODe" (FloatCol e)) "LIN_BODi" (FloatCol i)) /\
      inf_or_nan ut /\ inf_or_nan lt /\
      Forall inf_or_nan e /\ Forall inf_or_nan i /\
      length e = 2%nat /\ length i = 2%nat) /\
  (exists out, process_dataframe degenerate (Some default_limits) = Ok out /\
     forall i, (i < 2)%nat -> exists r, row_at out i = Some r).
Proof.
  destruct (zero_range_raises_nothing degenerate default_limits) as (Hb & _ & Ht).
  split.
  - apply (Hb [20; 20] [20; 30]); by vm_compute.
  - apply Ht; [by vm_compute|].
    repeat constructor; eexists; split; by vm_compute.
Defined.

(** ** Recovery times *)

Lemma scan_step_compliant time_step failure_types st v :
  v ∉ failure_types -> in_non_compliance st = false ->
  scan_step time_step failure_types st v = st.
Proof.
  intros Hv Hst. unfold scan_step.
  rewrite bool_decide_eq_false_2 by done. by rewrite Hst.
Qed.

Lemma scan_all_compliant time_step failure_types series st :
  Forall (fun v => v ∉ failure_types) series -> in_non_compliance st = false ->
  fold_left (scan_step time_step failure_types) series st = st.
Proof.
  intros Hs Hst. induction Hs as [|v series Hv _ IH]; simpl; [done|].
  by rewrite scan_step_compliant.
Qed.

Lemma compute_recovery_time_compliant series time_step failure_types :
  Forall (fun v => v ∉ failure_types) series ->
  compute_recovery_time series time_step failure_types = [].
Proof.
  intros Hs. unfold compute_recovery_time. by rewrite scan_all_compliant.
Qed.

(** C6: the two recovery-time examples. *)
Theorem recovery_time_examples :
  compute_recovery_time
    [Compliant; LUT_exceedance; LUT_exceedance; Compliant; Max_Limit_Failure; Compliant]
    (Some 1) default_failure_types = [2; 1] /\
  compute_recovery_time [Compliant; LUT_exceedance; LUT_exceedance]
    (Some 0.5) default_failure_types = [1].
Proof. split; by vm_compute. Qed.

(** C7: a series with no non-compliant value has no recovery time, and its
    mean recovery time is 0.0, in days and in minutes. *)
Theorem all_compliant_no_recovery series time_step convert_to_minutes :
  Forall (fun v => v ∉ default_failure_types) series ->
  compute_recovery_time series time_step default_failure_types = [] /\
  compute_mean_recovery_time series time_step convert_to_minutes = 0.
Proof.
  intros Hs. split; [by apply compute_recovery_time_compliant|].
  unfold compute_mean_recovery_time, compute_recovery_time_minutes.
  rewrite !compute_recovery_time_compliant by done. by destruct convert_to_minutes.
Qed.

Lemma all_compliant_no_recovery_witness :
  compute_recovery_time [Compliant; Compliant; Compliant] None default_failure_types = [] /\
  compute_mean_recovery_time [Compliant; Compliant; Compliant] None true = 0.
Proof.
  apply (all_compliant_no_recovery [Compliant; Compliant; Compliant] None true).
  apply (bool_decide_unpack _). by vm_compute.
Defined.

(** The scan in general: one value per maximal run of non-compliant rows,
    the run length times the time step rounded to two decimals, a run that
    is still open at the end included. *)
Lemma scan_runs time_step failure_types series st :
  (in_non_compliance st = false -> non_compliance_duration st = 0%Z) ->
  (if in_non_compliance (fold_left (scan_step time_step failure_types) series st)
   then recovery_times (fold_left (scan_step time_step failure_types) series st)
          ++ [recovery_time (fold_left (scan_step time_step failure_types) series st)
                time_step]
   else recovery_times (fold_left (scan_step time_step failure_types) series st)) =
  recovery_times st ++
    ((fun n => py_round2 (Z_to_float n * time_step)) <$>
       runs ((fun v => bool_decide (v ∈ failure_types)) <$> series)
            (if in_non_compliance st then Some (non_compliance_duration st) else None)).
Proof.
  revert st. induction series as [|v series IH]; intros st Hinv.
  - simpl. destruct (in_non_compliance st); simpl; by rewrite ?app_nil_r.
  - cbn [fold_left]. rewrite IH.
    + unfold scan_step. cbn [fmap list_fmap runs].
      destruct (bool_decide (v ∈ failure_types)) eqn:Ev;
        destruct (in_non_compliance st) eqn:Est; cbn; rewrite ?Est.
      * reflexivity.
      * rewrite Hinv by reflexivity. reflexivity.
      * rewrite <- app_assoc. reflexivity.
      * reflexivity.
    + unfold scan_step.
      destruct (bool_decide (v ∈ failure_types)); [discriminate|].
      destruct (in_non_compliance st) eqn:Est; simpl; intros; [reflexivity | auto].
Qed.

Lemma compute_recovery_time_runs series time_step failure_types :
  compute_recovery_time series time_step failure_types =
    (fun n => py_round2 (Z_to_float n * default TIME_STEP time_step)) <$>
      runs ((fun v => bool_decide (v ∈ failure_types)) <$> series) None.
Proof. unfold compute_recovery_time. by rewrite scan_runs. Qed.

(** ** Non-stationarity score *)

(** C8, as amended: the score is NaN for every series shorter than the
    window; it is exactly 0.0 when at least [window] values are not NaN
    (window >= 0) and their sample variance compares equal to zero. *)
Theorem non_stationarity_score_short_or_flat series window :
  ((Z.of_nat (length series) < window)%Z ->
   non_stationarity_score series window = Ok nan) /\
  ((0 <= window <= Z.of_nat (length (dropna series)))%Z ->
   (series_var (dropna series) =? 0) = true ->
   non_stationarity_score series window = Ok 0).
Proof.
  unfold non_stationarity_score. split.
  - intros H. by rewrite (proj2 (Z.ltb_lt _ _) H).
  - intros [H0 Hw] Hv.
    assert (length (dropna series) <= length series)%nat by apply length_filter.
    rewrite (proj2 (Z.ltb_ge _ _)) by lia.
    rewrite (proj2 (Z.ltb_ge _ _) Hw).
    unfold rolling_var. rewrite (proj2 (Z.ltb_ge _ _) H0). simpl.
    by rewrite Hv.
Qed.

(** C8 as first stated fails on the constant series [5.0] with window 1: the
    sample variance of one value is NaN, and so is the score. *)
Lemma constant_series_counterexample :
  (Z.of_nat (length [5]) <? 1)%Z = false /\
  non_stationarity_score [5] 1 = Ok nan.
Proof. split; by vm_compute. Qed.

(** With the two-pass variance, rounding alone can also make the variance
    of a constant series non-zero. *)
Remark constant_series_rounding :
  (series_var [0.1; 0.1; 0.1] =? 0) = false /\
  non_stationarity_score [0.1; 0.1; 0.1] 2 = Ok 1.
Proof. split; by vm_compute. Qed.

Lemma non_stationarity_score_short_or_flat_witness :
  non_stationarity_score [1; 2] 3 = Ok nan /\
  non_stationarity_score [2; 2; 2] 2 = Ok 0.
Proof.
  split.
  - apply (non_stationarity_score_short_or_flat [1; 2] 3). by vm_compute.
  - apply (non_stationarity_score_short_or_flat [2; 2; 2] 2); by vm_compute.
Defined.

(** * Further properties of the code *)

(** ** Signs of binary64 values *)

Lemma abs_not_negative x : (abs x <? 0) = false.
Proof.
  rewrite FloatAxioms.ltb_spec, FloatAxioms.abs_spec. unfold SFltb.
  by destruct (Prim2SF x) as [[]|[]| |[] m e].
Qed.

Lemma ltb_not_nan x y : (x <? y) = true -> is_nan x = false /\ is_nan y = false.
Proof.
  rewrite FloatAxioms.ltb_spec, !is_nan_false. unfold SFltb.
  destruct (Prim2SF x), (Prim2SF y); simpl; try done.
Qed.

Lemma leb_not_nan x y : (x <=? y) = true -> is_nan x = false /\ is_nan y = false.
Proof.
  rewrite FloatAxioms.leb_spec, !is_nan_false. unfold SFleb.
  destruct (Prim2SF x), (Prim2SF y); simpl; try done.
Qed.

(** Against zero, [>=] is the negation of [<] unless the value is NaN. *)
Lemma geb_zero_negb_ltb x : is_nan x = false -> (0 <=? x) = negb (x <? 0).
Proof.
  intros Hx%is_nan_false. rewrite FloatAxioms.leb_spec, FloatAxioms.ltb_spec.
  unfold SFleb, SFltb. change (Prim2SF 0) with (S754_zero false).
  by destruct (Prim2SF x) as [[]|[]| |[] m e].
Qed.

Lemma leb_ltb_zero_trans x y : (x <=? y) = true -> (y <? 0) = true -> (x <? 0) = true.
Proof.
  rewrite FloatAxioms.leb_spec, !FloatAxioms.ltb_spec. unfold SFleb, SFltb.
  change (Prim2SF 0) with (S754_zero false).
  destruct (Prim2SF x) as [[]|[]| |[] mx ex], (Prim2SF y) as [[]|[]| |[] my ey];
    simpl; try done.
Qed.

Lemma minimum_negative_l a b :
  is_nan b = false -> (a <? 0) = true -> (minimum a b <? 0) = true.
Proof.
  intros Hb Ha. unfold minimum. destruct (a <=? b) eqn:Hab; [done|].
  destruct (ltb_not_nan _ _ Ha) as [Hna _].
  apply (leb_ltb_zero_trans b a); [by apply leb_total | done].
Qed.

Lemma minimum_negative_r a b :
  is_nan a = false -> (b <? 0) = true -> (minimum a b <? 0) = true.
Proof.
  intros Ha Hb. unfold minimum. destruct (a <=? b) eqn:Hab; [|done].
  by apply (leb_ltb_zero_trans a b).
Qed.

(** A row-wise minimum is negative as soon as one of its entries is. *)
Lemma nanmin_negative xs x : x ∈ xs -> (x <? 0) = true -> (nanmin xs <? 0) = true.
Proof.
  intros Hin Hx. destruct (ltb_not_nan _ _ Hx) as [Hn _].
  assert (x ∈ dropna xs) as Hd by (by apply list_elem_of_filter).
  assert (Forall (fun y => is_nan y = false) (dropna xs)) as Hall.
  { apply Forall_forall. by intros y [? _]%list_elem_of_filter. }
  unfold nanmin. destruct (dropna xs) as [|y r]; [by apply elem_of_nil in Hd|].
  apply Forall_cons in Hall as [Hy Hr].
  assert ((y <? 0) = true \/ x ∈ r) as Hcase.
  { apply elem_of_cons in Hd as [<-|]; auto. }
  clear Hd Hin. revert y Hy Hcase.
  induction Hr as [|z r Hz Hr IH]; intros y Hy [Hy0|Hxr]; simpl.
  - done.
  - by apply elem_of_nil in Hxr.
  - apply IH; [by apply minimum_not_nan|]. left. by apply minimum_negative_l.
  - apply IH; [by apply minimum_not_nan|].
    apply elem_of_cons in Hxr as [<-|]; [left|by right].
    by apply minimum_negative_r.
Qed.

Lemma nanmin_all_nan xs : Forall (fun x => is_nan x = true) xs -> nanmin xs = nan.
Proof.
  intros H. unfold nanmin, dropna.
  replace (filter (fun x => is_nan x = false) xs) with (@nil float); [done|].
  symmetry. induction H as [|x xs Hx _ IH]; [done|].
  rewrite filter_cons_False by (by rewrite Hx). done.
Qed.

Lemma nanmax_all_nan xs : Forall (fun x => is_nan x = true) xs -> nanmax xs = nan.
Proof.
  intros H. unfold nanmax, dropna.
  replace (filter (fun x => is_nan x = false) xs) with (@nil float); [done|].
  symmetry. induction H as [|x xs Hx _ IH]; [done|].
  rewrite filter_cons_False by (by rewrite Hx). done.
Qed.

(** Arithmetic on what a zero range leaves behind. *)
Lemma sub_nan_r x : x - nan = nan.
Proof.
  apply Prim2SF_inj. rewrite FloatAxioms.sub_spec. unfold SF64sub.
  change (Prim2SF nan) with S754_nan. by destruct (Prim2SF x) as [[]|[]| |[] m e].
Qed.

Lemma sub_inf_or_nan a b : inf_or_nan a -> inf_or_nan b -> a - b = nan.
Proof. by intros [->| ->] [->| ->]. Qed.

Lemma reduction_inf_or_nan pc i e :
  inf_or_nan i -> inf_or_nan e -> - (pc * i) + i - e = nan.
Proof.
  intros Hi [->| ->]; [|apply sub_nan_r].
  apply Prim2SF_inj. destruct Hi as [->| ->].
  - rewrite FloatAxioms.sub_spec, FloatAxioms.add_spec, FloatAxioms.opp_spec,
      FloatAxioms.mul_spec.
    unfold SF64sub, SF64add, SF64mul.
    change (Prim2SF infinity) with (S754_infinity false). change (Prim2SF nan) with S754_nan.
    by destruct (Prim2SF pc) as [[]|[]| |[] m e].
  - rewrite FloatAxioms.sub_spec, FloatAxioms.add_spec, FloatAxioms.opp_spec,
      FloatAxioms.mul_spec.
    unfold SF64sub, SF64add, SF64mul.
    change (Prim2SF infinity) with (S754_infinity false). change (Prim2SF nan) with S754_nan.
    by destruct (Prim2SF pc) as [[]|[]| |[] m e].
Qed.

(** ** The order of binary64 values *)

Lemma SFleb_trans x y z : SFleb x y = true -> SFleb y z = true -> SFleb x z = true.
Proof.
  unfold SFleb, SFcompare.
  destruct x as [sx|sx| |sx mx ex], y as [sy|sy| |sy my ey], z as [sz|sz| |sz mz ez];
    try destruct sx; try destruct sy; try destruct sz; try done;
    change (PosDef.Pos.compare_cont Eq) with Pos.compare;
    destruct (Z.compare_spec ex ey), (Z.compare_spec ey ez), (Z.compare_spec ex ez);
    try done; try lia; subst;
    destruct (Pos.compare_spec mx my), (Pos.compare_spec my mz), (Pos.compare_spec mx mz);
    try done; lia.
Qed.

Lemma leb_trans x y z : (x <=? y) = true -> (y <=? z) = true -> (x <=? z) = true.
Proof. rewrite !FloatAxioms.leb_spec. apply SFleb_trans. Qed.

Lemma minimum_leb_l a b : is_nan a = false -> is_nan b = false -> (minimum a b <=? a) = true.
Proof.
  intros Ha Hb. unfold minimum. destruct (a <=? b) eqn:E; [by apply leb_refl|].
  by apply leb_total.
Qed.

Lemma minimum_leb_r a b : is_nan a = false -> is_nan b = false -> (minimum a b <=? b) = true.
Proof.
  intros Ha Hb. unfold minimum. destruct (a <=? b) eqn:E; [done|]. by apply leb_refl.
Qed.

Lemma nanmin_triple a b c :
  is_nan a = false -> is_nan b = false -> is_nan c = false ->
  nanmin [a; b; c] = minimum (minimum a b) c.
Proof.
  intros Ha Hb Hc. unfold nanmin, dropna.
  rewrite !filter_cons_True by done. done.
Qed.

(** min(a, p, u) is below a and below min(u, p). *)
Lemma psi_2_least a p u :
  is_nan a = false -> is_nan p = false -> is_nan u = false ->
  (nanmin [a; p; u] <=? nanmax [a; nanmin [a; p]]) = true /\
  (nanmin [a; p; u] <=? nanmin [u; p]) = true.
Proof.
  intros Ha Hp Hu. rewrite psi_1_absorption, nanmin_triple, (nanmin_pair u p) by done.
  pose proof (minimum_not_nan a p Ha Hp) as Hm.
  pose proof (minimum_leb_l (minimum a p) u Hm Hu) as H1.
  pose proof (minimum_leb_r (minimum a p) u Hm Hu) as H2.
  split.
  - apply (leb_trans _ _ _ H1), minimum_leb_l; done.
  - unfold minimum at 3. destruct (u <=? p); [done|].
    apply (leb_trans _ _ _ H1), minimum_leb_r; done.
Qed.

(** ** What each stage writes *)

Lemma writes_only_trans ws1 ws2 d0 d1 d2 :
  writes_only ws1 d0 d1 -> writes_only ws2 d1 d2 -> writes_only (ws1 ++ ws2) d0 d2.
Proof.
  intros (Hn1 & Hk1 & Hw1) (Hn2 & Hk2 & Hw2). split; [congruence|]. split.
  - intros c [H1 H2]%not_elem_of_app. by rewrite Hk2, Hk1.
  - intros c Hc. destruct (decide (c ∈ ws2)) as [|Hn]; [by apply Hw2|].
    rewrite (Hk2 c Hn). apply Hw1. apply elem_of_app in Hc as [|]; done.
Qed.

Ltac stage_writes H :=
  inv_res H; subst; unfold writes_only, setitem_scalar; cbn [index setitem];
  split; [reflexivity|]; split;
  [ let c := fresh "c" in let Hc := fresh "Hc" in
    intros c Hc; rewrite ?not_elem_of_cons in Hc; destruct_and?;
    repeat (rewrite columns_setitem_ne by congruence); reflexivity
  | let c := fresh "c" in let Hc := fresh "Hc" in
    intros c Hc; rewrite ?elem_of_cons in Hc;
    repeat (destruct Hc as [->|Hc]); [..|by apply elem_of_nil in Hc];
    repeat first [ rewrite columns_setitem_eq | rewrite columns_setitem_ne by discriminate ];
    eauto ].

Lemma calculate_all_limits_writes d limits d' :
  calculate_all_limits d limits = Ok d' -> writes_only limit_columns d d'.
Proof.
  intros H. unfold calculate_all_limits, calculate_bod_limits, calculate_cod_limits in H.
  unfold limit_columns. stage_writes H.
Qed.

Lemma apply_linearisation_writes d d' :
  apply_linearisation d = Ok d' -> writes_only linearised_columns d d'.
Proof.
  intros H. unfold apply_linearisation, linearise_bod, linearise_cod in H.
  unfold linearised_columns. stage_writes H.
Qed.

Lemma calculate_deviation_columns_writes d d' :
  calculate_deviation_columns d = Ok d' -> writes_only difference_columns d d'.
Proof.
  intros H. unfold calculate_deviation_columns in H.
  unfold difference_columns. stage_writes H.
Qed.

Lemma calculate_reduction_columns_writes d bod_pc cod_pc d' :
  calculate_reduction_columns d bod_pc cod_pc = Ok d' -> writes_only reduction_columns d d'.
Proof.
  intros H. unfold calculate_reduction_columns in H.
  unfold reduction_columns. stage_writes H.
Qed.

Lemma calculate_flag_conditions_writes d d' :
  calculate_flag_conditions d = Ok d' -> writes_only flag_columns d d'.
Proof.
  intros H. unfold calculate_flag_conditions in H.
  unfold flag_columns. stage_writes H.
Qed.

Lemma calculate_psi_values_writes d d' :
  calculate_psi_values d = Ok d' -> writes_only psi_value_columns d d'.
Proof.
  intros H. unfold calculate_psi_values in H.
  unfold psi_value_columns. stage_writes H.
Qed.

Lemma calculate_metric_values_writes d d' :
  calculate_metric_values d = Ok d' -> writes_only metric_value_columns d d'.
Proof.
  intros H. unfold calculate_metric_values in H.
  unfold metric_value_columns. stage_writes H.
Qed.

Lemma determine_failure_type_writes d d' :
  determine_failure_type d = Ok d' -> writes_only failure_type_columns d d'.
Proof.
  intros H. unfold determine_failure_type in H.
  unfold failure_type_columns. stage_writes H.
Qed.

(** ** Validation *)

Lemma check_required_columns_no_raise df required_columns :
  check_required_columns df required_columns false =
    Ok (filter (fun c => columns df !! c = None) (default REQUIRED_COLUMNS required_columns)).
Proof. unfold check_required_columns. by rewrite andb_false_r. Qed.

Lemma filter_missing_nil df (cs : list string) :
  filter (fun c => columns df !! c = None) cs = [] <->
  Forall (fun c => is_Some (columns df !! c)) cs.
Proof.
  induction cs as [|c cs IH]; [by split; [constructor|]|].
  destruct (columns df !! c) eqn:Hc.
  - rewrite filter_cons_False by (by rewrite Hc). rewrite IH. split.
    + intros. constructor; [by rewrite Hc|done].
    + by intros [_ ?]%Forall_cons.
  - rewrite filter_cons_True by done. split; [done|].
    intros [[? Hs] _]%Forall_cons. by rewrite Hc in Hs.
Qed.

Lemma validate_dataframe_Ok df required_columns allow_empty b :
  validate_dataframe df required_columns allow_empty = Ok b <->
  b = true /\ (allow_empty = true \/ df_empty df = false) /\
  Forall (fun c => is_Some (columns df !! c)) (default REQUIRED_COLUMNS required_columns).
Proof.
  unfold validate_dataframe. rewrite check_required_columns_no_raise.
  rewrite <- filter_missing_nil. cbn [mbind res_bind].
  destruct allow_empty, (df_empty df); simpl;
    try (split; [done | by intros (_ & [|] & _)]);
    case_bool_decide as Hm; simpl;
    (split; [intros [= <-]; auto | intros (-> & _ & ?); done]).
Qed.

(** ** The stages of [process_dataframe] *)

Lemma process_dataframe_inv df limits out :
  process_dataframe df limits = Ok out ->
  exists d1 d2 d3 d4 d5 d6 d7,
    validate_dataframe df (Some REQUIRED_COLUMNS) false = Ok true /\
    calculate_all_limits df (Some (default default_limits limits)) = Ok d1 /\
    apply_linearisation d1 = Ok d2 /\
    calculate_deviation_columns d2 = Ok d3 /\
    calculate_reduction_columns d3 (bod_pc (default default_limits limits))
      (cod_pc (default default_limits limits)) = Ok d4 /\
    calculate_flag_conditions d4 = Ok d5 /\
    calculate_psi_values d5 = Ok d6 /\
    calculate_metric_values d6 = Ok d7 /\
    determine_failure_type d7 = Ok out.
Proof.
  unfold process_dataframe. intros H.
  apply bind_Ok_inv in H as (b & Hv & H).
  assert (b = true) as -> by (by apply validate_dataframe_Ok in Hv as [? _]).
  do 7 (apply bind_Ok_inv in H as (? & ? & H)).
  eauto 20.
Qed.

Lemma process_dataframe_writes df limits out :
  process_dataframe df limits = Ok out -> writes_only computed_columns df out.
Proof.
  intros (d1 & d2 & d3 & d4 & d5 & d6 & d7 & _ & H1 & H2 & H3 & H4 & H5 & H6 & H7 & H8)
    %process_dataframe_inv.
  unfold computed_columns.
  eapply writes_only_trans; [by eapply calculate_all_limits_writes|].
  eapply writes_only_trans; [by eapply apply_linearisation_writes|].
  eapply writes_only_trans; [by eapply calculate_deviation_columns_writes|].
  eapply writes_only_trans; [by eapply calculate_reduction_columns_writes|].
  eapply writes_only_trans; [by eapply calculate_flag_conditions_writes|].
  eapply writes_only_trans; [by eapply calculate_psi_values_writes|].
  eapply writes_only_trans; [by eapply calculate_metric_values_writes|].
  by eapply determine_failure_type_writes.
Qed.

(** The columns of a processed frame: those of the input, and the computed
    ones. *)
Lemma process_dataframe_columns df limits out :
  process_dataframe df limits = Ok out ->
  index out = index df /\
  (forall c, c ∉ computed_columns -> columns out !! c = columns df !! c) /\
  Forall (fun c => is_Some (columns out !! c)) computed_columns /\
  Forall (fun c => is_Some (columns df !! c) /\ columns out !! c = columns df !! c)
    REQUIRED_COLUMNS.
Proof.
  intros Hrun. destruct (process_dataframe_writes _ _ _ Hrun) as (Hn & Hk & Hw).
  split; [done|]. split; [done|]. split; [by apply Forall_forall|].
  apply process_dataframe_inv in Hrun as (_ & _ & _ & _ & _ & _ & _ & Hv & _).
  apply validate_dataframe_Ok in Hv as (_ & _ & Hreq). cbn [default] in Hreq.
  apply Forall_forall. intros c Hc. split; [by apply (proj1 (Forall_forall _ _) Hreq)|].
  apply Hk. revert c Hc. apply Forall_forall.
  apply (bool_decide_unpack _). by vm_compute.
Qed.

(** X1: a processed frame is the input frame with the computed columns
    added: the row count and every column that is not one of the computed
    ones are those of the input (the six required columns among them), and
    each computed column is there. *)
Theorem process_dataframe_adds_columns df limits out :
  process_dataframe df limits = Ok out ->
  index out = index df /\
  (forall c, c ∉ computed_columns -> columns out !! c = columns df !! c) /\
  Forall (fun c => is_Some (columns out !! c)) computed_columns /\
  Forall (fun c => is_Some (columns df !! c) /\ columns out !! c = columns df !! c)
    REQUIRED_COLUMNS.
Proof. apply process_dataframe_columns. Qed.

Lemma process_dataframe_adds_columns_witness :
  index sample_out = index sample_data /\
  Forall (fun c => is_Some (columns sample_out !! c)) computed_columns /\
  Forall (fun c => is_Some (columns sample_data !! c) /\
                   columns sample_out !! c = columns sample_data !! c) REQUIRED_COLUMNS.
Proof.
  destruct (process_dataframe_adds_columns sample_data None sample_out sample_run)
    as (H1 & _ & H2 & H3).
  by repeat split.
Defined.

(** ** Processing a processed frame again *)

Lemma setitem_id df c s : columns df !! c = Some s -> setitem df c s = df.
Proof. intros H. destruct df as [n m]. unfold setitem. simpl in *. by rewrite insert_id. Qed.

Lemma float_col_agree d d' c : columns d' !! c = columns d !! c -> float_col d' c = float_col d c.
Proof. intros H. unfold float_col, getitem. by rewrite H. Qed.

Lemma bool_col_agree d d' c : columns d' !! c = columns d !! c -> bool_col d' c = bool_col d c.
Proof. intros H. unfold bool_col, getitem. by rewrite H. Qed.

Ltac not_written := apply (bool_decide_unpack _); vm_compute; exact I.

Ltac stored_lookup :=
  repeat first [ rewrite columns_setitem_eq | rewrite columns_setitem_ne by discriminate ].

(** The reads of a stage that ran on [d], transferred to a frame [out] that
    holds the same columns. *)
Ltac out_reads H Hlater out Hn Hk :=
  inv_res H; subst; unfold setitem_scalar in *; cbn [index setitem] in *;
  cols_simpl; cols_merge; subst;
  destruct Hlater as (Hn & Hk & _);
  cbn [index setitem] in Hn;
  repeat match goal with
  | E : float_col ?d ?c = Ok ?x |- _ =>
      lazymatch d with out => fail | _ => idtac end;
      let E' := fresh "R" in
      assert (float_col out c = Ok x) as E'
        by (rewrite (float_col_agree d out c); [exact E | rewrite Hk by not_written; by stored_lookup]);
      clear E
  | E : bool_col ?d ?c = Ok ?x |- _ =>
      lazymatch d with out => fail | _ => idtac end;
      let E' := fresh "R" in
      assert (bool_col out c = Ok x) as E'
        by (rewrite (bool_col_agree d out c); [exact E | rewrite Hk by not_written; by stored_lookup]);
      clear E
  end.

Ltac run_reads out :=
  repeat first
    [ rewrite bind_Ok
    | progress (lazy beta zeta)
    | rewrite float_col_setitem_eq
    | rewrite bool_col_setitem_eq
    | rewrite float_col_setitem_ne by discriminate
    | rewrite bool_col_setitem_ne by discriminate
    | rewrite min_axis1_2
    | rewrite min_axis1_3
    | rewrite max_axis1_2
    | match goal with
      | R : float_col out ?c = Ok _ |- context [float_col out ?c] => rewrite R
      | R : bool_col out ?c = Ok _ |- context [bool_col out ?c] => rewrite R
      end ].

(** Runs a stage on [out], a frame that holds the columns the stage read on
    [d], and the columns it wrote, unchanged. *)
Ltac stage_rerun H Hlater out :=
  let Hn := fresh "Hn" in let Hk := fresh "Hk" in
  out_reads H Hlater out Hn Hk;
  run_reads out;
  cbn [index setitem]; rewrite ?Hn; f_equal;
  repeat (rewrite (setitem_id out) by (rewrite Hk by not_written; by stored_lookup));
  reflexivity.

Lemma calculate_all_limits_rerun d limits d' out :
  calculate_all_limits d limits = Ok d' ->
  writes_only
    (linearised_columns ++ difference_columns ++ reduction_columns ++ flag_columns
       ++ psi_value_columns ++ metric_value_columns ++ failure_type_columns) d' out ->
  calculate_all_limits out limits = Ok out.
Proof.
  intros H Hlater.
  unfold calculate_all_limits, calculate_bod_limits, calculate_cod_limits in *.
  stage_rerun H Hlater out.
Qed.

Lemma apply_linearisation_rerun d d' out :
  apply_linearisation d = Ok d' ->
  writes_only
    (difference_columns ++ reduction_columns ++ flag_columns
       ++ psi_value_columns ++ metric_value_columns ++ failure_type_columns) d' out ->
  apply_linearisation out = Ok out.
Proof.
  intros H Hlater. unfold apply_linearisation, linearise_bod, linearise_cod in *.
  stage_rerun H Hlater out.
Qed.

Lemma calculate_deviation_columns_rerun d d' out :
  calculate_deviation_columns d = Ok d' ->
  writes_only
    (reduction_columns ++ flag_columns
       ++ psi_value_columns ++ metric_value_columns ++ failure_type_columns) d' out ->
  calculate_deviation_columns out = Ok out.
Proof.
  intros H Hlater. unfold calculate_deviation_columns in *. stage_rerun H Hlater out.
Qed.

Lemma calculate_reduction_columns_rerun d bod_pc cod_pc d' out :
  calculate_reduction_columns d bod_pc cod_pc = Ok d' ->
  writes_only
    (flag_columns ++ psi_value_columns ++ metric_value_columns ++ failure_type_columns)
    d' out ->
  calculate_reduction_columns out bod_pc cod_pc = Ok out.
Proof.
  intros H Hlater. unfold calculate_reduction_columns in *. stage_rerun H Hlater out.
Qed.

Lemma calculate_flag_conditions_rerun d d' out :
  calculate_flag_conditions d = Ok d' ->
  writes_only (psi_value_columns ++ metric_value_columns ++ failure_type_columns) d' out ->
  calculate_flag_conditions out = Ok out.
Proof.
  intros H Hlater. unfold calculate_flag_conditions in *. stage_rerun H Hlater out.
Qed.

Lemma calculate_psi_values_rerun d d' out :
  calculate_psi_values d = Ok d' ->
  writes_only (metric_value_columns ++ failure_type_columns) d' out ->
  calculate_psi_values out = Ok out.
Proof.
  intros H Hlater. unfold calculate_psi_values in *. stage_rerun H Hlater out.
Qed.

Lemma calculate_metric_values_rerun d d' out :
  calculate_metric_values d = Ok d' ->
  writes_only failure_type_columns d' out ->
  calculate_metric_values out = Ok out.
Proof.
  intros H Hlater. unfold calculate_metric_values in *. stage_rerun H Hlater out.
Qed.

Lemma writes_only_refl d : writes_only [] d d.
Proof. split; [done|]. split; [done|]. by intros c ?%elem_of_nil. Qed.

Lemma determine_failure_type_rerun d d' out :
  determine_failure_type d = Ok d' -> writes_only [] d' out ->
  determine_failure_type out = Ok out.
Proof.
  intros H Hlater. unfold determine_failure_type in *. stage_rerun H Hlater out.
Qed.

Lemma processed_frame_valid df limits out :
  process_dataframe df limits = Ok out ->
  validate_dataframe out (Some REQUIRED_COLUMNS) false = Ok true.
Proof.
  intros Hrun.
  destruct (process_dataframe_columns _ _ _ Hrun) as (Hn & _ & _ & Hreq).
  apply process_dataframe_inv in Hrun as (_ & _ & _ & _ & _ & _ & _ & Hv & _).
  apply validate_dataframe_Ok in Hv as (_ & [|He] & _); [done|].
  apply validate_dataframe_Ok. split; [done|]. split.
  - right. unfold df_empty in *. apply orb_false_iff in He as [He _].
    rewrite Hn, He. simpl. apply bool_decide_eq_false_2. intros Hout.
    destruct (proj1 (Forall_forall _ _) Hreq "bod1") as [[s Hs] H1]; [by constructor|].
    rewrite Hout, lookup_empty in H1. congruence.
  - cbn [default]. eapply Forall_impl; [exact Hreq|]. intros c [Hs ->]. exact Hs.
Qed.

(** X2: processing is idempotent: a processed frame is processed to
    itself. *)
Theorem process_dataframe_idempotent df limits out :
  process_dataframe df limits = Ok out -> process_dataframe out limits = Ok out.
Proof.
  intros Hrun. pose proof (processed_frame_valid _ _ _ Hrun) as Hv.
  apply process_dataframe_inv in Hrun
    as (d1 & d2 & d3 & d4 & d5 & d6 & d7 & _ & H1 & H2 & H3 & H4 & H5 & H6 & H7 & H8).
  pose proof (determine_failure_type_writes _ _ H8) as W8.
  pose proof (writes_only_trans _ _ _ _ _ (calculate_metric_values_writes _ _ H7) W8) as W7.
  pose proof (writes_only_trans _ _ _ _ _ (calculate_psi_values_writes _ _ H6) W7) as W6.
  pose proof (writes_only_trans _ _ _ _ _ (calculate_flag_conditions_writes _ _ H5) W6) as W5.
  pose proof (writes_only_trans _ _ _ _ _ (calculate_reduction_columns_writes _ _ _ _ H4) W5)
    as W4.
  pose proof (writes_only_trans _ _ _ _ _ (calculate_deviation_columns_writes _ _ H3) W4) as W3.
  pose proof (writes_only_trans _ _ _ _ _ (apply_linearisation_writes _ _ H2) W3) as W2.
  unfold process_dataframe. rewrite Hv, bind_Ok.
  rewrite (calculate_all_limits_rerun _ _ _ _ H1 W2), bind_Ok.
  rewrite (apply_linearisation_rerun _ _ _ H2 W3), bind_Ok.
  rewrite (calculate_deviation_columns_rerun _ _ _ H3 W4), bind_Ok.
  rewrite (calculate_reduction_columns_rerun _ _ _ _ _ H4 W5), bind_Ok.
  rewrite (calculate_flag_conditions_rerun _ _ _ H5 W6), bind_Ok.
  rewrite (calculate_psi_values_rerun _ _ _ H6 W7), bind_Ok.
  rewrite (calculate_metric_values_rerun _ _ _ H7 W8), bind_Ok.
  apply (determine_failure_type_rerun _ _ _ H8 (writes_only_refl out)).
Qed.

Lemma process_dataframe_idempotent_witness :
  process_dataframe sample_out None = Ok sample_out.
Proof. apply (process_dataframe_idempotent sample_data None sample_out sample_run). Defined.

(** ** The first four stages in closed form *)

(** The limit, linearised, deviation and reduction columns of a processed
    frame, as functions of the four concentration columns of the input. *)
Lemma processed_columns df limits out :
  process_dataframe df limits = Ok out ->
  exists bod1 bod31 cod1 cod31,
    float_col df "bod1" = Ok bod1 /\ float_col df "bod31" = Ok bod31 /\
    float_col df "cod1" = Ok cod1 /\ float_col df "cod31" = Ok cod31 /\
    let l := default default_limits limits in
    let n := index df in
    let BODut := abs ((bod_upper l - nanmin bod31) / (nanmax bod1 - nanmin bod31)) in
    let BODlt := abs ((bod_lower l - nanmin bod31) / (nanmax bod1 - nanmin bod31)) in
    let CODut := abs ((cod_upper l - nanmin cod31) / (nanmax cod1 - nanmin cod31)) in
    let CODlt := abs ((cod_lower l - nanmin cod31) / (nanmax cod1 - nanmin cod31)) in
    let lin_bod x := abs ((x - nanmin bod31) / (nanmax bod1 - nanmin bod31)) in
    let lin_cod x := abs ((x - nanmin cod31) / (nanmax cod1 - nanmin cod31)) in
    float_col out "BODut" = Ok (replicate n BODut) /\
    float_col out "BODlt" = Ok (replicate n BODlt) /\
    float_col out "CODut" = Ok (replicate n CODut) /\
    float_col out "CODlt" = Ok (replicate n CODlt) /\
    float_col out "LIN_BODe" = Ok (map lin_bod bod31) /\
    float_col out "LIN_BODi" = Ok (map lin_bod bod1) /\
    float_col out "LIN_CODe" = Ok (map lin_cod cod31) /\
    float_col out "LIN_CODi" = Ok (map lin_cod cod1) /\
    float_col out "BODut-BODeffl" = Ok (sub_cols (replicate n BODut) (map lin_bod bod31)) /\
    float_col out "CODut-CODeffl" = Ok (sub_cols (replicate n CODut) (map lin_cod cod31)) /\
    float_col out "BODlt-BODeffl" = Ok (sub_cols (replicate n BODlt) (map lin_bod bod31)) /\
    float_col out "CODlt-CODeffl" = Ok (sub_cols (replicate n CODlt) (map lin_cod cod31)) /\
    float_col out "bodp" = Ok (reduction (bod_pc l) (map lin_bod bod1) (map lin_bod bod31)) /\
    float_col out "codp" = Ok (reduction (cod_pc l) (map lin_cod cod1) (map lin_cod cod31)).
Proof.
  intros Hrun.
  apply process_dataframe_inv in Hrun
    as (d1 & d2 & d3 & d4 & d5 & d6 & d7 & _ & H1 & H2 & H3 & H4 & H5 & H6 & H7 & H8).
  pose proof (determine_failure_type_writes _ _ H8) as W8.
  pose proof (writes_only_trans _ _ _ _ _ (calculate_metric_values_writes _ _ H7) W8) as W7.
  pose proof (writes_only_trans _ _ _ _ _ (calculate_psi_values_writes _ _ H6) W7) as W6.
  pose proof (writes_only_trans _ _ _ _ _ (calculate_flag_conditions_writes _ _ H5) W6)
    as (_ & Hk & _).
  clear H5 H6 H7 H8 W6 W7 W8.
  unfold calculate_all_limits, calculate_bod_limits, calculate_cod_limits in H1. inv_res H1.
  unfold apply_linearisation, linearise_bod, linearise_cod in H2. inv_res H2.
  unfold calculate_deviation_columns in H3. inv_res H3.
  unfold calculate_reduction_columns in H4. inv_res H4.
  unfold setitem_scalar in *.
  subst d4; cols_simpl. subst d3; cols_simpl. subst d2; cols_simpl. subst; cols_simpl.
  cbn [index setitem] in *. cols_merge. subst. unfold map_float in *.
  do 4 eexists. do 4 (split; [eassumption|]). cbv zeta.
  repeat split;
    (unfold float_col, getitem; rewrite Hk by not_written; stored_lookup; reflexivity).
Qed.

(** X3: the limit and the linearised columns hold no negative value (each
    is an absolute value; it may be NaN or +inf). *)
Theorem linearised_values_not_negative df limits out :
  process_dataframe df limits = Ok out ->
  Forall (fun c => exists xs, float_col out c = Ok xs /\ Forall (fun x => (x <? 0) = false) xs)
    (limit_columns ++ linearised_columns).
Proof.
  intros (bod1 & bod31 & cod1 & cod31 & _ & _ & _ & _ & H)%processed_columns.
  cbv zeta in H. destruct_and!.
  repeat constructor; (eexists; split; [eassumption|]);
    first [ apply Forall_replicate | apply Forall_map, Forall_true; intros ? ];
    apply abs_not_negative.
Qed.

Lemma linearised_values_not_negative_witness :
  Forall (fun c => exists xs, float_col sample_out c = Ok xs /\
                     Forall (fun x => (x <? 0) = false) xs)
    (limit_columns ++ linearised_columns).
Proof. apply (linearised_values_not_negative sample_data None sample_out sample_run). Defined.

(** The cells of a row, column by column. *)
Lemma row_at_fields out i r :
  row_at out i = Some r ->
  float_at out "BODlt-BODeffl" i = Some (BODlt_BODeffl r) /\
  float_at out "BODut-BODeffl" i = Some (BODut_BODeffl r) /\
  float_at out "CODlt-CODeffl" i = Some (CODlt_CODeffl r) /\
  float_at out "CODut-CODeffl" i = Some (CODut_CODeffl r) /\
  float_at out "bodp" i = Some (bodp r) /\
  float_at out "codp" i = Some (codp r) /\
  float_at out "metric" i = Some (metric r) /\
  str_at out "fail_type" i = Some (fail_type r) /\
  str_at out "fail_source" i = Some (fail_source r).
Proof.
  intros Hr. unfold row_at in Hr.
  repeat (apply bind_Some in Hr as (? & ? & Hr)).
  injection Hr as <-. by repeat split.
Qed.

Lemma lookup_sub_replicate n a (f : float -> float) xs i v :
  sub_cols (replicate n a) (map f xs) !! i = Some v ->
  exists x, xs !! i = Some x /\ v = a - f x.
Proof.
  unfold sub_cols. rewrite lookup_zip_with_bind, lookup_replicate_dec, lookup_map.
  case_decide; [|done]. destruct (xs !! i) as [x|]; [|done].
  intros [= <-]. eauto.
Qed.

Lemma lookup_reduction pc (f : float -> float) xs ys i v :
  reduction pc (map f xs) (map f ys) !! i = Some v ->
  exists x y, xs !! i = Some x /\ ys !! i = Some y /\ v = - (pc * f x) + f x - f y.
Proof.
  unfold reduction. rewrite lookup_zip_with_bind, !lookup_map.
  destruct (xs !! i) as [x|]; [|done]. destruct (ys !! i) as [y|]; [|done].
  intros [= <-]. eauto.
Qed.

(** X4: a pollutant whose influent maximum equals its effluent minimum is
    never reported as failing: its three deviations are NaN on every row, so
    both of its failure predicates are false; when this holds for BOD and for
    COD, every row is Compliant with a NaN metric. *)
Theorem zero_range_never_fails df limits out i r :
  process_dataframe df limits = Ok out -> row_at out i = Some r ->
  (forall bod1 bod31,
      float_col df "bod1" = Ok bod1 -> float_col df "bod31" = Ok bod31 ->
      (nanmax bod1 =? nanmin bod31) = true ->
      BODlt_BODeffl r = nan /\ BODut_BODeffl r = nan /\ bodp r = nan /\
      bod_lut_exc r = false /\ bod_max_lim r = false) /\
  (forall cod1 cod31,
      float_col df "cod1" = Ok cod1 -> float_col df "cod31" = Ok cod31 ->
      (nanmax cod1 =? nanmin cod31) = true ->
      CODlt_CODeffl r = nan /\ CODut_CODeffl r = nan /\ codp r = nan /\
      cod_lut_exc r = false /\ cod_max_lim r = false) /\
  (forall bod1 bod31 cod1 cod31,
      float_col df "bod1" = Ok bod1 -> float_col df "bod31" = Ok bod31 ->
      float_col df "cod1" = Ok cod1 -> float_col df "cod31" = Ok cod31 ->
      (nanmax bod1 =? nanmin bod31) = true -> (nanmax cod1 =? nanmin cod31) = true ->
      fail_type r = Compliant /\ fail_source r = "None" /\ metric r = nan).
Proof.
  intros Hrun Hrow.
  pose proof (process_dataframe_row_ok _ _ _ _ _ Hrun Hrow) as Hok.
  destruct (row_at_fields _ _ _ Hrow) as (Rbl & Rbu & Rcl & Rcu & Rbp & Rcp & _).
  destruct (processed_columns _ _ _ Hrun)
    as (b1 & b31 & c1 & c31 & Eb1 & Eb31 & Ec1 & Ec31 & H).
  cbv zeta in H.
  destruct H as (_ & _ & _ & _ & _ & _ & _ & _ & Cbu & Ccu & Cbl & Ccl & Cbp & Ccp).
  rewrite (float_at_col _ _ _ _ Cbu) in Rbu. rewrite (float_at_col _ _ _ _ Cbl) in Rbl.
  rewrite (float_at_col _ _ _ _ Ccu) in Rcu. rewrite (float_at_col _ _ _ _ Ccl) in Rcl.
  rewrite (float_at_col _ _ _ _ Cbp) in Rbp. rewrite (float_at_col _ _ _ _ Ccp) in Rcp.
  apply lookup_sub_replicate in Rbu as (? & _ & Rbu), Rbl as (? & _ & Rbl),
    Rcu as (? & _ & Rcu), Rcl as (? & _ & Rcl).
  apply lookup_reduction in Rbp as (? & ? & _ & _ & Rbp), Rcp as (? & ? & _ & _ & Rcp).
  assert (forall bod1 bod31,
      float_col df "bod1" = Ok bod1 -> float_col df "bod31" = Ok bod31 ->
      (nanmax bod1 =? nanmin bod31) = true ->
      BODlt_BODeffl r = nan /\ BODut_BODeffl r = nan /\ bodp r = nan) as Hbod.
  { intros bod1 bod31 E1 E31 Hz. rewrite Eb1 in E1. rewrite Eb31 in E31.
    apply Ok_inj in E1 as ->, E31 as ->.
    rewrite Rbl, Rbu, Rbp.
    auto using sub_inf_or_nan, reduction_inf_or_nan, zero_range_abs_div. }
  assert (forall cod1 cod31,
      float_col df "cod1" = Ok cod1 -> float_col df "cod31" = Ok cod31 ->
      (nanmax cod1 =? nanmin cod31) = true ->
      CODlt_CODeffl r = nan /\ CODut_CODeffl r = nan /\ codp r = nan) as Hcod.
  { intros cod1 cod31 E1 E31 Hz. rewrite Ec1 in E1. rewrite Ec31 in E31.
    apply Ok_inj in E1 as ->, E31 as ->.
    rewrite Rcl, Rcu, Rcp.
    auto using sub_inf_or_nan, reduction_inf_or_nan, zero_range_abs_div. }
  assert (BODlt_BODeffl r = nan -> BODut_BODeffl r = nan -> bodp r = nan ->
          bod_psi_1 r = nan /\ bod_lut_exc r = false /\ bod_max_lim r = false) as Pbod.
  { intros E1 E2 E3.
    rewrite (ok_bod_lut_exc r Hok), (ok_bod_max_lim r Hok), (ok_bod_psi_1 r Hok),
      (ok_bod_psi_2 r Hok), (ok_bod_psi_3 r Hok), E1, E2, E3. done. }
  assert (CODlt_CODeffl r = nan -> CODut_CODeffl r = nan -> codp r = nan ->
          cod_psi_1 r = nan /\ cod_lut_exc r = false /\ cod_max_lim r = false) as Pcod.
  { intros E1 E2 E3.
    rewrite (ok_cod_lut_exc r Hok), (ok_cod_max_lim r Hok), (ok_cod_psi_1 r Hok),
      (ok_cod_psi_2 r Hok), (ok_cod_psi_3 r Hok), E1, E2, E3. done. }
  split; [|split].
  - intros bod1 bod31 E1 E31 Hz. destruct (Hbod _ _ E1 E31 Hz) as (? & ? & ?).
    destruct Pbod as (_ & ? & ?); auto 10.
  - intros cod1 cod31 E1 E31 Hz. destruct (Hcod _ _ E1 E31 Hz) as (? & ? & ?).
    destruct Pcod as (_ & ? & ?); auto 10.
  - intros bod1 bod31 cod1 cod31 E1 E31 F1 F31 Hbz Hcz.
    destruct (Hbod _ _ E1 E31 Hbz) as (? & ? & ?). destruct (Hcod _ _ F1 F31 Hcz) as (? & ? & ?).
    destruct Pbod as (Eb & Lb & Mb); [done..|]. destruct Pcod as (Ec & Lc & Mc); [done..|].
    rewrite (ok_fail_type r Hok), (ok_fail_source r Hok), (ok_metric r Hok).
    cbv zeta. by rewrite Lb, Mb, Lc, Mc, Eb, Ec.
Qed.

Lemma zero_range_never_fails_witness :
  exists r,
    row_at degenerate_out 1 = Some r /\
    BODlt_BODeffl r = nan /\ BODut_BODeffl r = nan /\ bodp r = nan /\
    bod_lut_exc r = false /\ bod_max_lim r = false.
Proof.
  eexists. split; [by vm_compute|].
  eapply (zero_range_never_fails degenerate None degenerate_out 1 _ degenerate_run);
    by vm_compute.
Defined.

(** ** Signs and the classification *)

Section ProcessedRowSigns.

Variables (df : DataFrame) (limits : option ComplianceLimits) (out : DataFrame).
Hypothesis Hrun : process_dataframe df limits = Ok out.
Variables (i : nat) (r : Row).
Hypothesis Hrow : row_at out i = Some r.

(** X5: on a row where a LUT predicate holds the selected metric is
    negative (whichever of the two minima is selected), and the row is not
    Compliant. *)
Theorem metric_negative_on_lut :
  bod_lut_exc r || cod_lut_exc r = true ->
  (metric r <? 0) = true /\
  (fail_type r = LUT_exceedance \/ fail_type r = Max_Limit_Failure).
Proof.
  intros Hlut.
  pose proof (process_dataframe_row_ok _ _ _ _ _ Hrun Hrow) as Hok.
  split.
  2:{ rewrite (ok_fail_type r Hok).
      destruct (bod_lut_exc r), (bod_max_lim r), (cod_lut_exc r), (cod_max_lim r);
        simpl in *; auto; discriminate. }
  assert (bod_lut_exc r = true -> (bod_psi_2 r <? 0) = true) as Hb2
    by (rewrite (ok_bod_lut_exc r Hok); by intros (((? & _)%andb_prop & _)%andb_prop & _)%andb_prop).
  assert (cod_lut_exc r = true -> (cod_psi_2 r <? 0) = true) as Hc2
    by (rewrite (ok_cod_lut_exc r Hok); by intros (((? & _)%andb_prop & _)%andb_prop & _)%andb_prop).
  assert (bod_max_lim r = true -> (bod_psi_3 r <? 0) = true) as Hb3
    by (rewrite (ok_bod_max_lim r Hok); by intros (((? & _)%andb_prop & _)%andb_prop & _)%andb_prop).
  assert (cod_max_lim r = true -> (cod_psi_3 r <? 0) = true) as Hc3
    by (rewrite (ok_cod_max_lim r Hok); by intros (((? & _)%andb_prop & _)%andb_prop & _)%andb_prop).
  rewrite (ok_metric r Hok). cbv zeta. rewrite Hlut.
  destruct (bod_max_lim r || cod_max_lim r) eqn:Hmax; simpl.
  - apply orb_prop in Hmax as [H|H].
    + apply (nanmin_negative _ (bod_psi_3 r)); [set_solver | auto].
    + apply (nanmin_negative _ (cod_psi_3 r)); [set_solver | auto].
  - apply orb_prop in Hlut as [H|H].
    + apply (nanmin_negative _ (bod_psi_2 r)); [set_solver | auto].
    + apply (nanmin_negative _ (cod_psi_2 r)); [set_solver | auto].
Qed.

(** X6: on a row whose lower deviation and reduction are not NaN, the
    failure predicates of a pollutant are decided by the signs of its three
    deviations alone: the pollutant fails exactly when the lower deviation
    and the reduction are both negative, as a LUT exceedance when the upper
    deviation is >= 0 and as a max-limit failure otherwise (also when the
    upper deviation is NaN).  The tests psi_2 < 0 and psi_3 < 0 add
    nothing.  So the row is Compliant exactly when, for neither pollutant,
    the lower deviation and the reduction are both negative. *)
Theorem predicates_by_deviation_signs :
  (is_nan (BODlt_BODeffl r) = false -> is_nan (bodp r) = false ->
   bod_lut_exc r =
     (BODlt_BODeffl r <? 0) && (bodp r <? 0) && (0 <=? BODut_BODeffl r) /\
   bod_max_lim r =
     (BODlt_BODeffl r <? 0) && (bodp r <? 0) && negb (0 <=? BODut_BODeffl r)) /\
  (is_nan (CODlt_CODeffl r) = false -> is_nan (codp r) = false ->
   cod_lut_exc r =
     (CODlt_CODeffl r <? 0) && (codp r <? 0) && (0 <=? CODut_CODeffl r) /\
   cod_max_lim r =
     (CODlt_CODeffl r <? 0) && (codp r <? 0) && negb (0 <=? CODut_CODeffl r)) /\
  (is_nan (BODlt_BODeffl r) = false -> is_nan (bodp r) = false ->
   is_nan (CODlt_CODeffl r) = false -> is_nan (codp r) = false ->
   (fail_type r = Compliant <->
      (BODlt_BODeffl r <? 0) && (bodp r <? 0) = false /\
      (CODlt_CODeffl r <? 0) && (codp r <? 0) = false)).
Proof.
  pose proof (process_dataframe_row_ok _ _ _ _ _ Hrun Hrow) as Hok.
  assert (forall lt p ut, is_nan lt = false -> is_nan p = false ->
    ((nanmin [lt; p; ut] <? 0) && Bool.eqb (0 <=? lt) false
       && Bool.eqb (0 <=? p) false && Bool.eqb (0 <=? ut) true =
     (lt <? 0) && (p <? 0) && (0 <=? ut)) /\
    ((nanmin [ut; p] <? 0) && Bool.eqb (0 <=? lt) false
       && Bool.eqb (0 <=? ut) false && Bool.eqb (0 <=? p) false =
     (lt <? 0) && (p <? 0) && negb (0 <=? ut))) as Hsigns.
  { intros lt p ut Hlt Hp.
    rewrite (geb_zero_negb_ltb lt Hlt), (geb_zero_negb_ltb p Hp).
    destruct (lt <? 0) eqn:Elt; [|by rewrite !andb_false_r].
    destruct (p <? 0) eqn:Ep; [|by rewrite !andb_false_r].
    rewrite (nanmin_negative [lt; p; ut] lt) by (done || set_solver).
    rewrite (nanmin_negative [ut; p] p) by (done || set_solver).
    by destruct (0 <=? ut). }
  assert (is_nan (BODlt_BODeffl r) = false -> is_nan (bodp r) = false ->
   bod_lut_exc r =
     (BODlt_BODeffl r <? 0) && (bodp r <? 0) && (0 <=? BODut_BODeffl r) /\
   bod_max_lim r =
     (BODlt_BODeffl r <? 0) && (bodp r <? 0) && negb (0 <=? BODut_BODeffl r)) as Hbod.
  { intros H1 H2.
    rewrite (ok_bod_lut_exc r Hok), (ok_bod_max_lim r Hok), (ok_bod_psi_2 r Hok),
      (ok_bod_psi_3 r Hok), (ok_flag_BODlt r Hok), (ok_flag_BODut r Hok),
      (ok_flag_reduction_bod r Hok).
    by apply Hsigns. }
  assert (is_nan (CODlt_CODeffl r) = false -> is_nan (codp r) = false ->
   cod_lut_exc r =
     (CODlt_CODeffl r <? 0) && (codp r <? 0) && (0 <=? CODut_CODeffl r) /\
   cod_max_lim r =
     (CODlt_CODeffl r <? 0) && (codp r <? 0) && negb (0 <=? CODut_CODeffl r)) as Hcod.
  { intros H1 H2.
    rewrite (ok_cod_lut_exc r Hok), (ok_cod_max_lim r Hok), (ok_cod_psi_2 r Hok),
      (ok_cod_psi_3 r Hok), (ok_flag_CODlt r Hok), (ok_flag_CODut r Hok),
      (ok_flag_reduction_cod r Hok).
    by apply Hsigns. }
  split; [done|]. split; [done|].
  intros B1 B2 C1 C2.
  destruct (Hbod B1 B2) as [Eb1 Eb2]. destruct (Hcod C1 C2) as [Ec1 Ec2].
  rewrite (ok_fail_type r Hok), Eb1, Eb2, Ec1, Ec2.
  destruct ((BODlt_BODeffl r <? 0) && (bodp r <? 0)),
    ((CODlt_CODeffl r <? 0) && (codp r <? 0)),
    (0 <=? BODut_BODeffl r), (0 <=? CODut_CODeffl r); simpl;
    split; (done || by intros [? ?]).
Qed.

(** X7: the source names the pollutant that decided the type, BOD before
    COD: the source is BOD exactly when a BOD predicate holds, and COD
    exactly when no BOD predicate but a COD predicate holds; the type is then
    the one of that pollutant's predicate. *)
Theorem fail_source_attribution :
  (fail_source r = "BOD" <-> bod_lut_exc r || bod_max_lim r = true) /\
  (fail_source r = "COD" <->
     bod_lut_exc r || bod_max_lim r = false /\ cod_lut_exc r || cod_max_lim r = true) /\
  (fail_source r = "BOD" ->
     fail_type r = if bod_lut_exc r then LUT_exceedance else Max_Limit_Failure) /\
  (fail_source r = "COD" ->
     fail_type r = if cod_lut_exc r then LUT_exceedance else Max_Limit_Failure).
Proof.
  pose proof (process_dataframe_row_ok _ _ _ _ _ Hrun Hrow) as Hok.
  rewrite (ok_fail_type r Hok), (ok_fail_source r Hok).
  destruct (bod_lut_exc r), (bod_max_lim r), (cod_lut_exc r), (cod_max_lim r);
    simpl; repeat split; try done; by intros [? ?].
Qed.

(** X8: a row on which, for BOD and for COD, the lower deviation or the
    reduction is >= 0 is Compliant, whatever its other values. *)
Theorem compliant_when_lower_tests_pass :
  (0 <=? BODlt_BODeffl r) || (0 <=? bodp r) = true ->
  (0 <=? CODlt_CODeffl r) || (0 <=? codp r) = true ->
  bod_lut_exc r = false /\ bod_max_lim r = false /\
  cod_lut_exc r = false /\ cod_max_lim r = false /\
  fail_type r = Compliant /\ fail_source r = "None".
Proof.
  pose proof (process_dataframe_row_ok _ _ _ _ _ Hrun Hrow) as Hok.
  rewrite <- (ok_flag_BODlt r Hok), <- (ok_flag_reduction_bod r Hok),
    <- (ok_flag_CODlt r Hok), <- (ok_flag_reduction_cod r Hok).
  intros Hb Hc.
  rewrite (ok_fail_type r Hok), (ok_fail_source r Hok).
  rewrite (ok_bod_lut_exc r Hok), (ok_bod_max_lim r Hok),
    (ok_cod_lut_exc r Hok), (ok_cod_max_lim r Hok).
  destruct (flag_BODlt r), (flag_reduction_bod r), (flag_CODlt r), (flag_reduction_cod r);
    try done; simpl; by rewrite ?andb_false_r.
Qed.

End ProcessedRowSigns.

Lemma metric_negative_on_lut_witness :
  exists r,
    row_at mixed_out 1 = Some r /\ (metric r <? 0) = true /\
    (fail_type r = LUT_exceedance \/ fail_type r = Max_Limit_Failure).
Proof.
  eexists. split; [by vm_compute|].
  eapply (metric_negative_on_lut mixed None mixed_out mixed_run 1); by vm_compute.
Defined.

Lemma predicates_by_deviation_signs_witness :
  exists r,
    row_at mixed_out 1 = Some r /\
    bod_lut_exc r =
      (BODlt_BODeffl r <? 0) && (bodp r <? 0) && (0 <=? BODut_BODeffl r) /\
    bod_max_lim r =
      (BODlt_BODeffl r <? 0) && (bodp r <? 0) && negb (0 <=? BODut_BODeffl r).
Proof.
  eexists. split; [by vm_compute|].
  eapply (predicates_by_deviation_signs mixed None mixed_out mixed_run 1); by vm_compute.
Defined.

Lemma fail_source_attribution_witness :
  exists r,
    row_at mixed_out 1 = Some r /\
    (fail_source r = "BOD" <-> bod_lut_exc r || bod_max_lim r = true).
Proof.
  eexists. split; [by vm_compute|].
  eapply (fail_source_attribution mixed None mixed_out mixed_run 1). by vm_compute.
Defined.

Lemma compliant_when_lower_tests_pass_witness :
  exists r,
    row_at sample_out 2 = Some r /\
    (BODlt_BODeffl r <? 0) = true /\
    fail_type r = Compliant /\ fail_source r = "None".
Proof.
  eexists. split; [by vm_compute|]. split; [by vm_compute|].
  eapply (compliant_when_lower_tests_pass sample_data None sample_out sample_run 2);
    by vm_compute.
Defined.

(** ** The standalone failure conditions *)

Lemma failure_conditions_of_stored d d' out :
  determine_failure_type d = Ok d' -> writes_only [] d' out ->
  exists fc,
    calculate_failure_conditions out = Ok fc /\
    bool_col out "bod_lut_exc" = Ok (fc_bod_lut_exc fc) /\
    bool_col out "bod_max_lim" = Ok (fc_bod_max_lim fc) /\
    bool_col out "cod_lut_exc" = Ok (fc_cod_lut_exc fc) /\
    bool_col out "cod_max_lim" = Ok (fc_cod_max_lim fc).
Proof.
  intros H Hlater. unfold determine_failure_type in H.
  out_reads H Hlater out Hn Hk.
  unfold calculate_failure_conditions. run_reads out.
  eexists. split; [reflexivity|].
  cbn [fc_bod_lut_exc fc_bod_max_lim fc_cod_lut_exc fc_cod_max_lim].
  repeat split;
    (unfold bool_col, getitem; rewrite Hk by not_written; stored_lookup; reflexivity).
Qed.

(** X9: [calculate_failure_conditions], run on a processed frame, returns
    the four predicate columns that [determine_failure_type] stored in it. *)
Theorem failure_conditions_match_stored df limits out :
  process_dataframe df limits = Ok out ->
  exists fc,
    calculate_failure_conditions out = Ok fc /\
    bool_col out "bod_lut_exc" = Ok (fc_bod_lut_exc fc) /\
    bool_col out "bod_max_lim" = Ok (fc_bod_max_lim fc) /\
    bool_col out "cod_lut_exc" = Ok (fc_cod_lut_exc fc) /\
    bool_col out "cod_max_lim" = Ok (fc_cod_max_lim fc).
Proof.
  intros (_ & _ & _ & _ & _ & _ & d7 & _ & _ & _ & _ & _ & _ & _ & _ & H8)%process_dataframe_inv.
  apply (failure_conditions_of_stored d7 out out H8 (writes_only_refl out)).
Qed.

Lemma failure_conditions_match_stored_witness :
  exists fc,
    calculate_failure_conditions mixed_out = Ok fc /\
    bool_col mixed_out "bod_lut_exc" = Ok (fc_bod_lut_exc fc) /\
    bool_col mixed_out "bod_max_lim" = Ok (fc_bod_max_lim fc) /\
    bool_col mixed_out "cod_lut_exc" = Ok (fc_cod_lut_exc fc) /\
    bool_col mixed_out "cod_max_lim" = Ok (fc_cod_max_lim fc).
Proof. apply (failure_conditions_match_stored mixed None mixed_out mixed_run). Defined.

(** ** Validation errors *)

(** X10: [validate_dataframe] returns True exactly when the frame is not
    empty (or empty frames are allowed) and holds every required column; it
    never returns False; an empty frame is refused as empty before its columns
    are looked at, and otherwise the error lists the missing columns in the
    order of the required ones. *)
Theorem validate_dataframe_spec df required_columns allow_empty :
  (validate_dataframe df required_columns allow_empty = Ok true <->
     (allow_empty = true \/ df_empty df = false) /\
     Forall (fun c => is_Some (columns df !! c)) (default REQUIRED_COLUMNS required_columns)) /\
  validate_dataframe df required_columns allow_empty <> Ok false /\
  (allow_empty = false /\ df_empty df = true ->
     validate_dataframe df required_columns allow_empty =
       Raise (DataValidationError "DataFrame is empty" [])) /\
  (forall e, validate_dataframe df required_columns allow_empty = Raise e ->
     e = DataValidationError "DataFrame is empty" [] \/
     e = DataValidationError "Missing required columns"
           (filter (fun c => columns df !! c = None)
              (default REQUIRED_COLUMNS required_columns))).
Proof.
  split; [|split; [|split]].
  - rewrite validate_dataframe_Ok. split; [by intros (_ & ? & ?) | by intros [? ?]].
  - by intros [? _]%validate_dataframe_Ok.
  - intros [-> He]. unfold validate_dataframe. by rewrite He.
  - intros e. unfold validate_dataframe. rewrite check_required_columns_no_raise.
    destruct (negb allow_empty && df_empty df); [intros [= <-]; by left|].
    cbn [mbind res_bind]. case_match; [|done]. intros [= <-]. by right.
Qed.

Lemma bind_Raise_inv {A B} (m : res A) (f : A -> res B) e :
  m ≫= f = Raise e -> m = Raise e \/ exists a, m = Ok a /\ f a = Raise e.
Proof. destruct m as [a|e']; intros H; [right; eauto | left; by injection H as ->]. Qed.

Lemma float_col_raises df c e : float_col df c = Raise e -> e = KeyError c \/ e = TypeError.
Proof.
  unfold float_col, getitem. destruct (columns df !! c) as [[]|]; simpl; intros [= <-]; auto.
Qed.

Lemma bool_col_raises df c e : bool_col df c = Raise e -> e = KeyError c \/ e = TypeError.
Proof.
  unfold bool_col, getitem. destruct (columns df !! c) as [[]|]; simpl; intros [= <-]; auto.
Qed.

(** The reads of the stages raise [KeyError] or [TypeError] only. *)
Ltac reads_raise H :=
  lazy beta zeta in H;
  rewrite ?min_axis1_2, ?min_axis1_3, ?max_axis1_2 in H;
  lazymatch type of H with
  | mbind _ _ = Raise _ =>
      apply bind_Raise_inv in H as [H | (? & _ & H)]; reads_raise H
  | float_col _ _ = Raise _ => apply float_col_raises in H as [-> | ->]; eauto
  | bool_col _ _ = Raise _ => apply bool_col_raises in H as [-> | ->]; eauto
  | Ok _ = Raise _ => discriminate H
  end.

Lemma stages_raise df limits e :
  (result ← calculate_all_limits df (Some limits);
   result ← apply_linearisation result;
   result ← calculate_deviation_columns result;
   result ← calculate_reduction_columns result (bod_pc limits) (cod_pc limits);
   result ← calculate_flag_conditions result;
   result ← calculate_psi_values result;
   result ← calculate_metric_values result;
   determine_failure_type result) = Raise e ->
  e = TypeError \/ exists c, e = KeyError c.
Proof.
  intros H.
  unfold calculate_all_limits, calculate_bod_limits, calculate_cod_limits,
    apply_linearisation, linearise_bod, linearise_cod, calculate_deviation_columns,
    calculate_reduction_columns, calculate_flag_conditions, calculate_psi_values,
    calculate_metric_values, determine_failure_type in H.
  reads_raise H.
Qed.

(** X11: [process_dataframe] raises [DataValidationError] exactly when the
    frame is empty, or is not empty and lacks one of the six required
    columns ('snh1' and 'snh31', which no stage reads, included); the error
    then lists the missing columns in the order of the required ones.  No
    later stage raises it. *)
Theorem process_dataframe_validation_error df limits msg cols :
  process_dataframe df limits = Raise (DataValidationError msg cols) <->
  (df_empty df = true /\ msg = "DataFrame is empty" /\ cols = []) \/
  (df_empty df = false /\ msg = "Missing required columns" /\
   cols = filter (fun c => columns df !! c = None) REQUIRED_COLUMNS /\ cols <> []).
Proof.
  unfold process_dataframe, validate_dataframe.
  rewrite check_required_columns_no_raise. cbn [from_option id negb andb].
  destruct (df_empty df) eqn:He.
  { cbn [mbind res_bind].
    split; [intros [= <- <-]; auto | by intros [(_ & -> & ->)|(? & _)]]. }
  cbn [mbind res_bind].
  destruct (filter (λ c, columns df !! c = None) REQUIRED_COLUMNS) as [|c0 missing] eqn:Hm.
  - rewrite bool_decide_eq_true_2 by done. cbn [negb mbind res_bind].
    split; [|by intros [(? & _)|(_ & _ & -> & ?)]].
    intros H%stages_raise. by destruct H as [|[? ?]].
  - rewrite bool_decide_eq_false_2 by discriminate. cbn [negb mbind res_bind].
    split; [intros [= <- <-]; auto | by intros [(? & _)|(_ & -> & -> & _)]].
Qed.

(** A frame with the four concentration columns and no 'snh1', 'snh31'. *)
Lemma process_dataframe_validation_error_example :
  process_dataframe
    (mkDataFrame 1 (<["bod1" := FloatCol [100]]> (<["bod31" := FloatCol [10]]>
                   (<["cod1" := FloatCol [400]]> (<["cod31" := FloatCol [50]]> ∅)))))
    None =
    Raise (DataValidationError "Missing required columns" ["snh1"; "snh31"]).
Proof. by vm_compute. Qed.

(** ** Numeric columns *)

Lemma validate_numeric_columns_filter df cols allow_na :
  validate_numeric_columns df cols allow_na =
    filter (fun c => (is_numeric_dtype <$> columns df !! c) = Some false) cols.
Proof.
  unfold validate_numeric_columns.
  set (f := fun invalid col => _).
  assert (forall acc, fold_left f cols acc =
            acc ++ filter (fun c => (is_numeric_dtype <$> columns df !! c) = Some false) cols)
    as H; [|by rewrite H].
  induction cols as [|c cols IH]; intros acc; simpl; [by rewrite app_nil_r|].
  rewrite IH. unfold f.
  destruct (columns df !! c) as [s|] eqn:Hc; simpl.
  - destruct (is_numeric_dtype s) eqn:Hs; simpl.
    + rewrite filter_cons_False by (rewrite Hc; simpl; congruence).
      by destruct (negb allow_na && isna_any s).
    + rewrite filter_cons_True by (rewrite Hc; simpl; congruence).
      by rewrite <- app_assoc.
  - by rewrite filter_cons_False by (rewrite Hc; simpl; congruence).
Qed.

(** X12: [validate_numeric_columns] reports exactly the listed columns that
    the frame holds as strings, in the order listed; a column the frame does
    not have is never reported, and [allow_na] changes nothing. *)
Theorem validate_numeric_columns_spec df cols allow_na :
  (forall c, c ∈ validate_numeric_columns df cols allow_na <->
     c ∈ cols /\ exists ss, columns df !! c = Some (StrCol ss)) /\
  validate_numeric_columns df cols allow_na `sublist_of` cols /\
  validate_numeric_columns df cols allow_na = validate_numeric_columns df cols (negb allow_na).
Proof.
  rewrite !validate_numeric_columns_filter. split; [|split; [apply sublist_filter|done]].
  intros c. rewrite list_elem_of_filter. split.
  - intros [H ?]. split; [done|].
    destruct (columns df !! c) as [[]|]; simpl in H; try done. eauto.
  - intros [? [ss ->]]. done.
Qed.

(** ** Runs of non-compliant samples *)

Lemma runs_ge_1 flags cur :
  (forall n, cur = Some n -> (1 <= n)%Z) -> Forall (fun n => (1 <= n)%Z) (runs flags cur).
Proof.
  revert cur. induction flags as [|[] flags IH]; intros cur Hcur; cbn [runs].
  - destruct cur as [n|]; repeat constructor. auto.
  - apply IH. intros n [= <-]. destruct cur as [m|]; simpl; [specialize (Hcur m eq_refl)|]; lia.
  - destruct cur as [n|]; [constructor; [auto|]|]; by apply IH.
Qed.

Lemma runs_cut flags1 flags2 cur :
  runs (flags1 ++ false :: flags2) cur = runs flags1 cur ++ runs flags2 None.
Proof.
  revert cur. induction flags1 as [|[] flags1 IH]; intros cur; cbn [runs app].
  - by destruct cur.
  - apply IH.
  - destruct cur; by rewrite IH.
Qed.

Lemma runs_length flags cur :
  (length (runs flags cur) <=
     length (filter (fun b => b = true) flags) + match cur with Some _ => 1 | None => 0 end)%nat /\
  (2 * length (runs flags cur) <= length flags + match cur with Some _ => 2 | None => 1 end)%nat.
Proof.
  revert cur. induction flags as [|[] flags IH]; intros cur; cbn [runs].
  - destruct cur; simpl; lia.
  - rewrite filter_cons_True by done. specialize (IH (Some (default 0 cur + 1)%Z)).
    simpl in *. destruct cur; lia.
  - rewrite filter_cons_False by done. specialize (IH None).
    destruct cur; simpl in *; lia.
Qed.

(** X13: [compute_recovery_time] returns one value per maximal run of
    non-compliant samples, in order, a run still open at the end included:
    the length of the run (at least 1) times the time step, rounded to two
    decimals. *)
Theorem recovery_times_of_runs series time_step failure_types :
  compute_recovery_time series time_step failure_types =
    (fun n => py_round2 (Z_to_float n * default TIME_STEP time_step)) <$>
      runs ((fun v => bool_decide (v ∈ failure_types)) <$> series) None /\
  Forall (fun n => (1 <= n)%Z)
    (runs ((fun v => bool_decide (v ∈ failure_types)) <$> series) None).
Proof.
  split; [apply compute_recovery_time_runs|]. by apply runs_ge_1.
Qed.

(** X14: a compliant sample separates the series: the recovery times of
    [s1 ++ v :: s2] with [v] compliant are those of [s1] followed by those of
    [s2]. *)
Theorem recovery_times_cut s1 v s2 time_step failure_types :
  v ∉ failure_types ->
  compute_recovery_time (s1 ++ v :: s2) time_step failure_types =
    compute_recovery_time s1 time_step failure_types
      ++ compute_recovery_time s2 time_step failure_types.
Proof.
  intros Hv. rewrite !compute_recovery_time_runs, <- fmap_app. f_equal.
  rewrite fmap_app, fmap_cons, bool_decide_eq_false_2 by done. apply runs_cut.
Qed.

Lemma recovery_times_cut_witness :
  compute_recovery_time
    ([LUT_exceedance; LUT_exceedance] ++ Compliant :: [Max_Limit_Failure])
    (Some 1) default_failure_types =
  compute_recovery_time [LUT_exceedance; LUT_exceedance] (Some 1) default_failure_types
    ++ compute_recovery_time [Max_Limit_Failure] (Some 1) default_failure_types.
Proof.
  apply (recovery_times_cut [LUT_exceedance; LUT_exceedance] Compliant [Max_Limit_Failure]).
  apply (bool_decide_unpack _). by vm_compute.
Defined.

(** X15: there are never more recovery times than non-compliant samples,
    and never more than half the samples rounded up. *)
Theorem recovery_times_count series time_step failure_types :
  (length (compute_recovery_time series time_step failure_types) <=
     length (filter (fun v => v ∈ failure_types) series))%nat /\
  (2 * length (compute_recovery_time series time_step failure_types) <=
     length series + 1)%nat.
Proof.
  rewrite compute_recovery_time_runs, length_fmap.
  destruct (runs_length ((fun v => bool_decide (v ∈ failure_types)) <$> series) None)
    as [H1 H2].
  rewrite length_fmap in H2. split; [|lia].
  assert (length (filter (fun b => b = true)
            ((fun v => bool_decide (v ∈ failure_types)) <$> series)) =
          length (filter (fun v => v ∈ failure_types) series)) as <-; [|lia].
  clear. induction series as [|v series IH]; [done|]. rewrite fmap_cons.
  destruct (decide (v ∈ failure_types)).
  - rewrite !filter_cons_True by (done || by apply bool_decide_eq_true_2). simpl. lia.
  - rewrite !filter_cons_False by (done || by rewrite bool_decide_eq_false_2). done.
Qed.

(** ** The non-stationarity score and NaN *)

Lemma dropna_idemp xs : dropna (dropna xs) = dropna xs.
Proof.
  unfold dropna. induction xs as [|x xs IH]; [done|].
  destruct (is_nan x) eqn:Hx.
  - by rewrite filter_cons_False by (by rewrite Hx).
  - rewrite filter_cons_True by done. rewrite filter_cons_True by done. by rewrite IH.
Qed.

(** X16: [non_stationarity_score] raises exactly when the window is
    negative (the length tests do not shield the rolling window from it);
    with a window >= 0 it returns a number for every series. *)
Theorem non_stationarity_score_raises series window :
  ((window < 0)%Z ->
   non_stationarity_score series window =
     Raise (ValueError "window must be an integer 0 or greater")) /\
  ((0 <= window)%Z -> exists x, non_stationarity_score series window = Ok x).
Proof.
  unfold non_stationarity_score, rolling_var. split; intros Hw.
  - rewrite !(proj2 (Z.ltb_ge _ _)) by lia. by rewrite (proj2 (Z.ltb_lt _ _) Hw).
  - destruct (_ <? window)%Z; [eauto|]. destruct (_ <? window)%Z; [eauto|].
    rewrite (proj2 (Z.ltb_ge _ _) Hw). simpl. destruct (_ =? 0); eauto.
Qed.

(** X17: NaN values are ignored: the score of a series is the score of
    its values that are not NaN, and it is NaN when fewer than [window] of
    them are left. *)
Theorem non_stationarity_score_dropna series window :
  non_stationarity_score series window = non_stationarity_score (dropna series) window /\
  ((Z.of_nat (length (dropna series)) < window)%Z ->
   non_stationarity_score series window = Ok nan).
Proof.
  assert (length (dropna series) <= length series)%nat as Hle by apply length_filter.
  unfold non_stationarity_score. rewrite dropna_idemp. split.
  - destruct (Z.of_nat (length (dropna series)) <? window)%Z eqn:Hc.
    + by destruct (Z.of_nat (length series) <? window)%Z.
    + apply Z.ltb_ge in Hc. by rewrite (proj2 (Z.ltb_ge _ _)) by lia.
  - intros Hc%Z.ltb_lt. rewrite Hc. by destruct (Z.of_nat (length series) <? window)%Z.
Qed.

(** ** Well-formed frames *)

Lemma wf_frame_setitem d c s :
  wf_frame d -> col_length s = index d -> wf_frame (setitem d c s).
Proof.
  intros Hwf Hs c' s'. unfold setitem. cbn [columns index].
  destruct (decide (c = c')) as [->|Hne].
  - rewrite lookup_insert_eq. by intros [= <-].
  - rewrite lookup_insert_ne by done. apply Hwf.
Qed.

Lemma wf_float_col d c xs : wf_frame d -> float_col d c = Ok xs -> length xs = index d.
Proof. intros Hwf H%float_col_Ok. apply (Hwf _ _ H). Qed.

Lemma wf_bool_col d c bs : wf_frame d -> bool_col d c = Ok bs -> length bs = index d.
Proof. intros Hwf H%bool_col_Ok. apply (Hwf _ _ H). Qed.

(** A stage that ran on a well-formed frame wrote columns of the right
    length. *)
Ltac stage_wf H Hwf :=
  inv_res H; subst; unfold setitem_scalar in *; cbn [index setitem] in *;
  cols_simpl; cols_merge; subst;
  repeat match goal with
  | E : float_col ?d ?c = Ok ?x |- _ =>
      let Hl := fresh "Hlen" in
      pose proof (wf_float_col d c x Hwf E) as Hl; clear E
  | E : bool_col ?d ?c = Ok ?x |- _ =>
      let Hl := fresh "Hlen" in
      pose proof (wf_bool_col d c x Hwf E) as Hl; clear E
  end;
  repeat (apply wf_frame_setitem; [|cbn [col_length index setitem]; col_len]);
  exact Hwf.

Lemma calculate_all_limits_wf d limits d' :
  wf_frame d -> calculate_all_limits d limits = Ok d' -> wf_frame d'.
Proof.
  intros Hwf H. unfold calculate_all_limits, calculate_bod_limits, calculate_cod_limits in H.
  stage_wf H Hwf.
Qed.

Lemma apply_linearisation_wf d d' :
  wf_frame d -> apply_linearisation d = Ok d' -> wf_frame d'.
Proof.
  intros Hwf H. unfold apply_linearisation, linearise_bod, linearise_cod in H.
  stage_wf H Hwf.
Qed.

Lemma calculate_deviation_columns_wf d d' :
  wf_frame d -> calculate_deviation_columns d = Ok d' -> wf_frame d'.
Proof. intros Hwf H. unfold calculate_deviation_columns in H. stage_wf H Hwf. Qed.

Lemma calculate_reduction_columns_wf d bod_pc cod_pc d' :
  wf_frame d -> calculate_reduction_columns d bod_pc cod_pc = Ok d' -> wf_frame d'.
Proof. intros Hwf H. unfold calculate_reduction_columns in H. stage_wf H Hwf. Qed.

Lemma calculate_flag_conditions_wf d d' :
  wf_frame d -> calculate_flag_conditions d = Ok d' -> wf_frame d'.
Proof. intros Hwf H. unfold calculate_flag_conditions in H. stage_wf H Hwf. Qed.

Lemma calculate_psi_values_wf d d' :
  wf_frame d -> calculate_psi_values d = Ok d' -> wf_frame d'.
Proof. intros Hwf H. unfold calculate_psi_values in H. stage_wf H Hwf. Qed.

Lemma calculate_metric_values_wf d d' :
  wf_frame d -> calculate_metric_values d = Ok d' -> wf_frame d'.
Proof. intros Hwf H. unfold calculate_metric_values in H. stage_wf H Hwf. Qed.

Lemma determine_failure_type_wf d d' :
  wf_frame d -> determine_failure_type d = Ok d' -> wf_frame d'.
Proof. intros Hwf H. unfold determine_failure_type in H. stage_wf H Hwf. Qed.

(** X18: processing keeps a frame well formed: in the result every
    column, computed or not, has one entry per row of the input. *)
Theorem process_dataframe_well_formed df limits out :
  wf_frame df -> process_dataframe df limits = Ok out ->
  wf_frame out /\ index out = index df.
Proof.
  intros Hwf Hrun. split; [|by apply process_dataframe_columns in Hrun as [? _]].
  apply process_dataframe_inv in Hrun
    as (d1 & d2 & d3 & d4 & d5 & d6 & d7 & _ & H1 & H2 & H3 & H4 & H5 & H6 & H7 & H8).
  apply (determine_failure_type_wf d7); [|done].
  apply (calculate_metric_values_wf d6); [|done].
  apply (calculate_psi_values_wf d5); [|done].
  apply (calculate_flag_conditions_wf d4); [|done].
  eapply (calculate_reduction_columns_wf d3); [|done].
  apply (calculate_deviation_columns_wf d2); [|done].
  apply (apply_linearisation_wf d1); [|done].
  by eapply (calculate_all_limits_wf df).
Qed.

Lemma sample_data_wf : wf_frame sample_data.
Proof.
  change (map_Forall (fun _ s => col_length s = index sample_data) (columns sample_data)).
  apply (bool_decide_unpack _). by vm_compute.
Qed.

Lemma mixed_wf : wf_frame mixed.
Proof.
  change (map_Forall (fun _ s => col_length s = index mixed) (columns mixed)).
  apply (bool_decide_unpack _). by vm_compute.
Qed.

Lemma process_dataframe_well_formed_witness :
  exists s, columns sample_out !! "c_BOD_3" = Some s /\ col_length s = index sample_out.
Proof.
  eexists. split; [by vm_compute|].
  apply (proj1 (process_dataframe_well_formed sample_data None sample_out
                  sample_data_wf sample_run) "c_BOD_3").
  by vm_compute.
Defined.

(** ** The retry decorator *)

Section RetryProperties.

Context {World A : Type}.
Variable func : World -> res A * World.
Variable name : string.
Variable sleep : float -> World -> res unit * World.

Lemma world_after_cons (w : World) (e : exn) (w1 w2 : World) calls :
  world_after w ((e, w1, w2) :: calls) = world_after w2 calls.
Proof.
  unfold world_after. rewrite fmap_cons. cbn [snd].
  destruct (snd <$> calls) as [|w3 ws] eqn:E; [done|].
  rewrite last_cons_cons. destruct (last (w3 :: ws)) eqn:El; [done|].
  by apply last_None in El.
Qed.

(** After the failed calls [calls], the wrapper goes on as from the world
    they left, with the attempts that remain. *)
Lemma retry_attempts_failed max_attempts delay calls first len w :
  failed_attempts func sleep delay w calls ->
  (Z.of_nat first + Z.of_nat (length calls) < max_attempts)%Z ->
  (length calls <= len)%nat ->
  retry_attempts func name sleep max_attempts delay (Z.of_nat <$> seq first len) w =
    let '(r, w', out) :=
      retry_attempts func name sleep max_attempts delay
        (Z.of_nat <$> seq (first + length calls) (len - length calls))
        (world_after w calls) in
    (r, w', retry_messages name max_attempts (Z.of_nat first) calls ++ out).
Proof.
  revert first len w. induction calls as [|[[e w1] w2] calls IH]; intros first len w Hr Hm Hl.
  - cbn [length retry_messages app]. rewrite Nat.add_0_r, Nat.sub_0_r.
    unfold world_after. cbn [fmap list_fmap last default from_option id].
    by destruct (retry_attempts _ _ _ _ _ _ _) as [[r w'] out].
  - destruct Hr as (Hf & Hs & Hr). rewrite world_after_cons. cbn [length] in *.
    destruct len as [|len]; [lia|].
    cbn [seq fmap list_fmap retry_attempts]. rewrite Hf.
    rewrite (proj2 (Z.eqb_neq _ _)) by lia. rewrite Hs.
    rewrite (IH (S first) len w2 Hr) by lia.
    replace (S first + length calls)%nat with (first + S (length calls))%nat by lia.
    replace (S len - S (length calls))%nat with (len - length calls)%nat by lia.
    destruct (retry_attempts _ _ _ _ _ (_ <$> seq _ (len - length calls)) _) as [[r w'] out].
    cbn [retry_messages app]. by rewrite Nat2Z.inj_succ, <- Z.add_1_r.
Qed.

Lemma retry_after_failed max_attempts delay calls w :
  failed_attempts func sleep delay w calls ->
  (Z.of_nat (length calls) < max_attempts)%Z ->
  retry func name sleep max_attempts delay w =
    let '(r, w', out) :=
      retry_attempts func name sleep max_attempts delay
        (Z.of_nat <$> seq (length calls) (Z.to_nat max_attempts - length calls))
        (world_after w calls) in
    (r, w', retry_messages name max_attempts 0 calls ++ out).
Proof.
  intros Hr Hm. unfold retry, range.
  by rewrite (retry_attempts_failed max_attempts delay calls 0 _ w Hr) by lia.
Qed.

(** X19: with [max_attempts <= 0] the wrapper never calls the function:
    it returns None, leaves the world as it is, and prints nothing. *)
Theorem retry_without_attempts max_attempts delay w :
  (max_attempts <= 0)%Z ->
  retry func name sleep max_attempts delay w = (Ok None, w, []).
Proof.
  intros H. unfold retry, range. by replace (Z.to_nat max_attempts) with 0%nat by lia.
Qed.

(** X20: when the first calls raise and the next one, still within
    [max_attempts], returns, the wrapper returns that value; it has printed
    one message and slept once per failed call, and calls the function no
    further. *)
Theorem retry_returns_first_success max_attempts delay calls w a w' :
  failed_attempts func sleep delay w calls ->
  (Z.of_nat (length calls) < max_attempts)%Z ->
  func (world_after w calls) = (Ok a, w') ->
  retry func name sleep max_attempts delay w =
    (Ok (Some a), w', retry_messages name max_attempts 0 calls).
Proof.
  intros Hr Hm Hs. rewrite (retry_after_failed max_attempts delay calls w Hr Hm).
  destruct (Z.to_nat max_attempts - length calls)%nat as [|n] eqn:En; [lia|].
  cbn [seq fmap list_fmap retry_attempts]. rewrite Hs. by rewrite app_nil_r.
Qed.

(** X21: when [max_attempts] calls in a row raise, the wrapper raises the
    exception of the last of them; it has printed and slept after each of the
    calls before it, and neither prints nor sleeps after the last. *)
Theorem retry_raises_last max_attempts delay calls w e w' :
  failed_attempts func sleep delay w calls ->
  (Z.of_nat (length calls) + 1 = max_attempts)%Z ->
  func (world_after w calls) = (Raise e, w') ->
  retry func name sleep max_attempts delay w =
    (Raise e, w', retry_messages name max_attempts 0 calls).
Proof.
  intros Hr Hm Hs. rewrite (retry_after_failed max_attempts delay calls w Hr) by lia.
  destruct (Z.to_nat max_attempts - length calls)%nat as [|n] eqn:En; [lia|].
  cbn [seq fmap list_fmap retry_attempts]. rewrite Hs.
  rewrite (proj2 (Z.eqb_eq _ _)) by lia. by rewrite app_nil_r.
Qed.

(** X22: when a call that is not the last attempt raises and the sleep
    that follows raises too (a negative delay), the wrapper raises the
    exception of the sleep, not the one of the function, and makes no further
    attempt. *)
Theorem retry_sleep_raises max_attempts delay calls w e w1 e' w2 :
  failed_attempts func sleep delay w calls ->
  (Z.of_nat (length calls) + 1 < max_attempts)%Z ->
  func (world_after w calls) = (Raise e, w1) ->
  sleep delay w1 = (Raise e', w2) ->
  retry func name sleep max_attempts delay w =
    (Raise e', w2,
     retry_messages name max_attempts 0 calls
       ++ [Failed name (Z.of_nat (length calls) + 1) max_attempts e]).
Proof.
  intros Hr Hm Hf Hs. rewrite (retry_after_failed max_attempts delay calls w Hr) by lia.
  destruct (Z.to_nat max_attempts - length calls)%nat as [|n] eqn:En; [lia|].
  cbn [seq fmap list_fmap retry_attempts]. rewrite Hf.
  rewrite (proj2 (Z.eqb_neq _ _)) by lia. by rewrite Hs.
Qed.

End RetryProperties.

(** *** The decorator at concrete functions: the world counts the calls,
    and the sleep refuses a negative delay. *)

Lemma retry_without_attempts_witness :
  retry (fun w : nat => (Ok w, S w)) "f"
        (fun secs w => (if 0 <=? secs then Ok () else Raise (ValueError "negative"), w))
        0 1 7%nat =
    (Ok None, 7%nat, []).
Proof. apply retry_without_attempts. lia. Defined.

Lemma retry_returns_first_success_witness :
  retry (fun w : nat => (if (w <? 2)%nat then Raise TypeError else Ok w, S w)) "f"
        (fun secs w => (if 0 <=? secs then Ok () else Raise (ValueError "negative"), w))
        3 1 0%nat =
    (Ok (Some 2%nat), 3%nat, [Failed "f" 1 3 TypeError; Failed "f" 2 3 TypeError]).
Proof.
  apply (retry_returns_first_success _ "f" _ 3 1
           [(TypeError, 1%nat, 1%nat); (TypeError, 2%nat, 2%nat)] 0%nat 2%nat 3%nat);
    [by repeat split | simpl; lia | reflexivity].
Defined.

Lemma retry_raises_last_witness :
  retry (fun w : nat => (Raise (KeyError "k") : res nat, S w)) "f"
        (fun secs w => (if 0 <=? secs then Ok () else Raise (ValueError "negative"), w))
        2 1 0%nat =
    (Raise (KeyError "k"), 2%nat, [Failed "f" 1 2 (KeyError "k")]).
Proof.
  apply (retry_raises_last _ "f" _ 2 1 [(KeyError "k", 1%nat, 1%nat)] 0%nat (KeyError "k") 2%nat);
    [by repeat split | simpl; lia | reflexivity].
Defined.

Lemma retry_sleep_raises_witness :
  retry (fun w : nat => (Raise (KeyError "k") : res nat, S w)) "f"
        (fun secs w => (if 0 <=? secs then Ok () else Raise (ValueError "negative"), w))
        3 (-1) 0%nat =
    (Raise (ValueError "negative"), 1%nat, [Failed "f" 1 3 (KeyError "k")]).
Proof.
  apply (retry_sleep_raises _ "f" _ 3 (-1) [] 0%nat (KeyError "k") 1%nat
           (ValueError "negative") 1%nat);
    [done | simpl; lia | reflexivity | reflexivity].
Defined.

(** ** Summary tables of processed frames *)

Lemma bool_sum_cons b bs : bool_sum (b :: bs) = ((if b then 1 else 0) + bool_sum bs)%Z.
Proof.
  unfold bool_sum. destruct b.
  - rewrite filter_cons_True by done. simpl length. lia.
  - rewrite filter_cons_False by done. lia.
Qed.

(** Three labels that exclude one another partition the rows. *)
Lemma bool_sum_partition (a b c : string) ts :
  a <> b -> a <> c -> b <> c ->
  Forall (fun t => t = a \/ t = b \/ t = c) ts ->
  (bool_sum (eq_str (StrCol ts) a) + bool_sum (eq_str (StrCol ts) b)
     + bool_sum (eq_str (StrCol ts) c) = Z.of_nat (length ts))%Z.
Proof.
  intros Hab Hac Hbc Hall. cbn [eq_str].
  induction Hall as [|t ts Ht _ IH]; [done|].
  cbn [map length]. rewrite !bool_sum_cons, Nat2Z.inj_succ.
  destruct Ht as [->|[->| ->]];
    repeat first [ rewrite bool_decide_eq_true_2 by done
                 | rewrite bool_decide_eq_false_2 by congruence ]; lia.
Qed.

Lemma bool_sum_related (a b : string) ts ss :
  length ts = length ss ->
  (forall i t s, ts !! i = Some t -> ss !! i = Some s -> (s = b <-> t = a)) ->
  bool_sum (eq_str (StrCol ss) b) = bool_sum (eq_str (StrCol ts) a).
Proof.
  cbn [eq_str]. revert ss. induction ts as [|t ts IH]; intros [|s ss] Hl H; try done.
  cbn [map]. rewrite !bool_sum_cons, (IH ss).
  - f_equal. specialize (H 0%nat t s eq_refl eq_refl).
    destruct (decide (t = a)) as [Ht|Ht].
    + rewrite !bool_decide_eq_true_2 by tauto. done.
    + rewrite !bool_decide_eq_false_2 by tauto. done.
  - simpl in Hl. lia.
  - intros i. apply (H (S i)).
Qed.

(** The two label columns of a processed frame. *)
Lemma processed_labels df limits out :
  wf_frame df -> process_dataframe df limits = Ok out ->
  df_empty out = false /\
  exists ts ss,
    columns out !! "fail_type" = Some (StrCol ts) /\
    columns out !! "fail_source" = Some (StrCol ss) /\
    length ts = index out /\ length ss = index out /\
    Forall (fun t => t = "Compliant" \/ t = "LUT exceedance" \/ t = "Max Limit Failure") ts /\
    Forall (fun s => s = "None" \/ s = "BOD" \/ s = "COD") ss /\
    (forall i t s, ts !! i = Some t -> ss !! i = Some s -> (s = "None" <-> t = "Compliant")).
Proof.
  intros Hwf Hrun. split.
  { pose proof (processed_frame_valid _ _ _ Hrun) as Hv.
    by apply validate_dataframe_Ok in Hv as (_ & [|] & _). }
  destruct (processed_columns _ _ _ Hrun) as (b1 & b31 & c1 & c31 & E1 & E2 & E3 & E4 & _).
  pose proof Hrun as Hinv.
  apply process_dataframe_inv in Hinv as (_ & _ & _ & _ & _ & _ & _ & Hv & _).
  destruct (process_dataframe_total df limits Hv) as (out' & Hrun' & Hn & Hf & Hb & Hs).
  { repeat constructor; eauto using wf_frame_has_float. }
  rewrite Hrun in Hrun'. apply Ok_inj in Hrun' as <-.
  pose proof Hs as Hs0.
  apply Forall_cons in Hs as [(ts & Hts & Lts) Hs].
  apply Forall_cons in Hs as [(ss & Hss & Lss) _].
  exists ts, ss. do 4 (split; [done|]).
  assert (forall i, (i < index out)%nat -> exists r,
            row_ok r /\ ts !! i = Some (fail_type r) /\ ss !! i = Some (fail_source r)) as Hrow.
  { intros i Hi. destruct (row_at_defined out i Hf Hb Hs0) as [r Hr]; [done|].
    exists r. split; [by eapply process_dataframe_row_ok|].
    destruct (row_at_fields _ _ _ Hr) as (_ & _ & _ & _ & _ & _ & _ & Ht & Hsrc).
    unfold str_at in Ht, Hsrc. by rewrite Hts in Ht; rewrite Hss in Hsrc. }
  assert (forall r, row_ok r ->
            (fail_type r = "Compliant" \/ fail_type r = "LUT exceedance"
               \/ fail_type r = "Max Limit Failure") /\
            (fail_source r = "None" \/ fail_source r = "BOD" \/ fail_source r = "COD") /\
            (fail_source r = "None" <-> fail_type r = "Compliant")) as Hcls.
  { intros r Hok. rewrite (ok_fail_type r Hok), (ok_fail_source r Hok).
    destruct (bod_lut_exc r), (bod_max_lim r), (cod_lut_exc r), (cod_max_lim r);
      simpl; (split; [auto | split; [auto | split; intros; done]]). }
  split; [|split].
  - apply Forall_lookup. intros i t Ht.
    destruct (Hrow i) as (r & Hok & Ht' & _); [apply lookup_lt_Some in Ht; lia|].
    rewrite Ht in Ht'. injection Ht' as ->. by apply Hcls.
  - apply Forall_lookup. intros i s Hsi.
    destruct (Hrow i) as (r & Hok & _ & Hs'); [apply lookup_lt_Some in Hsi; lia|].
    rewrite Hsi in Hs'. injection Hs' as ->. by apply Hcls.
  - intros i t s Ht Hsi.
    destruct (Hrow i) as (r & Hok & Ht' & Hs'); [apply lookup_lt_Some in Ht; lia|].
    rewrite Ht in Ht'. rewrite Hsi in Hs'. injection Ht' as ->. injection Hs' as ->.
    by apply Hcls.
Qed.

Lemma in_columns_Some d c s : columns d !! c = Some s -> in_columns d c = true.
Proof. intros H. unfold in_columns. apply bool_decide_eq_true_2. by rewrite H. Qed.

Lemma count_str_Some d c s v :
  columns d !! c = Some s -> count_str d c v = Ok (VInt (bool_sum (eq_str s v))).
Proof. intros H. unfold count_str, getitem. by rewrite H. Qed.

Lemma count_True_Some d c s :
  columns d !! c = Some s -> count_True d c = Ok (VInt (bool_sum (eq_True s))).
Proof. intros H. unfold count_True, getitem. by rewrite H. Qed.

(** X23: for processed frames [get_compliance_summary] lists every
    scenario, in order, and in each row the three type counts add up to the
    number of records, and the BOD and COD source counts add up to the number
    of non-compliant records. *)
Theorem compliance_summary_counts results :
  Forall (fun p => processed_frame p.2) results ->
  exists rows,
    get_compliance_summary results = Ok rows /\
    Forall2 (fun (p : string * DataFrame) row =>
      exists compliant lut max_limit bod cod : Z,
        row = [("Scenario", VStr p.1);
               ("Total Records", VInt (Z.of_nat (index p.2)));
               ("Compliant", VInt compliant);
               ("LUT Exceedance", VInt lut);
               ("Max Limit Failure", VInt max_limit);
               ("BOD Source", VInt bod);
               ("COD Source", VInt cod)] /\
        (compliant + lut + max_limit = Z.of_nat (index p.2))%Z /\
        (bod + cod = lut + max_limit)%Z) results rows.
Proof.
  induction 1 as [|[name d] results (df & limits & Hwf & Hrun) _ (rows & IH & Hrows)].
  { exists []. split; [done|constructor]. }
  cbn [snd] in Hrun.
  destruct (processed_labels df limits d Hwf Hrun)
    as (He & ts & ss & Hts & Hss & Lts & Lss & At & As & Hrel).
  eexists. split.
  - cbn [get_compliance_summary]. rewrite He, (in_columns_Some _ _ _ Hts).
    cbn [negb orb]. rewrite !(count_str_Some _ _ _ _ Hts), (in_columns_Some _ _ _ Hss).
    rewrite !(count_str_Some _ _ _ _ Hss), IH. reflexivity.
  - constructor; [|done]. do 5 eexists. split; [reflexivity|]. cbn [fst snd].
    pose proof (bool_sum_partition "Compliant" "LUT exceedance" "Max Limit Failure" ts) as Pt.
    pose proof (bool_sum_partition "None" "BOD" "COD" ss) as Ps.
    pose proof (bool_sum_related "Compliant" "None" ts ss) as Pr.
    specialize (Pt ltac:(done) ltac:(done) ltac:(done) At).
    specialize (Ps ltac:(done) ltac:(done) ltac:(done) As).
    specialize (Pr ltac:(lia) Hrel).
    split; lia.
Qed.

Lemma compliance_summary_counts_witness :
  exists rows,
    get_compliance_summary [("baseline", mixed_out)] = Ok rows /\
    Forall2 (fun (p : string * DataFrame) row =>
      exists compliant lut max_limit bod cod : Z,
        row = [("Scenario", VStr p.1);
               ("Total Records", VInt (Z.of_nat (index p.2)));
               ("Compliant", VInt compliant);
               ("LUT Exceedance", VInt lut);
               ("Max Limit Failure", VInt max_limit);
               ("BOD Source", VInt bod);
               ("COD Source", VInt cod)] /\
        (compliant + lut + max_limit = Z.of_nat (index p.2))%Z /\
        (bod + cod = lut + max_limit)%Z) [("baseline", mixed_out)] rows.
Proof.
  apply (compliance_summary_counts [("baseline", mixed_out)]).
  repeat constructor. exists mixed, None. split; [apply mixed_wf | apply mixed_run].
Defined.

(** X24: for processed frames [get_scenario_summary] raises nothing and
    lists every scenario; in each row the pass count equals the compliant
    count, the three type counts add up to the number of rows of the frame,
    and the BOD and COD source counts add up to the number of non-compliant
    rows. *)
Theorem scenario_summary_counts results :
  Forall (fun p => processed_frame p.2) results ->
  exists rows,
    get_scenario_summary results = Ok rows /\
    Forall2 (fun (p : string * DataFrame) row =>
      exists compliant lut max_limit bod cod pass bod_2 bod_3 : Z,
        row = [("Category", VStr p.1);
               ("Compliant Count", VInt compliant);
               ("LUT Exceedance Count", VInt lut);
               ("Max Limit Failure Count", VInt max_limit);
               ("BOD Source Count", VInt bod);
               ("COD Source Count", VInt cod);
               ("Pass Source Count", VInt pass);
               ("BOD 2 Limit", VInt bod_2);
               ("BOD 3 Limit", VInt bod_3)] /\
        pass = compliant /\
        (compliant + lut + max_limit = Z.of_nat (index p.2))%Z /\
        (bod + cod = lut + max_limit)%Z) results rows.
Proof.
  induction 1 as [|[name d] results (df & limits & Hwf & Hrun) _ (rows & IH & Hrows)].
  { exists []. split; [done|constructor]. }
  cbn [snd] in Hrun.
  destruct (processed_labels df limits d Hwf Hrun)
    as (He & ts & ss & Hts & Hss & Lts & Lss & At & As & Hrel).
  destruct (process_dataframe_columns _ _ _ Hrun) as (_ & _ & Hcomp & _).
  destruct (proj1 (Forall_forall _ _) Hcomp "c_BOD_2") as [s2 H2];
    [apply (bool_decide_unpack _); by vm_compute|].
  destruct (proj1 (Forall_forall _ _) Hcomp "c_BOD_3") as [s3 H3];
    [apply (bool_decide_unpack _); by vm_compute|].
  eexists. split.
  - cbn [get_scenario_summary]. rewrite He, (in_columns_Some _ _ _ Hts).
    cbn [negb orb]. rewrite !(count_str_Some _ _ _ _ Hts), (in_columns_Some _ _ _ Hss).
    rewrite !(count_str_Some _ _ _ _ Hss), (in_columns_Some _ _ _ H2).
    rewrite (count_True_Some _ _ _ H2), (count_True_Some _ _ _ H3), IH. reflexivity.
  - constructor; [|done]. do 8 eexists. split; [reflexivity|]. cbn [fst snd].
    pose proof (bool_sum_partition "Compliant" "LUT exceedance" "Max Limit Failure" ts) as Pt.
    pose proof (bool_sum_partition "None" "BOD" "COD" ss) as Ps.
    pose proof (bool_sum_related "Compliant" "None" ts ss) as Pr.
    specialize (Pt ltac:(done) ltac:(done) ltac:(done) At).
    specialize (Ps ltac:(done) ltac:(done) ltac:(done) As).
    specialize (Pr ltac:(lia) Hrel).
    split; [done|]. split; lia.
Qed.

Lemma scenario_summary_counts_witness :
  exists rows,
    get_scenario_summary [("baseline", mixed_out)] = Ok rows /\
    Forall2 (fun (p : string * DataFrame) row =>
      exists compliant lut max_limit bod cod pass bod_2 bod_3 : Z,
        row = [("Category", VStr p.1);
               ("Compliant Count", VInt compliant);
               ("LUT Exceedance Count", VInt lut);
               ("Max Limit Failure Count", VInt max_limit);
               ("BOD Source Count", VInt bod);
               ("COD Source Count", VInt cod);
               ("Pass Source Count", VInt pass);
               ("BOD 2 Limit", VInt bod_2);
               ("BOD 3 Limit", VInt bod_3)] /\
        pass = compliant /\
        (compliant + lut + max_limit = Z.of_nat (index p.2))%Z /\
        (bod + cod = lut + max_limit)%Z) [("baseline", mixed_out)] rows.
Proof.
  apply (scenario_summary_counts [("baseline", mixed_out)]).
  repeat constructor. exists mixed, None. split; [apply mixed_wf | apply mixed_run].
Defined.

Lemma in_columns_true d c : in_columns d c = true -> exists s, columns d !! c = Some s.
Proof. intros H%bool_decide_eq_true_1. by destruct H as [s ->]; eauto. Qed.

Lemma in_columns_false d c : in_columns d c = false -> columns d !! c = None.
Proof.
  intros H%bool_decide_eq_false_1. destruct (columns d !! c) eqn:E; [|done].
  by destruct H.
Qed.

(** X25: [get_scenario_summary] reads 'c_BOD_3' whenever 'c_BOD_2' is
    there: on a listed frame that has 'c_BOD_2' and lacks 'c_BOD_3' it raises
    KeyError('c_BOD_3'). *)
Theorem scenario_summary_key_error scenario_name d results :
  listed (scenario_name, d) = true ->
  in_columns d "c_BOD_2" = true -> in_columns d "c_BOD_3" = false ->
  get_scenario_summary ((scenario_name, d) :: results) = Raise (KeyError "c_BOD_3").
Proof.
  unfold listed. cbn [snd]. intros [He [s Hs]%in_columns_true]%andb_prop [s2 H2]%in_columns_true
    H3%in_columns_false.
  apply negb_true_iff in He.
  cbn [get_scenario_summary]. rewrite He, (in_columns_Some _ _ _ Hs). cbn [negb orb].
  rewrite !(count_str_Some _ _ _ _ Hs). cbn [mbind res_bind].
  assert (count_True d "c_BOD_3" = Raise (KeyError "c_BOD_3")) as E3
    by (unfold count_True, getitem; by rewrite H3).
  destruct (in_columns d "fail_source") eqn:Hsrc.
  - apply in_columns_true in Hsrc as [s' Hs'].
    rewrite !(count_str_Some _ _ _ _ Hs'). cbn [mbind res_bind].
    rewrite (in_columns_Some _ _ _ H2), (count_True_Some _ _ _ H2), E3. reflexivity.
  - cbn [mbind res_bind].
    rewrite (in_columns_Some _ _ _ H2), (count_True_Some _ _ _ H2), E3. reflexivity.
Qed.

Lemma scenario_summary_key_error_witness :
  get_scenario_summary
    [("baseline",
      mkDataFrame 1 (<["fail_type" := StrCol ["Compliant"]]>
                      (<["c_BOD_2" := BoolCol [true]]> ∅)))] =
    Raise (KeyError "c_BOD_3").
Proof. apply scenario_summary_key_error; by vm_compute. Defined.

(** X26: [get_compliance_summary] and [get_data_summary] raise nothing,
    whatever the frames; they list, in order, exactly the scenarios whose
    frame is not empty and has a 'fail_type' column; and the rows of
    [get_compliance_summary] are those of [get_data_summary] without the
    'Pass Source' entry. *)
Theorem summaries_list_scenarios results :
  exists rows rows',
    get_compliance_summary results = Ok rows /\
    get_data_summary results = Ok rows' /\
    (fun row : record => row !! 0%nat) <$> rows =
      (fun p => Some ("Scenario", VStr p.1)) <$> filter (fun p => listed p = true) results /\
    rows = (fun row : record => filter (fun kv => kv.1 <> "Pass Source") row) <$> rows'.
Proof.
  induction results as [|[name d] results (rows & rows' & IH & IH' & Hn & Hr)].
  { by exists [], []. }
  cbn [get_compliance_summary get_data_summary].
  destruct (listed (name, d)) eqn:Hl; unfold listed in Hl; cbn [snd] in Hl.
  - rewrite filter_cons_True by done.
    apply andb_prop in Hl as [He [s Hs]%in_columns_true]. apply negb_true_iff in He.
    rewrite He, (in_columns_Some _ _ _ Hs). cbn [negb orb].
    rewrite !(count_str_Some _ _ _ _ Hs). cbn [mbind res_bind].
    destruct (in_columns d "fail_source") eqn:Hsrc.
    + apply in_columns_true in Hsrc as [s' Hs'].
      rewrite !(count_str_Some _ _ _ _ Hs'), IH, IH'. cbn [mbind res_bind app].
      do 2 eexists. split; [reflexivity|]. split; [reflexivity|].
      rewrite !fmap_cons, Hn, Hr. split; reflexivity.
    + rewrite IH, IH'. cbn [mbind res_bind app].
      do 2 eexists. split; [reflexivity|]. split; [reflexivity|].
      rewrite !fmap_cons, Hn, Hr. split; reflexivity.
  - rewrite filter_cons_False by (unfold listed; cbn [snd]; by rewrite Hl).
    assert (df_empty d || negb (in_columns d "fail_type") = true) as ->.
    { destruct (df_empty d), (in_columns d "fail_type"); done. }
    eauto 10.
Qed.

(** X27: on a row whose deviations are not NaN, psi_2 is the least of the
    three indices of a pollutant: it is below psi_1 and below psi_3. *)
Theorem psi_2_is_least df limits out i r :
  process_dataframe df limits = Ok out -> row_at out i = Some r ->
  (is_nan (BODlt_BODeffl r) = false -> is_nan (bodp r) = false ->
   is_nan (BODut_BODeffl r) = false ->
   (bod_psi_2 r <=? bod_psi_1 r) = true /\ (bod_psi_2 r <=? bod_psi_3 r) = true) /\
  (is_nan (CODlt_CODeffl r) = false -> is_nan (codp r) = false ->
   is_nan (CODut_CODeffl r) = false ->
   (cod_psi_2 r <=? cod_psi_1 r) = true /\ (cod_psi_2 r <=? cod_psi_3 r) = true).
Proof.
  intros Hrun Hrow.
  pose proof (process_dataframe_row_ok _ _ _ _ _ Hrun Hrow) as Hok.
  split; intros H1 H2 H3.
  - rewrite (ok_bod_psi_1 r Hok), (ok_bod_psi_2 r Hok), (ok_bod_psi_3 r Hok).
    by apply psi_2_least.
  - rewrite (ok_cod_psi_1 r Hok), (ok_cod_psi_2 r Hok), (ok_cod_psi_3 r Hok).
    by apply psi_2_least.
Qed.

Lemma psi_2_is_least_witness :
  exists r,
    row_at mixed_out 1 = Some r /\
    (bod_psi_2 r <=? bod_psi_1 r) = true /\ (bod_psi_2 r <=? bod_psi_3 r) = true.
Proof.
  eexists. split; [by vm_compute|].
  edestruct (psi_2_is_least mixed None mixed_out 1) as [H _];
    [apply mixed_run | by vm_compute | apply H; by vm_compute].
Defined.

(** ** The recovery table *)

Lemma length_recovery_time_minutes ss time_step :
  length (compute_recovery_time_minutes ss time_step) =
    length (runs ((fun v => bool_decide (v ∈ default_failure_types)) <$> ss) None).
Proof.
  unfold compute_recovery_time_minutes.
  by rewrite length_map, compute_recovery_time_runs, length_fmap.
Qed.

(** X28: [get_recovery_analysis] raises nothing, whatever the frames; it
    has one row, in order, for each scenario whose frame has at least one run
    of non-compliant rows, and 'Num Events' is the number of these runs. *)
Theorem recovery_analysis_rows results time_step :
  exists rows,
    get_recovery_analysis results time_step = Ok rows /\
    (fun row : record => (row !! 0%nat, row !! 5%nat)) <$> rows =
      (fun p : string * DataFrame =>
         (Some ("Scenario", VStr p.1),
          Some ("Num Events", VInt (Z.of_nat (recovery_events p.2)))))
        <$> filter (fun p => (0 < recovery_events p.2)%nat) results.
Proof.
  induction results as [|[name d] results (rows & IH & Hrows)]; [by exists []|].
  cbn [get_recovery_analysis]. unfold recovery_events at 1 2. cbn [snd fst].
  destruct (df_empty d) eqn:He; cbn [orb].
  { rewrite filter_cons_False by (cbn [snd]; unfold recovery_events; rewrite He; lia). eauto. }
  unfold in_columns, getitem.
  destruct (columns d !! "fail_type") as [s|] eqn:Hs.
  2:{ rewrite bool_decide_eq_false_2 by (by intros [? ?]). cbn [negb].
      rewrite filter_cons_False
        by (cbn [snd]; unfold recovery_events; rewrite He, Hs; lia). eauto. }
  rewrite bool_decide_eq_true_2 by eauto. cbn [negb mbind res_bind].
  destruct s as [xs|bs|ss];
    try (rewrite filter_cons_False
           by (cbn [snd]; unfold recovery_events; rewrite He, Hs; lia); by eauto).
  pose proof (length_recovery_time_minutes ss time_step) as Hl.
  destruct (compute_recovery_time_minutes ss time_step) as [|t ts] eqn:Ht.
  - rewrite filter_cons_False
      by (cbn [snd]; unfold recovery_events; rewrite He, Hs, <- Hl; simpl; lia). eauto.
  - rewrite filter_cons_True
      by (cbn [snd]; unfold recovery_events; rewrite He, Hs, <- Hl; simpl; lia).
    rewrite IH. cbn [mbind res_bind]. eexists. split; [reflexivity|].
    rewrite !fmap_cons, Hrows. cbn [fst snd]. unfold recovery_events at 2.
    by rewrite He, Hs, <- Hl.
Qed.

(** ** Recovery times of a processed frame *)

(** X29: the default failure types of [compute_recovery_time] are exactly
    the labels other than 'Compliant' that the classification writes: on the
    [fail_type] column of a processed frame the recovery times are those of
    the maximal runs of rows that are not Compliant. *)
Theorem recovery_times_of_processed df limits out time_step :
  wf_frame df -> process_dataframe df limits = Ok out ->
  exists ts,
    columns out !! "fail_type" = Some (StrCol ts) /\ length ts = index out /\
    compute_recovery_time ts time_step default_failure_types =
      (fun n => py_round2 (Z_to_float n * default TIME_STEP time_step)) <$>
        runs ((fun v => bool_decide (v <> "Compliant")) <$> ts) None.
Proof.
  intros Hwf Hrun.
  destruct (processed_labels df limits out Hwf Hrun)
    as (_ & ts & ss & Hts & _ & Lts & _ & At & _).
  exists ts. do 2 (split; [done|]).
  rewrite compute_recovery_time_runs. do 2 f_equal.
  apply Forall_fmap_ext. eapply Forall_impl; [exact At|].
  intros t [->|[->| ->]]; by vm_compute.
Qed.

Lemma recovery_times_of_processed_witness :
  exists ts,
    columns mixed_out !! "fail_type" = Some (StrCol ts) /\ length ts = index mixed_out /\
    compute_recovery_time ts (Some 1) default_failure_types =
      (fun n => py_round2 (Z_to_float n * default TIME_STEP (Some 1))) <$>
        runs ((fun v => bool_decide (v <> "Compliant")) <$> ts) None.
Proof. apply (recovery_times_of_processed mixed None mixed_out (Some 1) mixed_wf mixed_run). Defined.
